(** * calcolatori-bench: the dashboard's rendering logic

    A shallow embedding of the client-side scripts of the benchmark site
    ([site/app.js] and the two index-page scripts of [unnamed/part_000])
    together with the part of the JavaScript and DOM semantics they rest
    on.

    Conventions of the model.
    - A JavaScript string is the list of its UTF-16 code units.
    - A number is an IEEE 754 binary64 value ([spec_float] at precision 53).
    - The result document is a JSON value; an object is the list of its own
      properties and inherits the members of [Object.prototype]: reading
      [constructor], [toString] and the like from an object that has no
      such property of its own yields the inherited member.  Such a member
      has none of the properties that the scripts read by a fixed name;
      what it yields under a computed name (that of a model or of an exam)
      depends on the browser: the model has [undefined] there, and the
      statements whose content depends on it leave the case out.
    - An object is printed as [[object Object]]: a document in which an
      object that gets printed or compared has a property named [toString]
      or [valueOf] is outside the model.
    - An element's content is the markup or text that was assigned to it.
      The browser's parse of that markup is modelled where a script reads
      it back: for the rows that the verbose script builds with
      [innerHTML +=].
    - The page shell provides every element the scripts look up by id. *)

From Stdlib Require Import ZArith NArith List String Ascii Bool Lia.
From Stdlib Require Import Floats.SpecFloat.
Import ListNotations.

Set Warnings "-register-all".
Local Open Scope N_scope.

(** ** Strings *)

Definition code_unit := N.
Definition jsstring := list code_unit.

(** [lit] reads a literal of the scripts.  Inside a literal the grave accent
    stands for the double quote (code unit 34), which the templates of the
    scripts use for attribute values. *)
Definition lit_unit (a : ascii) : code_unit :=
  let n := N_of_ascii a in if n =? 96 then 34 else n.

Fixpoint lit (s : string) : jsstring :=
  match s with
  | EmptyString => []
  | String a s' => lit_unit a :: lit s'
  end.
Arguments lit _%_string.

Definition unit_eqb : code_unit -> code_unit -> bool := N.eqb.

Fixpoint str_eqb (a b : jsstring) : bool :=
  match a, b with
  | [], [] => true
  | x :: a', y :: b' => unit_eqb x y && str_eqb a' b'
  | _, _ => false
  end.

(** [Array.prototype.join] on strings already converted. *)
Fixpoint join (sep : jsstring) (l : list jsstring) : jsstring :=
  match l with
  | [] => []
  | [x] => x
  | x :: rest => x ++ sep ++ join sep rest
  end.

Fixpoint repeat_unit (c : code_unit) (n : nat) : jsstring :=
  match n with
  | O => []
  | S n' => c :: repeat_unit c n'
  end.

(** Decimal digits of a natural number, most significant first. *)
Fixpoint uint_units (d : Decimal.uint) : jsstring :=
  match d with
  | Decimal.Nil => []
  | Decimal.D0 d => 48 :: uint_units d
  | Decimal.D1 d => 49 :: uint_units d
  | Decimal.D2 d => 50 :: uint_units d
  | Decimal.D3 d => 51 :: uint_units d
  | Decimal.D4 d => 52 :: uint_units d
  | Decimal.D5 d => 53 :: uint_units d
  | Decimal.D6 d => 54 :: uint_units d
  | Decimal.D7 d => 55 :: uint_units d
  | Decimal.D8 d => 56 :: uint_units d
  | Decimal.D9 d => 57 :: uint_units d
  end.

Definition decimal (n : N) : jsstring := uint_units (N.to_uint n).

(** ** Numbers *)

Module Num.

Local Open Scope Z_scope.

Definition number := spec_float.
Definition prec := 53.
Definition emax := 1024.

Definition nan : number := S754_nan.
Definition of_Z (z : Z) : number := binary_normalize prec emax z 0 false.
Definition div : number -> number -> number := SFdiv prec emax.
Definition ltb : number -> number -> bool := SFltb.
Definition leb : number -> number -> bool := SFleb.

Definition eqb (x y : number) : bool :=
  match x, y with
  | S754_zero a, S754_zero b => Bool.eqb a b
  | S754_infinity a, S754_infinity b => Bool.eqb a b
  | S754_nan, S754_nan => true
  | S754_finite a m e, S754_finite b m' e' =>
      Bool.eqb a b && Pos.eqb m m' && Z.eqb e e'
  | _, _ => false
  end.

(** [Math.floor]. *)
Definition floor (x : number) : number :=
  match x with
  | S754_finite s m e =>
      if 0 <=? e then x
      else binary_normalize prec emax (Z.shiftr (cond_Zopp s (Zpos m)) (- e)) 0 s
  | _ => x
  end.

(** The [%] operator on numbers (Number::remainder): the result has the sign
    of the dividend and is exact. *)
Definition rem (n d : number) : number :=
  match n, d with
  | S754_nan, _ | _, S754_nan => S754_nan
  | S754_infinity _, _ => S754_nan
  | _, S754_infinity _ => n
  | _, S754_zero _ => S754_nan
  | S754_zero _, _ => n
  | S754_finite sn mn en, S754_finite _ md ed =>
      let e := Z.min en ed in
      let a := Z.shiftl (Zpos mn) (en - e) in
      let b := Z.shiftl (Zpos md) (ed - e) in
      binary_normalize prec emax (cond_Zopp sn (a mod b)) e sn
  end.

(** The number nearest to [s * 10 ^ p], for a natural [s]. *)
Definition of_decimal (s : Z) (p : Z) : number :=
  if 0 <=? p then binary_normalize prec emax (s * 10 ^ p) 0 false
  else
    match s with
    | Zpos m => SFdiv prec emax (S754_finite false m 0)
                  (S754_finite false (Z.to_pos (10 ^ (- p))) 0)
    | _ => S754_zero false
    end.

(** *** Number::toString, radix 10 *)

(** The [n] with [10 ^ (n - 1) <= m * 2 ^ e < 10 ^ n]. *)
Fixpoint small_exponent (fuel : nat) (num den : Z) (n : Z) : Z :=
  match fuel with
  | O => n
  | S fuel' =>
      if den <=? num * 10 then n else small_exponent fuel' (num * 10) den (n - 1)
  end.

Definition decimal_exponent (m : positive) (e : Z) : Z :=
  if 0 <=? e then Z.of_nat (List.length (decimal (Z.to_N (Zpos m * 2 ^ e))))
  else
    let den := 2 ^ (- e) in
    let q := Zpos m / den in
    if 0 <? q then Z.of_nat (List.length (decimal (Z.to_N q)))
    else small_exponent 400 (Zpos m) den 0.

(** The shortest digit string [s] of [k] digits with
    [of_decimal s (n - k) = x], searched for [k = 18 - fuel, ...]. *)
Fixpoint shortest (fuel : nat) (x : number) (m : positive) (e n k : Z)
  : Z * Z :=
  match fuel with
  | O => (Zpos m, n)
  | S fuel' =>
      let num := Zpos m * (if 0 <=? e then 2 ^ e else 1)
                 * (if n <=? k then 10 ^ (k - n) else 1) in
      let den := (if 0 <=? e then 1 else 2 ^ (- e))
                 * (if n <=? k then 1 else 10 ^ (n - k)) in
      let lo := num / den in
      let hi := lo + 1 in
      let ok_lo := eqb (of_decimal lo (n - k)) x in
      let ok_hi := eqb (of_decimal hi (n - k)) x in
      let d_lo := num - lo * den in
      let d_hi := hi * den - num in
      let pick_lo :=
        ok_lo && (negb ok_hi || (d_lo <? d_hi) || ((d_lo =? d_hi) && Z.even lo)) in
      if pick_lo then (lo, n)
      else if ok_hi then (if hi =? 10 ^ k then (1, n + 1) else (hi, n))
      else shortest fuel' x m e n (k + 1)
  end.

Definition exponent_units (n : Z) : jsstring :=
  lit "e" ++ (if 0 <=? n - 1 then lit "+" else lit "-")
    ++ decimal (Z.to_N (Z.abs (n - 1))).

Definition to_string_pos (x : number) (m : positive) (e : Z) : jsstring :=
  let '(s, n) := shortest 17 x m e (decimal_exponent m e) 1 in
  let ds := decimal (Z.to_N s) in
  let k := Z.of_nat (List.length ds) in
  if (k <=? n) && (n <=? 21) then ds ++ repeat_unit 48%N (Z.to_nat (n - k))
  else if (0 <? n) && (n <=? 21) then
    firstn (Z.to_nat n) ds ++ lit "." ++ skipn (Z.to_nat n) ds
  else if (-6 <? n) && (n <=? 0) then
    lit "0." ++ repeat_unit 48%N (Z.to_nat (- n)) ++ ds
  else if k =? 1 then ds ++ exponent_units n
  else firstn 1 ds ++ lit "." ++ skipn 1 ds ++ exponent_units n.

Definition to_string (x : number) : jsstring :=
  match x with
  | S754_nan => lit "NaN"
  | S754_zero _ => lit "0"
  | S754_infinity s => if s then lit "-Infinity" else lit "Infinity"
  | S754_finite s m e =>
      (if s then lit "-" else []) ++ to_string_pos (S754_finite false m e) m e
  end.

(** *** StringToNumber *)

Definition is_space (c : code_unit) : bool :=
  existsb (N.eqb c)
    [9; 10; 11; 12; 13; 32; 160; 5760; 8232; 8233; 8239; 8287; 12288; 65279]%N
  || ((8192 <=? c) && (c <=? 8202))%N.

Fixpoint trim_start (s : jsstring) : jsstring :=
  match s with
  | c :: s' => if is_space c then trim_start s' else s
  | [] => []
  end.

Definition trim (s : jsstring) : jsstring :=
  rev (trim_start (rev (trim_start s))).

(** The value of a digit in a radix of at most 16, when it is one. *)
Definition digit_value (radix : N) (c : code_unit) : option Z :=
  let d :=
    (if (48 <=? c) && (c <=? 57) then Some (c - 48)
     else if (97 <=? c) && (c <=? 102) then Some (c - 87)
     else if (65 <=? c) && (c <=? 70) then Some (c - 55)
     else None)%N in
  match d with
  | Some v => if (v <? radix)%N then Some (Z.of_N v) else None
  | None => None
  end.

(** The longest prefix of digits, as (their value, their count, the rest). *)
Fixpoint digits (radix : N) (s : jsstring) (acc : Z) (count : nat)
  : Z * nat * jsstring :=
  match s with
  | c :: s' =>
      match digit_value radix c with
      | Some v => digits radix s' (acc * Z.of_N radix + v) (S count)
      | None => (acc, count, s)
      end
  | [] => (acc, count, [])
  end.

Definition parse_integer (radix : N) (s : jsstring) : option number :=
  match digits radix s 0 O with
  | (v, S _, []) => Some (of_Z v)
  | _ => None
  end.

(** ExponentPart, absent or filling the rest of the literal. *)
Definition parse_exponent (s : jsstring) : option Z :=
  match s with
  | [] => Some 0
  | c :: s' =>
      if (c =? 101)%N || (c =? 69)%N then
        let '(neg, s'') :=
          match s' with
          | 45%N :: r => (true, r)
          | 43%N :: r => (false, r)
          | _ => (false, s')
          end in
        match digits 10 s'' 0 O with
        | (v, S _, []) => Some (if neg then - v else v)
        | _ => None
        end
      else None
  end.

Definition parse_unsigned_decimal (s : jsstring) : option number :=
  if str_eqb s (lit "Infinity") then Some (S754_infinity false)
  else
    let '(ip, ni, r1) := digits 10 s 0 O in
    let '(m, nf, r2) :=
      match r1 with
      | 46%N :: r => digits 10 r ip O
      | _ => (ip, O, r1)
      end in
    match ni, nf with
    | O, O => None
    | _, _ =>
        match parse_exponent r2 with
        | Some ex => Some (of_decimal m (ex - Z.of_nat nf))
        | None => None
        end
    end.

Definition parse_decimal (s : jsstring) : option number :=
  match s with
  | 45%N :: s' =>
      match parse_unsigned_decimal s' with
      | Some x => Some (SFopp x)
      | None => None
      end
  | 43%N :: s' => parse_unsigned_decimal s'
  | _ => parse_unsigned_decimal s
  end.

Definition parse_literal (s : jsstring) : option number :=
  match s with
  | [] => Some (S754_zero false)
  | 48%N :: c :: s' =>
      if (c =? 120)%N || (c =? 88)%N then parse_integer 16 s'
      else if (c =? 111)%N || (c =? 79)%N then parse_integer 8 s'
      else if (c =? 98)%N || (c =? 66)%N then parse_integer 2 s'
      else parse_decimal s
  | _ => parse_decimal s
  end.

Definition of_string (s : jsstring) : number :=
  match parse_literal (trim s) with
  | Some x => x
  | None => nan
  end.

End Num.

Definition number : Type := Num.number.

(** ** Values and abrupt completion *)

(** A value of the result document, or what a lookup in it yields:
    [undefined], or the member of [Object.prototype] of a given name. *)
Inductive value : Type :=
| VUndefined
| VNull
| VBool (b : bool)
| VNum (x : number)
| VStr (s : jsstring)
| VArr (items : list value)
| VObj (props : list (jsstring * value))
| VNative (name : jsstring).

Inductive error : Type := TypeError | URIError | LoadError.

Inductive result (A : Type) : Type :=
| Ok (a : A)
| Throw (e : error).
Arguments Ok {A} a.
Arguments Throw {A} e.

Definition rbind {A B} (r : result A) (k : A -> result B) : result B :=
  match r with
  | Ok a => k a
  | Throw e => Throw e
  end.

Declare Scope js_scope.
Delimit Scope js_scope with js.
Notation "x <- r ;; k" := (rbind r (fun x => k))
  (at level 61, r at next level, right associativity) : js_scope.
Notation "' p <- r ;; k" := (rbind r (fun x => match x with p => k end))
  (at level 61, p pattern, r at next level, right associativity) : js_scope.
Local Open Scope js_scope.

(** [Array.prototype.map] with a callback that may throw; the callback
    receives the element and its index. *)
Fixpoint map_from {A B} (f : A -> nat -> result B) (l : list A) (i : nat)
  : result (list B) :=
  match l with
  | [] => Ok []
  | x :: l' =>
      y <- f x i ;;
      ys <- map_from f l' (S i) ;;
      Ok (y :: ys)
  end.

Definition map_indexed {A B} (f : A -> nat -> result B) (l : list A)
  : result (list B) := map_from f l 0.

(** The same, for a callback that also updates a local variable of the
    enclosing function (here the counter [passed]). *)
Fixpoint map_counting {A B} (f : A -> nat -> result (B * nat)) (l : list A)
  (count : nat) : result (list B * nat) :=
  match l with
  | [] => Ok ([], count)
  | x :: l' =>
      '(y, count') <- f x count ;;
      '(ys, count'') <- map_counting f l' count' ;;
      Ok (y :: ys, count'')
  end.

(** *** Conversions *)

Definition is_nullish (v : value) : bool :=
  match v with
  | VUndefined | VNull => true
  | _ => false
  end.

(** The text of an inherited member: [Object.prototype] itself prints as
    an object, a function as its native source text. *)
Definition native_text (name : jsstring) : jsstring :=
  if str_eqb name (lit "__proto__") then lit "[object Object]"
  else
    lit "function " ++
    (if str_eqb name (lit "constructor") then lit "Object" else name) ++
    lit "() { [native code] }".

(** ToString; an array prints its elements joined by commas. *)
Fixpoint to_string (v : value) : jsstring :=
  match v with
  | VUndefined => lit "undefined"
  | VNull => lit "null"
  | VBool true => lit "true"
  | VBool false => lit "false"
  | VNum x => Num.to_string x
  | VStr s => s
  | VArr items =>
      join (lit ",")
        (map (fun x => if is_nullish x then [] else to_string x) items)
  | VObj _ => lit "[object Object]"
  | VNative name => native_text name
  end.

(** [Array.prototype.join]. *)
Definition array_join (sep : jsstring) (items : list value) : jsstring :=
  join sep (map (fun x => if is_nullish x then [] else to_string x) items).

(** ToNumber. *)
Definition to_number (v : value) : number :=
  match v with
  | VUndefined => Num.nan
  | VNull => S754_zero false
  | VBool true => Num.of_Z 1
  | VBool false => S754_zero false
  | VNum x => x
  | VStr s => Num.of_string s
  | VArr _ | VObj _ | VNative _ => Num.of_string (to_string v)
  end.

(** ToBoolean. *)
Definition truthy (v : value) : bool :=
  match v with
  | VUndefined | VNull => false
  | VBool b => b
  | VNum (S754_zero _) | VNum S754_nan => false
  | VNum _ => true
  | VStr [] => false
  | VStr _ => true
  | VArr _ | VObj _ | VNative _ => true
  end.

(** [v === true] and [v === false]. *)
Definition is_true (v : value) : bool :=
  match v with VBool true => true | _ => false end.
Definition is_false (v : value) : bool :=
  match v with VBool false => true | _ => false end.

(** [a || b]. *)
Definition or_else (a b : value) : value := if truthy a then a else b.

(** [Array.isArray]. *)
Definition isArray (v : value) : bool :=
  match v with VArr _ => true | _ => false end.

(** *** Property access *)

Fixpoint own_property (k : jsstring) (props : list (jsstring * value))
  : option value :=
  match props with
  | [] => None
  | (k', v) :: props' => if str_eqb k k' then Some v else own_property k props'
  end.

(** The names of the members of [Object.prototype]. *)
Definition inherited (k : jsstring) : bool :=
  existsb (str_eqb k)
    [lit "constructor"; lit "hasOwnProperty"; lit "isPrototypeOf";
     lit "propertyIsEnumerable"; lit "toLocaleString"; lit "toString";
     lit "valueOf"; lit "__proto__"; lit "__defineGetter__";
     lit "__defineSetter__"; lit "__lookupGetter__"; lit "__lookupSetter__"].

(** [obj[k]] for an object of the document: its own property, or the
    member it inherits. *)
Definition property (k : jsstring) (props : list (jsstring * value)) : value :=
  match own_property k props with
  | Some v => v
  | None => if inherited k then VNative k else VUndefined
  end.

(** The index a property name denotes, when it is a canonical one. *)
Definition array_index (k : jsstring) : option N :=
  match Num.digits 10 k 0 O with
  | (v, S _, []) =>
      if str_eqb k (decimal (Z.to_N v)) then Some (Z.to_N v) else None
  | _ => None
  end.

(** The element at an index, when there is one. *)
Definition element_at {A} (l : list A) (i : N) : option A :=
  if i <? N.of_nat (List.length l) then nth_error l (N.to_nat i) else None.

Definition length_value {A} (l : list A) : value :=
  VNum (Num.of_Z (Z.of_nat (List.length l))).

(** [v.k] and [v[k]]: reading a property of [undefined] or [null] throws.
    An inherited member has none of the properties that the scripts read
    of an entry by a fixed name ([passed], [total], [output], ...); under
    a computed name it is taken to yield [undefined] as well. *)
Definition get (v : value) (k : jsstring) : result value :=
  match v with
  | VUndefined | VNull => Throw TypeError
  | VBool _ | VNum _ | VNative _ => Ok VUndefined
  | VObj props => Ok (property k props)
  | VArr items =>
      if str_eqb k (lit "length") then Ok (length_value items)
      else match array_index k with
           | Some i => Ok (match element_at items i with
                           | Some x => x
                           | None => VUndefined
                           end)
           | None => Ok VUndefined
           end
  | VStr s =>
      if str_eqb k (lit "length") then Ok (length_value s)
      else match array_index k with
           | Some i => Ok (match element_at s i with
                           | Some c => VStr [c]
                           | None => VUndefined
                           end)
           | None => Ok VUndefined
           end
  end.

(** [v?.k] and [v?.[k]]. *)
Definition get_opt (v : value) (k : jsstring) : result value :=
  if is_nullish v then Ok VUndefined else get v k.

(** [v[key]] with a computed key. *)
Definition get_at (v key : value) : result value := get v (to_string key).
Definition get_opt_at (v key : value) : result value :=
  get_opt v (to_string key).

(** The elements an array method iterates over; calling [map], [forEach]
    or [join] on anything else is calling [undefined]. *)
Definition elements (v : value) : result (list value) :=
  match v with
  | VArr items => Ok items
  | _ => Throw TypeError
  end.

(** ToString of a loop counter or of an array's length: these are integers
    below 2^53, whose numeral is the decimal one. *)
Definition show_count (n : nat) : jsstring := decimal (N.of_nat n).

(** ** The platform functions the scripts call *)

(** *** [esc]: text serialised as element content

    The scripts escape by assigning the text to the [textContent] of a fresh
    [div] and reading its [innerHTML] back.  The setter takes [null] and
    [undefined] to the empty text and any other value to its string; the
    getter serialises the text node, replacing [&], U+00A0, [<] and [>]. *)
Definition text_of (v : value) : jsstring :=
  if is_nullish v then [] else to_string v.

Definition escape_unit (c : code_unit) : jsstring :=
  if c =? 38 then lit "&amp;"
  else if c =? 160 then lit "&nbsp;"
  else if c =? 60 then lit "&lt;"
  else if c =? 62 then lit "&gt;"
  else [c].

Definition serialize_text (s : jsstring) : jsstring := flat_map escape_unit s.

Definition esc (s : value) : jsstring :=
  let d_textContent := text_of s in
  serialize_text d_textContent.

(** What the HTML tokenizer reads back from element content in which the
    only character references are these four. *)
Fixpoint decode_text (s : jsstring) : jsstring :=
  match s with
  | [] => []
  | 38 :: 97 :: 109 :: 112 :: 59 :: r => 38 :: decode_text r
  | 38 :: 108 :: 116 :: 59 :: r => 60 :: decode_text r
  | 38 :: 103 :: 116 :: 59 :: r => 62 :: decode_text r
  | 38 :: 110 :: 98 :: 115 :: 112 :: 59 :: r => 160 :: decode_text r
  | c :: r => c :: decode_text r
  end.

(** *** [innerHTML] read back

    [row.innerHTML += html] assigns the [innerHTML] of the row followed by
    [html], and the [innerHTML] of the row is the serialisation of what the
    parser made of the markup assigned before.  The rows that the verbose
    script builds in this way hold cells only, and the parser is modelled
    for such markup: a sequence of [td] and [th] elements, each with no
    attribute or with one [class] attribute in double quotes, and with text
    for content, in which a character reference is one of the four that
    [esc] writes or a decimal one.  [cells_of] is [None] on any other
    markup, which [read_back] leaves as it is. *)

(** The input stream: a CR LF pair and a lone CR are read as LF. *)
Fixpoint normalize_newlines (s : jsstring) : jsstring :=
  match s with
  | [] => []
  | c :: r =>
      if c =? 13 then
        10 :: match r with
              | d :: r' =>
                  if d =? 10 then normalize_newlines r'
                  else normalize_newlines r
              | [] => []
              end
      else c :: normalize_newlines r
  end.

Inductive token : Type :=
| StartTag (name attributes : jsstring)
| EndTag (name : jsstring)
| Character (c : code_unit).

(** The rest of [s] after the prefix [p]. *)
Fixpoint strip_prefix (p s : jsstring) : option jsstring :=
  match p, s with
  | [], _ => Some s
  | a :: p', b :: s' => if unit_eqb a b then strip_prefix p' s' else None
  | _ :: _, [] => None
  end.

(** A code unit that a class attribute holds without an escape, in the
    source and in the serialisation alike. *)
Definition class_unit (c : code_unit) : bool :=
  ((97 <=? c) && (c <=? 122)) || ((65 <=? c) && (c <=? 90))
  || ((48 <=? c) && (c <=? 57)) || (c =? 45) || (c =? 95) || (c =? 32).

(** Such code units up to a closing double quote, which ends the tag. *)
Fixpoint quoted_value (s : jsstring) : bool :=
  match s with
  | [] => false
  | c :: r =>
      match r with
      | [] => c =? 34
      | _ => class_unit c && quoted_value r
      end
  end.

(** The attributes of a start tag as they are written: none, or one
    [class] attribute.  Their serialisation is the same text. *)
Definition attributes_read (a : jsstring) : bool :=
  match a with
  | [] => true
  | _ =>
      match strip_prefix (lit " class=`") a with
      | Some v => quoted_value v
      | None => false
      end
  end.

Definition cell_name (n : jsstring) : bool :=
  str_eqb n (lit "td") || str_eqb n (lit "th").

(** The tag written between [<] and [>]. *)
Definition tag_of (s : jsstring) : option token :=
  match s with
  | c :: n =>
      if c =? 47 then if cell_name n then Some (EndTag n) else None
      else
        match n with
        | d :: a =>
            if cell_name [c; d] && attributes_read a then
              Some (StartTag [c; d] a)
            else None
        | [] => None
        end
  | [] => None
  end.

(** The character that the reference written between [&] and [;] stands
    for: one of the four names, or a decimal number of a printable
    character of the Basic Multilingual Plane. *)
Definition reference (name : jsstring) : option code_unit :=
  if str_eqb name (lit "amp") then Some 38
  else if str_eqb name (lit "lt") then Some 60
  else if str_eqb name (lit "gt") then Some 62
  else if str_eqb name (lit "nbsp") then Some 160
  else
    match name with
    | c :: ds =>
        if c =? 35 then
          match Num.digits 10 ds 0 O with
          | (v, S _, []) =>
              let n := Z.to_N v in
              if ((32 <=? n) && (n <=? 126)) || ((160 <=? n) && (n <? 55296))
              then Some n
              else None
          | _ => None
          end
        else None
    | [] => None
    end.

(** The states of the tokenizer: in text, after [<], after [&]. *)
Inductive reading : Type :=
| Data
| TagOpen (seen : jsstring)
| CharacterReference (seen : jsstring).

Fixpoint tokenize (st : reading) (s : jsstring) : option (list token) :=
  match s with
  | [] => match st with Data => Some [] | _ => None end
  | c :: r =>
      match st with
      | Data =>
          if c =? 60 then tokenize (TagOpen []) r
          else if c =? 38 then tokenize (CharacterReference []) r
          else option_map (cons (Character c)) (tokenize Data r)
      | TagOpen seen =>
          if c =? 62 then
            match tag_of seen with
            | Some t => option_map (cons t) (tokenize Data r)
            | None => None
            end
          else tokenize (TagOpen (seen ++ [c])) r
      | CharacterReference seen =>
          if c =? 59 then
            match reference seen with
            | Some u => option_map (cons (Character u)) (tokenize Data r)
            | None => None
            end
          else tokenize (CharacterReference (seen ++ [c])) r
      end
  end.

(** A cell of a row: its tag name, its attributes as written and its
    text. *)
Record cell_element : Type := {
  element_name : jsstring;
  element_attributes : jsstring;
  element_text : jsstring;
}.

(** Tree construction in a row: a start tag opens a cell, characters are
    its text (U+0000 is ignored), the matching end tag closes it. *)
Fixpoint build (open : option cell_element) (ts : list token)
  : option (list cell_element) :=
  match ts with
  | [] => match open with None => Some [] | Some _ => None end
  | t :: ts' =>
      match open, t with
      | None, StartTag n a =>
          build (Some {| element_name := n; element_attributes := a;
                         element_text := [] |}) ts'
      | Some c, Character u =>
          build (Some {| element_name := element_name c;
                         element_attributes := element_attributes c;
                         element_text :=
                           if u =? 0 then element_text c
                           else element_text c ++ [u] |}) ts'
      | Some c, EndTag n =>
          if str_eqb n (element_name c) then
            option_map (cons c) (build None ts')
          else None
      | _, _ => None
      end
  end.

Definition cells_of (html : jsstring) : option (list cell_element) :=
  match tokenize Data (normalize_newlines html) with
  | Some ts => build None ts
  | None => None
  end.

Definition serialize_cell (c : cell_element) : jsstring :=
  lit "<" ++ element_name c ++ element_attributes c ++ lit ">" ++
  serialize_text (element_text c) ++
  lit "</" ++ element_name c ++ lit ">".

(** The [innerHTML] of an element to whose [innerHTML] [html] was
    assigned. *)
Definition read_back (html : jsstring) : jsstring :=
  match cells_of html with
  | Some cells => flat_map serialize_cell cells
  | None => html
  end.

(** *** [encodeURIComponent] *)

Definition unreserved (c : code_unit) : bool :=
  ((48 <=? c) && (c <=? 57)) || ((65 <=? c) && (c <=? 90))
  || ((97 <=? c) && (c <=? 122))
  || existsb (N.eqb c) [45; 95; 46; 33; 126; 42; 39; 40; 41].

Definition is_high_surrogate (c : code_unit) : bool :=
  (55296 <=? c) && (c <=? 56319).
Definition is_low_surrogate (c : code_unit) : bool :=
  (56320 <=? c) && (c <=? 57343).

Definition hex_digit (n : N) : code_unit := if n <? 10 then 48 + n else 55 + n.
Definition percent (byte : N) : jsstring :=
  [37; hex_digit (byte / 16); hex_digit (byte mod 16)].

Definition utf8 (cp : N) : list N :=
  if cp <? 128 then [cp]
  else if cp <? 2048 then [192 + cp / 64; 128 + cp mod 64]
  else if cp <? 65536 then
    [224 + cp / 4096; 128 + (cp / 64) mod 64; 128 + cp mod 64]
  else
    [240 + cp / 262144; 128 + (cp / 4096) mod 64; 128 + (cp / 64) mod 64;
     128 + cp mod 64].

Fixpoint encode (s : jsstring) : result jsstring :=
  match s with
  | [] => Ok []
  | c :: s' =>
      if unreserved c then r <- encode s' ;; Ok (c :: r)
      else if is_low_surrogate c then Throw URIError
      else if is_high_surrogate c then
        match s' with
        | d :: s'' =>
            if is_low_surrogate d then
              r <- encode s'' ;;
              Ok (flat_map percent
                    (utf8 ((c - 55296) * 1024 + (d - 56320) + 65536)) ++ r)
            else Throw URIError
        | [] => Throw URIError
        end
      else r <- encode s' ;; Ok (flat_map percent (utf8 c) ++ r)
  end.

Definition encodeURIComponent (v : value) : result jsstring :=
  encode (to_string v).

(** *** [String.prototype.includes] and [Array.prototype.includes] *)

Fixpoint is_prefix (p s : jsstring) : bool :=
  match p, s with
  | [], _ => true
  | a :: p', b :: s' => unit_eqb a b && is_prefix p' s'
  | _ :: _, [] => false
  end.

Fixpoint is_substring (p s : jsstring) : bool :=
  is_prefix p s ||
  match s with
  | [] => false
  | _ :: s' => is_substring p s'
  end.

(** SameValueZero against a string. *)
Definition same_string (name : jsstring) (v : value) : bool :=
  match v with
  | VStr s => str_eqb s name
  | _ => false
  end.

(** [v?.includes(name)] for a string [name]. *)
Definition includes_opt (v : value) (name : jsstring) : result value :=
  match v with
  | VUndefined | VNull => Ok VUndefined
  | VArr items => Ok (VBool (existsb (same_string name) items))
  | VStr s => Ok (VBool (is_substring name s))
  | VBool _ | VNum _ | VObj _ | VNative _ => Throw TypeError
  end.

(** ** The page *)

Inductive element_id : Type :=
| leaderboard_body_id   (* leaderboard-body *)
| results_head_id       (* results-head *)
| results_header_id     (* results-header *)
| results_body_id       (* results-body *)
| total_models_id       (* total-models *)
| total_exams_id        (* total-exams *)
| last_updated_id       (* last-updated *)
| model_name_id         (* model-name *)
| model_stats_id        (* model-stats *)
| exams_container_id.   (* exams-container *)

Definition element_id_eqb (a b : element_id) : bool :=
  match a, b with
  | leaderboard_body_id, leaderboard_body_id
  | results_head_id, results_head_id
  | results_header_id, results_header_id
  | results_body_id, results_body_id
  | total_models_id, total_models_id
  | total_exams_id, total_exams_id
  | last_updated_id, last_updated_id
  | model_name_id, model_name_id
  | model_stats_id, model_stats_id
  | exams_container_id, exams_container_id => true
  | _, _ => false
  end.

(** What an element holds: markup assigned through [innerHTML], text
    assigned through [textContent], or a child element appended to it
    (with the markup of its own content). *)
Inductive node : Type :=
| Markup (html : jsstring)
| Text (data : jsstring)
| Element (tag : jsstring) (html : jsstring).

Record page : Type := {
  content : element_id -> list node;
  title : jsstring;                    (* document.title *)
  location_href : jsstring;            (* window.location.href *)
}.

Definition M (A : Type) : Type := page -> result A * page.

Definition ret {A} (a : A) : M A := fun p => (Ok a, p).
Definition lift {A} (r : result A) : M A := fun p => (r, p).
Definition bind {A B} (m : M A) (k : A -> M B) : M B :=
  fun p => match m p with
           | (Ok a, p') => k a p'
           | (Throw e, p') => (Throw e, p')
           end.

Declare Scope dom_scope.
Delimit Scope dom_scope with dom.
Notation "x <- m ;; k" := (bind m (fun x => k))
  (at level 61, m at next level, right associativity) : dom_scope.
Notation "m ;; k" := (bind m (fun _ => k))
  (at level 61, right associativity) : dom_scope.

(** [try { body } catch (e) { handler }]. *)
Definition try_catch (body handler : M unit) : M unit :=
  fun p => match body p with
           | (Ok _, p') => (Ok tt, p')
           | (Throw _, p') => handler p'
           end.

Definition put_content (id : element_id) (c : list node) : M unit :=
  fun p => (Ok tt,
            {| content := fun i => if element_id_eqb i id then c else content p i;
               title := title p;
               location_href := location_href p |}).

(** [el.innerHTML = html], [el.textContent = text], [el.appendChild(row)]. *)
Definition set_innerHTML (id : element_id) (html : jsstring) : M unit :=
  put_content id (match html with [] => [] | _ => [Markup html] end).

Definition set_textContent (id : element_id) (text : jsstring) : M unit :=
  put_content id (match text with [] => [] | _ => [Text text] end).

Definition appendChild (id : element_id) (child : node) : M unit :=
  fun p => put_content id (content p id ++ [child]) p.

Definition set_title (t : jsstring) : M unit :=
  fun p => (Ok tt, {| content := content p; title := t;
                      location_href := location_href p |}).

Definition set_location_href (url : jsstring) : M unit :=
  fun p => (Ok tt, {| content := content p; title := title p;
                      location_href := url |}).

(** [Array.prototype.forEach] with a callback acting on the page. *)
Fixpoint forEach {A} (f : A -> nat -> M unit) (l : list A) (i : nat)
  : M unit :=
  match l with
  | [] => ret tt
  | x :: l' => bind (f x i) (fun _ => forEach f l' (S i))
  end.

(** The outcome of [fetch] followed by the parse of its body: the parsed
    document, or a rejection (no response, a response that is not OK where
    the script checks it, or a body that is not JSON). *)
Inductive fetched : Type :=
| Loaded (data : value)
| Failed.

Definition await (r : fetched) : M value :=
  match r with
  | Loaded data => ret data
  | Failed => lift (Throw LoadError)
  end.

(** In each script a template literal is a function of the strings that
    are interpolated into it. *)

(** ** [site/app.js], the index page (lines 1 to 47) *)

Module SiteIndex.

Definition no_results : jsstring :=
  lit "<tr><td colspan=`4`>No results yet</td></tr>".

Definition row_markup (uri rank name passed total percentage : jsstring)
  : jsstring :=
  lit "
            <tr onclick=`window.location.href='detail.html?model=" ++
  uri ++
  lit "'` class=`clickable`>
                <td class=`rank`>" ++
  rank ++
  lit "</td>
                <td class=`model`>" ++
  name ++
  lit "</td>
                <td class=`score`>" ++
  passed ++
  lit "/" ++
  total ++
  lit "</td>
                <td class=`bar-cell`><div class=`bar`><div class=`bar-fill` style=`width:" ++
  percentage ++
  lit "%`></div></div></td>
            </tr>
        ".

(** The callback of [data.models.map]. *)
Definition leaderboard_row (data model : value) (i : nat) : result jsstring :=
  (model_stats <- get data (lit "model_stats") ;;
   s <- get_at model_stats model ;;
   uri <- encodeURIComponent model ;;
   passed <- get s (lit "passed") ;;
   total <- get s (lit "total") ;;
   percentage <- get s (lit "percentage") ;;
   Ok (row_markup uri (show_count (i + 1)) (esc model) (to_string passed)
         (to_string total) (to_string percentage)))%js.

Definition renderLeaderboard (data : value) : M unit :=
  (let tbody := leaderboard_body_id in
   models <- lift (get data (lit "models")) ;;
   len <- lift (get_opt models (lit "length")) ;;
   if negb (truthy len) then set_innerHTML tbody no_results
   else
     items <- lift (elements models) ;;
     rows <- lift (map_indexed (leaderboard_row data) items) ;;
     set_innerHTML tbody (join [] rows))%dom.

End SiteIndex.

(** ** The compact index script (unnamed part 0, lines 1 to 68) *)

Module MatrixA.

Definition no_results : jsstring :=
  lit "<tr><td colspan=`4`>No results yet</td></tr>".

Definition row_markup (rank name passed total percentage : jsstring)
  : jsstring :=
  lit "
            <tr>
                <td class=`rank`>" ++
  rank ++
  lit "</td>
                <td class=`model`>" ++
  name ++
  lit "</td>
                <td class=`score`>" ++
  passed ++
  lit "/" ++
  total ++
  lit "</td>
                <td class=`bar-cell`><div class=`bar`><div class=`bar-fill` style=`width:" ++
  percentage ++
  lit "%`></div></div></td>
            </tr>
        ".

Definition leaderboard_row (data model : value) (i : nat) : result jsstring :=
  (model_stats <- get data (lit "model_stats") ;;
   s <- get_at model_stats model ;;
   passed <- get s (lit "passed") ;;
   total <- get s (lit "total") ;;
   percentage <- get s (lit "percentage") ;;
   Ok (row_markup (show_count (i + 1)) (esc model) (to_string passed)
         (to_string total) (to_string percentage)))%js.

Definition renderLeaderboard (data : value) : M unit :=
  (let tbody := leaderboard_body_id in
   models <- lift (get data (lit "models")) ;;
   len <- lift (get_opt models (lit "length")) ;;
   if negb (truthy len) then set_innerHTML tbody no_results
   else
     items <- lift (elements models) ;;
     rows <- lift (map_indexed (leaderboard_row data) items) ;;
     set_innerHTML tbody (join [] rows))%dom.

Definition pass_cell : jsstring := lit "<td class=`pass`>&#10003;</td>".
Definition fail_cell : jsstring := lit "<td class=`fail`>&#10007;</td>".
Definition na_cell : jsstring := lit "<td class=`na`>-</td>".

Definition header_cell (e : value) : jsstring :=
  lit "<th>" ++ esc e ++ lit "</th>".

Definition head_markup (cells : jsstring) : jsstring :=
  lit "<tr><th class=`model-col`>Model</th>" ++ cells ++
  lit "<th>Total</th></tr>".

Definition body_row_markup (name cells passed total : jsstring) : jsstring :=
  lit "<tr><td class=`model-col`>" ++ name ++ lit "</td>" ++ cells ++
  lit "<td class=`pass`>" ++ passed ++ lit "/" ++ total ++ lit "</td></tr>".

(** The callback of the inner [data.exams.map]; [passed] is the counter of
    the enclosing row. *)
Definition cell (data model exam : value) (passed : nat)
  : result (jsstring * nat) :=
  (exam_results <- get data (lit "exam_results") ;;
   of_exam <- get_at exam_results exam ;;
   r <- get_opt_at of_exam model ;;
   p <- get_opt r (lit "passed") ;;
   if is_true p then Ok (pass_cell, S passed)
   else
     p' <- get_opt r (lit "passed") ;;
     if is_false p' then Ok (fail_cell, passed)
     else Ok (na_cell, passed))%js.

(** The callback of the outer [data.models.map]. *)
Definition body_row (data model : value) (_ : nat) : result jsstring :=
  (let passed := O in
   exams <- get data (lit "exams") ;;
   exam_items <- elements exams ;;
   '(cells, passed) <- map_counting (cell data model) exam_items passed ;;
   Ok (body_row_markup (esc model) (join [] cells) (show_count passed)
         (show_count (List.length exam_items))))%js.

Definition renderDetailed (data : value) : M unit :=
  (let thead := results_head_id in
   let tbody := results_body_id in
   models <- lift (get data (lit "models")) ;;
   models_length <- lift (get_opt models (lit "length")) ;;
   if negb (truthy models_length) then ret tt
   else
     exams <- lift (get data (lit "exams")) ;;
     exams_length <- lift (get_opt exams (lit "length")) ;;
     if negb (truthy exams_length) then ret tt
     else
       exam_items <- lift (elements exams) ;;
       set_innerHTML thead (head_markup (join [] (map header_cell exam_items))) ;;
       model_items <- lift (elements models) ;;
       rows <- lift (map_indexed (body_row data) model_items) ;;
       set_innerHTML tbody (join [] rows))%dom.

End MatrixA.

(** ** The verbose index script (unnamed part 0, lines 70 to 174) *)

Module MatrixB.

Definition escapeHtml (text : value) : jsstring :=
  let div_textContent := text_of text in
  serialize_text div_textContent.

Definition no_results : jsstring :=
  lit "<tr><td colspan=`4` style=`text-align:center`>No results available yet</td></tr>".

Definition no_detailed_results : jsstring :=
  lit "<tr><td style=`text-align:center`>No detailed results available</td></tr>".

(** [v.length === 0]. *)
Definition length_is_zero (v : value) : result bool :=
  (len <- get v (lit "length") ;;
   Ok (match len with VNum (S754_zero _) => true | _ => false end))%js.

(** [!v || v.length === 0]. *)
Definition missing_or_empty (v : value) : result bool :=
  if negb (truthy v) then Ok true else length_is_zero v.

Definition row_markup (rank name passed total percentage : jsstring)
  : jsstring :=
  lit "
            <td class=`rank`>#" ++
  rank ++
  lit "</td>
            <td class=`model-name`>" ++
  name ++
  lit "</td>
            <td class=`score-pass`>" ++
  passed ++
  lit "/" ++
  total ++
  lit "</td>
            <td>
                <div class=`progress-bar`>
                    <div class=`progress-fill` style=`width: " ++
  percentage ++
  lit "%`></div>
                </div>
                <span style=`margin-left: 10px;`>" ++
  percentage ++
  lit "%</span>
            </td>
        ".

(** The callback of [data.models.forEach]: one [tr] is created, filled and
    appended per model. *)
Definition leaderboard_row (data model : value) (index : nat) : M unit :=
  (let tbody := leaderboard_body_id in
   model_stats <- lift (get data (lit "model_stats")) ;;
   stats <- lift (get_at model_stats model) ;;
   let rank := (index + 1)%nat in
   passed <- lift (get stats (lit "passed")) ;;
   total <- lift (get stats (lit "total")) ;;
   percentage <- lift (get stats (lit "percentage")) ;;
   let row_innerHTML :=
     row_markup (show_count rank) (escapeHtml model) (to_string passed)
       (to_string total) (to_string percentage) in
   appendChild tbody (Element (lit "tr") row_innerHTML))%dom.

Definition renderLeaderboard (data : value) : M unit :=
  (let tbody := leaderboard_body_id in
   set_innerHTML tbody [] ;;
   models <- lift (get data (lit "models")) ;;
   none <- lift (missing_or_empty models) ;;
   if (none : bool) then set_innerHTML tbody no_results
   else
     items <- lift (elements models) ;;
     forEach (leaderboard_row data) items 0)%dom.

Definition pass_cell : jsstring := lit "<td class=`pass-icon`>&#10004;</td>".
Definition fail_cell : jsstring := lit "<td class=`fail-icon`>&#10008;</td>".
Definition na_cell : jsstring :=
  lit "<td class=`na-icon`>" ++ [8212] ++ lit "</td>".

Definition name_cell (name : jsstring) : jsstring :=
  lit "<td class=`model-name`>" ++ name ++ lit "</td>".

Definition score_cell (passed total : jsstring) : jsstring :=
  lit "<td class=`score-pass`>" ++ passed ++ lit "/" ++ total ++ lit "</td>".

(** The local state of one body row while its cells are appended: the
    markup last assigned to [row.innerHTML], [passed] and [total]. *)
Record row_state : Type := {
  row_innerHTML : jsstring;
  passed : nat;
  total : nat;
}.

(** The callback of the inner [data.exams.forEach]. *)
Definition cell (data model : value) (st : row_state) (exam : value)
  : result row_state :=
  (exam_results <- get data (lit "exam_results") ;;
   of_exam <- get_at exam_results exam ;;
   result <- get_opt_at of_exam model ;;
   let total := S (total st) in
   p <- get_opt result (lit "passed") ;;
   if is_true p then
     Ok {| row_innerHTML := read_back (row_innerHTML st) ++ pass_cell;
           passed := S (passed st); total := total |}
   else
     p' <- get_opt result (lit "passed") ;;
     if is_false p' then
       Ok {| row_innerHTML := read_back (row_innerHTML st) ++ fail_cell;
             passed := passed st; total := total |}
     else
       Ok {| row_innerHTML := read_back (row_innerHTML st) ++ na_cell;
             passed := passed st; total := total |})%js.

Fixpoint fold_cells (f : row_state -> value -> result row_state)
  (l : list value) (st : row_state) : result row_state :=
  match l with
  | [] => Ok st
  | x :: l' => (st' <- f st x ;; fold_cells f l' st')%js
  end.

(** The callback of the outer [data.models.forEach]. *)
Definition body_row (data model : value) (_ : nat) : M unit :=
  (let tbody := results_body_id in
   let st := {| row_innerHTML := name_cell (escapeHtml model);
                passed := 0; total := 0 |} in
   exams <- lift (get data (lit "exams")) ;;
   exam_items <- lift (elements exams) ;;
   st <- lift (fold_cells (cell data model) exam_items st) ;;
   let row_innerHTML :=
     read_back (row_innerHTML st) ++
     score_cell (show_count (passed st)) (show_count (total st)) in
   appendChild tbody (Element (lit "tr") row_innerHTML))%dom.

Definition header_row (exam_items : list value) : jsstring :=
  let headerRow_innerHTML :=
    fold_left
      (fun html exam =>
         read_back html ++ lit "<th>" ++ escapeHtml exam ++ lit "</th>")
      exam_items (lit "<th>Model</th>") in
  read_back headerRow_innerHTML ++ lit "<th>Total</th>".

(** [!data.models || data.models.length === 0 || !data.exams ||
    data.exams.length === 0], evaluated left to right. *)
Definition nothing_to_show (data : value) : result bool :=
  (models <- get data (lit "models") ;;
   no_models <- missing_or_empty models ;;
   if (no_models : bool) then Ok true
   else
     exams <- get data (lit "exams") ;;
     missing_or_empty exams)%js.

Definition renderDetailedResults (data : value) : M unit :=
  (let thead := results_header_id in
   let tbody := results_body_id in
   set_innerHTML thead [] ;;
   set_innerHTML tbody [] ;;
   nothing <- lift (nothing_to_show data) ;;
   if (nothing : bool) then set_innerHTML tbody no_detailed_results
   else
     exams <- lift (get data (lit "exams")) ;;
     exam_items <- lift (elements exams) ;;
     appendChild thead (Element (lit "tr") (header_row exam_items)) ;;
     models <- lift (get data (lit "models")) ;;
     model_items <- lift (elements models) ;;
     forEach (body_row data) model_items 0)%dom.

End MatrixB.

(** ** [site/app.js], the detail page (lines 49 to 228) *)

Module SiteDetail.

Definition title_text (modelName : jsstring) : jsstring :=
  modelName ++
  lit " - calcolatori-bench".

Definition stats_text (passed total percentage : jsstring) : jsstring :=
  passed ++
  lit "/" ++
  total ++
  lit " exams passed (" ++
  percentage ++
  lit "%)".

Definition renderHeader (modelName : jsstring) (data : value) : M unit :=
  (set_title (title_text modelName) ;;
   set_textContent model_name_id modelName ;;
   model_stats <- lift (get data (lit "model_stats")) ;;
   stats <- lift (get model_stats modelName) ;;
   if truthy stats then
     passed <- lift (get stats (lit "passed")) ;;
     total <- lift (get stats (lit "total")) ;;
     percentage <- lift (get stats (lit "percentage")) ;;
     set_textContent model_stats_id
       (stats_text (to_string passed) (to_string total) (to_string percentage))
   else ret tt)%dom.

Definition renderDuration (seconds : value) : jsstring :=
  if is_nullish seconds then []
  else
    let display :=
      if Num.ltb (to_number seconds) (Num.of_Z 60) then
        to_string seconds ++ lit "s"
      else if Num.ltb (to_number seconds) (Num.of_Z 3600) then
        let mins := Num.floor (Num.div (to_number seconds) (Num.of_Z 60)) in
        let secs := Num.rem (to_number seconds) (Num.of_Z 60) in
        Num.to_string mins ++ lit "m " ++ Num.to_string secs ++ lit "s"
      else
        let hours := Num.floor (Num.div (to_number seconds) (Num.of_Z 3600)) in
        let mins :=
          Num.floor (Num.div (Num.rem (to_number seconds) (Num.of_Z 3600))
                       (Num.of_Z 60)) in
        Num.to_string hours ++ lit "h " ++ Num.to_string mins ++ lit "m" in
    lit "<span class=`exam-duration`>" ++ display ++ lit "</span>".

Definition output_section_markup (title content : jsstring) : jsstring :=
  lit "
        <div class=`detail-section`>
            <h4>" ++
  title ++
  lit "</h4>
            <pre class=`output-block`>" ++
  content ++
  lit "</pre>
        </div>
    ".

Definition renderOutputSection (title : jsstring) (output : value) : jsstring :=
  let items := match output with VArr items => items | _ => [] end in
  if negb (truthy output) || (isArray output && (List.length items =? 0)%nat)
  then []
  else
    let content :=
      if isArray output then VStr (array_join [10] items) else output in
    output_section_markup title (esc content).

Definition diff_section_markup (content : jsstring) : jsstring :=
  lit "
        <div class=`detail-section`>
            <h4>Code Diff</h4>
            <pre class=`diff-block`>" ++
  content ++
  lit "</pre>
        </div>
    ".

Definition renderDiffSection (diff : value) : jsstring :=
  if negb (truthy diff) then [] else diff_section_markup (esc diff).

Definition boot_output_markup (content : jsstring) : jsstring :=
  lit "
        <div class=`detail-section collapsible`>
            <h4 class=`collapsible-header` onclick=`toggleCollapse(this)`>
                Boot Output <span class=`toggle-icon`>+</span>
            </h4>
            <pre class=`output-block collapsed`>" ++
  content ++
  lit "</pre>
        </div>
    ".

Definition renderBootOutput (bootOutput : value) : jsstring :=
  if negb (truthy bootOutput) then [] else boot_output_markup (esc bootOutput).

Definition agent_output_placeholder : jsstring :=
  lit "
            <div class=`detail-section`>
                <h4>Agent Output</h4>
                <p class=`no-data`>Not available yet</p>
            </div>
        ".

Definition agent_output_markup (content : jsstring) : jsstring :=
  lit "
        <div class=`detail-section collapsible`>
            <h4 class=`collapsible-header` onclick=`toggleCollapse(this)`>
                Agent Output <span class=`toggle-icon`>+</span>
            </h4>
            <pre class=`output-block collapsed`>" ++
  content ++
  lit "</pre>
        </div>
    ".

Definition renderAgentOutput (agentOutput : value) : jsstring :=
  if negb (truthy agentOutput) then agent_output_placeholder
  else agent_output_markup (esc agentOutput).

Definition no_result_card (name : jsstring) : jsstring :=
  lit "
                <div class=`exam-card na`>
                    <div class=`exam-header`>
                        <span class=`exam-name`>" ++
  name ++
  lit "</span>
                        <span class=`exam-status`>No result</span>
                    </div>
                </div>
            ".

Definition card_markup
  (statusClass name duration statusText expected output diff boot agent
   : jsstring) : jsstring :=
  lit "
            <div class=`exam-card " ++
  statusClass ++
  lit "`>
                <div class=`exam-header`>
                    <span class=`exam-name`>" ++
  name ++
  lit "</span>
                    <div class=`exam-meta`>
                        " ++
  duration ++
  lit "
                        <span class=`exam-status`>" ++
  statusText ++
  lit "</span>
                    </div>
                </div>
                <div class=`exam-details`>
                    " ++
  expected ++
  lit "
                    " ++
  output ++
  lit "
                    " ++
  diff ++
  lit "
                    " ++
  boot ++
  lit "
                    " ++
  agent ++
  lit "
                </div>
            </div>
        ".

(** The callback of [data.exams.map]. *)
Definition exam_card (detailed exam : value) (_ : nat) : result jsstring :=
  (result <- get_at detailed exam ;;
   if negb (truthy result) then Ok (no_result_card (esc exam))
   else
     passed <- get result (lit "passed") ;;
     let statusClass := if truthy passed then lit "pass" else lit "fail" in
     let statusText := if truthy passed then lit "PASSED" else lit "FAILED" in
     duration_seconds <- get result (lit "duration_seconds") ;;
     expected <- get result (lit "expected") ;;
     output <- get result (lit "output") ;;
     diff <- get result (lit "diff") ;;
     boot_output <- get result (lit "boot_output") ;;
     agent_output <- get result (lit "agent_output") ;;
     Ok (card_markup statusClass (esc exam) (renderDuration duration_seconds)
           statusText
           (renderOutputSection (lit "Expected Output") expected)
           (renderOutputSection (lit "Actual Output") output)
           (renderDiffSection diff)
           (renderBootOutput boot_output)
           (renderAgentOutput agent_output)))%js.

Definition no_exam_results : jsstring :=
  lit "<p class=`no-data`>No exam results available</p>".

(** [!detailed || !data.exams?.length], evaluated left to right. *)
Definition nothing_to_show (detailed data : value) : result bool :=
  if negb (truthy detailed) then Ok true
  else
    (exams <- get data (lit "exams") ;;
     len <- get_opt exams (lit "length") ;;
     Ok (negb (truthy len)))%js.

Definition renderExams (modelName : jsstring) (data : value) : M unit :=
  (let container := exams_container_id in
   detailed_results <- lift (get data (lit "detailed_results")) ;;
   detailed <- lift (get_opt detailed_results modelName) ;;
   nothing <- lift (nothing_to_show detailed data) ;;
   if (nothing : bool) then set_innerHTML container no_exam_results
   else
     exams <- lift (get data (lit "exams")) ;;
     exam_items <- lift (elements exams) ;;
     cards <- lift (map_indexed (exam_card detailed) exam_items) ;;
     set_innerHTML container (join [] cards))%dom.

(** A collapsible block as [toggleCollapse] sees it: the class list of the
    [pre] that follows the header, and the text of the header's icon. *)
Record collapsible : Type := {
  classList : list jsstring;
  icon : jsstring;
}.

Definition contains (c : jsstring) (l : list jsstring) : bool :=
  existsb (str_eqb c) l.

Definition toggleCollapse (b : collapsible) : collapsible :=
  if contains (lit "collapsed") (classList b) then
    {| classList :=
         filter (fun c => negb (str_eqb c (lit "collapsed"))) (classList b);
       icon := [226; 710; 8217] |}
  else
    {| classList := classList b ++ [lit "collapsed"];
       icon := lit "+" |}.


Definition failed_to_load : jsstring :=
  lit "<p class=`error`>Failed to load results</p>".

(** The [DOMContentLoaded] handler; [query] is [params.get('model')],
    [None] standing for [null]. *)
Definition onDOMContentLoaded (query : option jsstring) (response : fetched)
  : M unit :=
  match query with
  | None => set_location_href (lit "index.html")
  | Some modelName =>
      if negb (truthy (VStr modelName)) then
        set_location_href (lit "index.html")
      else
        try_catch
          (data <- await response ;;
           models <- lift (get data (lit "models")) ;;
           included <- lift (includes_opt models modelName) ;;
           if negb (truthy included) then set_location_href (lit "index.html")
           else
             renderHeader modelName data ;;
             renderExams modelName data)%dom
          (set_innerHTML exams_container_id failed_to_load)
  end.

End SiteDetail.

(** ** The [DOMContentLoaded] handlers of the index pages *)

Section IndexPages.

(** [new Date(v).toLocaleDateString()]: it depends on the locale and the
    time zone of the browser, and never throws. *)
Variable toLocaleDateString : value -> jsstring.

(** [renderStats] is the same function in the three index scripts. *)
Definition renderStats (data : value) : M unit :=
  (total_models <- lift (get data (lit "total_models")) ;;
   set_textContent total_models_id
     (text_of (or_else total_models (VNum (S754_zero false)))) ;;
   total_exams <- lift (get data (lit "total_exams")) ;;
   set_textContent total_exams_id
     (text_of (or_else total_exams (VNum (S754_zero false)))) ;;
   generated_at <- lift (get data (lit "generated_at")) ;;
   if truthy generated_at then
     set_textContent last_updated_id (toLocaleDateString generated_at)
   else ret tt)%dom.

Definition site_index_page (response : fetched) : M unit :=
  try_catch
    (data <- await response ;;
     SiteIndex.renderLeaderboard data ;;
     renderStats data)%dom
    (set_innerHTML leaderboard_body_id SiteIndex.no_results).

Definition matrix_a_page (response : fetched) : M unit :=
  try_catch
    (data <- await response ;;
     MatrixA.renderLeaderboard data ;;
     MatrixA.renderDetailed data ;;
     renderStats data)%dom
    (set_innerHTML leaderboard_body_id MatrixA.no_results).

Definition matrix_b_page (response : fetched) : M unit :=
  try_catch
    (data <- await response ;;
     renderStats data ;;
     MatrixB.renderLeaderboard data ;;
     MatrixB.renderDetailedResults data)%dom
    (set_innerHTML leaderboard_body_id MatrixB.no_results).

End IndexPages.

(** A page whose elements are all empty. *)
Definition blank_page : page :=
  {| content := fun _ => []; title := []; location_href := lit "detail.html" |}.

(** Running a handler or a renderer on a page. *)
Definition run {A} (m : M A) (p : page) : result A * page := m p.
Definition outcome {A} (m : M A) (p : page) : result A := fst (m p).
Definition after {A} (m : M A) (p : page) : page := snd (m p).

(** ** Vocabulary of the statements *)

(** [v?.[k]] as a total function: an optional lookup never throws. *)
Definition lookup (v : value) (k : jsstring) : value :=
  match get_opt v k with
  | Ok x => x
  | Throw _ => VUndefined
  end.

(** [exam_results[exam]?.[model]] for an [exam_results] that is there. *)
Definition entry (exam_results exam model : value) : value :=
  lookup (lookup exam_results (to_string exam)) (to_string model).

(** The three-valued outcome of a model on an exam, as the matrix shows it:
    passed when the entry's [passed] is exactly [true], failed when it is
    exactly [false], not attempted otherwise. *)
Inductive outcome3 : Type := Passed | Failed3 | NotAttempted.

Definition status_of (r : value) : outcome3 :=
  if is_true (lookup r (lit "passed")) then Passed
  else if is_false (lookup r (lit "passed")) then Failed3
  else NotAttempted.

Definition counts (o : outcome3) : nat :=
  match o with Passed => 1 | _ => 0 end.

(** The number of exams of the row whose outcome is a pass. *)
Fixpoint passed_count (exam_results model : value) (exams : list value) : nat :=
  match exams with
  | [] => 0
  | exam :: rest =>
      (counts (status_of (entry exam_results exam model))
       + passed_count exam_results model rest)%nat
  end.

(** The page after [window.location.href = 'index.html'] and nothing else. *)
Definition redirected (p : page) : page :=
  {| content := content p; title := title p;
     location_href := lit "index.html" |}.

(** The page after the content of one element was replaced. *)
Definition with_content (p : page) (id : element_id) (c : list node) : page :=
  {| content := fun i => if element_id_eqb i id then c else content p i;
     title := title p; location_href := location_href p |}.

(** [s] occurs in [t]. *)
Definition occurs_in (s t : jsstring) : Prop :=
  exists before after, t = before ++ s ++ after.

(** A number of the document given by its integer value. *)
Definition int (z : Z) : value := VNum (Num.of_Z z).
Definition str (s : string) : value := VStr (lit s).
Arguments str _%_string.
Definition obj (props : list (string * value)) : value :=
  VObj (map (fun kv => (lit (fst kv), snd kv)) props).

(** Numbers with a fractional part, for the examples:
    61.5, 59.5 and 3725.9 (the binary64 value nearest to it). *)
Definition n61_5 : number := Num.of_decimal 615 (-1).
Definition n59_5 : number := Num.of_decimal 595 (-1).
Definition n3725_9 : number := Num.of_decimal 37259 (-1).

Definition span_duration (display : jsstring) : jsstring :=
  lit "<span class=`exam-duration`>" ++ display ++ lit "</span>".


(** [g 0 x0; g 1 x1; ...]: the elements in their order, each with its index. *)
Fixpoint indexed_from {A B} (g : nat -> A -> B) (l : list A) (i : nat)
  : list B :=
  match l with
  | [] => []
  | x :: l' => g i x :: indexed_from g l' (S i)
  end.

Definition indexed {A B} (g : nat -> A -> B) (l : list A) : list B :=
  indexed_from g l 0.

(** [data.model_stats[model]], and a field of a value as it prints. *)
Definition stats_of (data model : value) : value :=
  lookup (lookup data (lit "model_stats")) (to_string model).

Definition field (v : value) (k : string) : jsstring :=
  to_string (lookup v (lit k)).
Arguments field v k%_string.

(** The model has an entry in [model_stats]. *)
Definition has_stats (data model : value) : Prop :=
  is_nullish (stats_of data model) = false.

(** The string [encodeURIComponent] returns, where it returns. *)
Definition uri_of (model : value) : jsstring :=
  match encodeURIComponent model with
  | Ok u => u
  | Throw _ => []
  end.

(** The rows of the three leaderboards for a model at position [i]. *)
Definition site_index_row (data : value) (i : nat) (model : value) : jsstring :=
  let s := stats_of data model in
  SiteIndex.row_markup (uri_of model) (show_count (i + 1)) (esc model)
    (field s "passed") (field s "total") (field s "percentage").

Definition matrix_a_row (data : value) (i : nat) (model : value) : jsstring :=
  let s := stats_of data model in
  MatrixA.row_markup (show_count (i + 1)) (esc model)
    (field s "passed") (field s "total") (field s "percentage").

Definition matrix_b_row (data : value) (i : nat) (model : value) : node :=
  let s := stats_of data model in
  Element (lit "tr")
    (MatrixB.row_markup (show_count (i + 1)) (MatrixB.escapeHtml model)
       (field s "passed") (field s "total") (field s "percentage")).

(** [data.exam_results[exam]?.[model]] read as an outcome. *)
Definition outcome_of (data exam model : value) : outcome3 :=
  status_of (entry (lookup data (lit "exam_results")) exam model).

(** The value is a member inherited from [Object.prototype]. *)
Definition is_native (v : value) : bool :=
  match v with VNative _ => true | _ => false end.


(** No exam finds, in place of its mapping in [exam_results], a member
    that every object inherits (an exam named [constructor] without a
    mapping of its own would): what such a member yields under the name of
    a model depends on the browser. *)
Definition plain_results (data : value) (exams : list value) : Prop :=
  forall exam,
    In exam exams ->
    is_native (lookup (lookup data (lit "exam_results")) (to_string exam))
    = false.

(** The marker of each matrix for an outcome. *)
Definition marker_a (o : outcome3) : jsstring :=
  match o with
  | Passed => MatrixA.pass_cell
  | Failed3 => MatrixA.fail_cell
  | NotAttempted => MatrixA.na_cell
  end.

(** The cell that the verbose script appends for an outcome, and the cell
    as the row holds it once it was read back: the character in place of
    its reference. *)
Definition appended_b (o : outcome3) : jsstring :=
  match o with
  | Passed => MatrixB.pass_cell
  | Failed3 => MatrixB.fail_cell
  | NotAttempted => MatrixB.na_cell
  end.

Definition marker_b (o : outcome3) : jsstring :=
  match o with
  | Passed => lit "<td class=`pass-icon`>" ++ [10004] ++ lit "</td>"
  | Failed3 => lit "<td class=`fail-icon`>" ++ [10008] ++ lit "</td>"
  | NotAttempted => lit "<td class=`na-icon`>" ++ [8212] ++ lit "</td>"
  end.

(** The text that the parser reads from the text [t] once escaped: a CR LF
    pair and a lone CR are LF, and U+0000 is left out. *)
Definition parsed_text (t : jsstring) : jsstring :=
  filter (fun c => negb (c =? 0)) (normalize_newlines t).

(** The escaped name of a value in a row that was read back. *)
Definition esc_read (v : value) : jsstring :=
  serialize_text (parsed_text (text_of v)).

(** A cell as the parser leaves it: a [td] or a [th] whose attributes it
    reads, with text that holds neither U+0000 nor CR. *)
Definition clean_cell (c : cell_element) : bool :=
  cell_name (element_name c) && attributes_read (element_attributes c)
  && forallb (fun u => negb (u =? 0) && negb (u =? 13)) (element_text c).

(** The cells of the rows of the verbose matrix: a cell that shows a name,
    and the cell of an outcome. *)
Definition text_cell (name attributes : jsstring) (v : value) : cell_element :=
  {| element_name := name; element_attributes := attributes;
     element_text := parsed_text (text_of v) |}.

Definition marker_cell (o : outcome3) : cell_element :=
  {| element_name := lit "td";
     element_attributes :=
       match o with
       | Passed => lit " class=`pass-icon`"
       | Failed3 => lit " class=`fail-icon`"
       | NotAttempted => lit " class=`na-icon`"
       end;
     element_text :=
       match o with
       | Passed => [10004]
       | Failed3 => [10008]
       | NotAttempted => [8212]
       end |}.

(** The body row of each matrix for a model: the name, one marker per exam
    in the order of [exams], and the score. *)
Definition matrix_a_body_row (data model : value) (exams : list value)
  : jsstring :=
  MatrixA.body_row_markup (esc model)
    (join [] (map (fun exam => marker_a (outcome_of data exam model)) exams))
    (show_count (passed_count (lookup data (lit "exam_results")) model exams))
    (show_count (List.length exams)).

Definition matrix_b_body_row (data model : value) (exams : list value)
  : node :=
  Element (lit "tr")
    (MatrixB.name_cell (esc_read model)
     ++ List.concat (map (fun exam => marker_b (outcome_of data exam model)) exams)
     ++ MatrixB.score_cell
          (show_count (passed_count (lookup data (lit "exam_results")) model exams))
          (show_count (List.length exams))).

(** The document of the matrix scenario:
    [{models: ["A","B"], exams: ["E1"], exam_results: {E1: {A: {passed: true}}}}]. *)
Definition scenario : value :=
  obj [("models", VArr [str "A"; str "B"]);
       ("exams", VArr [str "E1"]);
       ("exam_results", obj [("E1", obj [("A", obj [("passed", VBool true)])])])]%string.

(** A document with two ranked models, their statistics and one exam. *)
Definition sample : value :=
  obj [("models", VArr [str "A"; str "B"]);
       ("exams", VArr [str "E1"]);
       ("model_stats",
        obj [("A", obj [("passed", int 1); ("total", int 1); ("percentage", int 100)]);
             ("B", obj [("passed", int 0); ("total", int 1); ("percentage", int 0)])]);
       ("exam_results",
        obj [("E1", obj [("A", obj [("passed", VBool true)]);
                         ("B", obj [("passed", VBool false)])])])]%string.

(** A document whose entries for exam E1 carry a [passed] that is not a
    boolean (model A), no [passed] at all (model B) and [null] (model C). *)
Definition odd_flags : value :=
  obj [("models", VArr [str "A"; str "B"; str "C"]);
       ("exams", VArr [str "E1"]);
       ("exam_results",
        obj [("E1", obj [("A", obj [("passed", str "yes")]);
                         ("B", obj []);
                         ("C", VNull)])])]%string.

(** A document whose one model is named [<b>]. *)
Definition bold_name : value :=
  obj [("models", VArr [str "<b>"]);
       ("exams", VArr [str "E1"]);
       ("model_stats",
        obj [("<b>", obj [("passed", int 1); ("total", int 1);
                          ("percentage", int 100)])]);
       ("exam_results", obj [("E1", obj [("<b>", obj [("passed", VBool true)])])])]%string.

(** A document whose one model, with its statistics, is named by a lone
    surrogate: the string that [JSON.parse] reads from the escape
    [\ud800]. *)
Definition lone_surrogate : value :=
  VObj [(lit "models", VArr [VStr [55296]]);
        (lit "exams", VArr []);
        (lit "model_stats",
         VObj [([55296],
                obj [("passed", int 1); ("total", int 1);
                     ("percentage", int 100)]%string)])].

(** A document that lists model A and has no statistics for it. *)
Definition missing_stats : value :=
  obj [("models", VArr [str "A"]);
       ("exams", VArr [str "E1"]);
       ("model_stats", obj []);
       ("exam_results", obj []);
       ("detailed_results", obj [])]%string.

(** A document whose one model has a space in its name. *)
Definition spaced_name : value :=
  obj [("models", VArr [str "gpt 4"]);
       ("exams", VArr []);
       ("model_stats",
        obj [("gpt 4", obj [("passed", int 1); ("total", int 1);
                            ("percentage", int 100)])])]%string.

(** A document whose one model is named [constructor] and has nothing of
    its own in [model_stats] or [detailed_results]. *)
Definition inherited_name : value :=
  obj [("models", VArr [str "constructor"]);
       ("exams", VArr [str "E1"]);
       ("model_stats", obj []);
       ("exam_results", obj []);
       ("detailed_results", obj [])]%string.

(** A document with no models and one exam. *)
Definition no_models : value :=
  obj [("models", VArr []);
       ("exams", VArr [str "E1"]);
       ("model_stats", obj []);
       ("exam_results", obj [])]%string.

(** The card of an exam on the detail page, where the callback returns. *)
Definition card_of (detailed exam : value) : jsstring :=
  match SiteDetail.exam_card detailed exam 0 with
  | Ok card => card
  | Throw _ => []
  end.

(** A document with the evidence of model A for exam E1 (its agent output
    absent, its boot output empty) and none for exam E2. *)
Definition evidence : value :=
  obj [("models", VArr [str "A"]);
       ("exams", VArr [str "E1"; str "E2"]);
       ("model_stats", obj []);
       ("detailed_results",
        obj [("A",
              obj [("E1", obj [("passed", VBool true);
                               ("duration_seconds", int 75);
                               ("boot_output", str "")])])])]%string.

(** ** Vocabulary of the further properties *)

(** The block is collapsed. *)
Definition is_collapsed (b : SiteDetail.collapsible) : bool :=
  SiteDetail.contains (lit "collapsed") (SiteDetail.classList b).

(** The class list without the class [collapsed]. *)
Definition other_classes (b : SiteDetail.collapsible) : list jsstring :=
  filter (fun c => negb (str_eqb c (lit "collapsed"))) (SiteDetail.classList b).

(** A code unit that the text serialisation leaves as it is. *)
Definition plain_unit (c : code_unit) : bool :=
  negb ((c =? 38) || (c =? 160) || (c =? 60) || (c =? 62)).

(** A computation takes every page [p] to a page related to [p] by [R],
    whether it returns or throws. *)
Definition preserves {A} (R : page -> page -> Prop) (m : M A) : Prop :=
  forall p, R p (after m p).

(** The address of the page and the content of every element outside [ids]
    are the same in [q] as in [p]. *)
Definition same_outside (ids : list element_id) (p q : page) : Prop :=
  location_href q = location_href p /\
  forall id, ~ In id ids -> content q id = content p id.

Definition same_title (p q : page) : Prop := title q = title p.

(** The computation writes to no element outside [ids] and does not
    navigate. *)
Definition keeps {A} (ids : list element_id) (m : M A) : Prop :=
  preserves (same_outside ids) m.

Definition keeps_title {A} (m : M A) : Prop := preserves same_title m.

(** The text an element shows, when its content is text alone. *)
Definition text_shown (c : list node) : option jsstring :=
  match c with
  | [] => Some []
  | [Text t] => Some t
  | _ => None
  end.

(** The content of an element after [textContent = t]. *)
Definition text_node (t : jsstring) : list node :=
  match t with
  | [] => []
  | _ => [Text t]
  end.

(** What a counter of the statistics bar shows for a value: [v || 0] as a
    string. *)
Definition count_text (v : value) : jsstring :=
  if truthy v then to_string v else lit "0".

(** The page after the load failed on an index page and on the detail
    page. *)
Definition index_fallback (row : jsstring) (p : page) : page :=
  with_content p leaderboard_body_id [Markup row].

Definition detail_fallback (p : page) : page :=
  with_content p exams_container_id [Markup SiteDetail.failed_to_load].

(** [data.detailed_results?.[modelName]]. *)
Definition detailed_of (data : value) (modelName : jsstring) : value :=
  lookup (lookup data (lit "detailed_results")) modelName.

(** What the container of the detail page holds after [renderExams], for a
    document whose [exams] is the array [exams]. *)
Definition exams_markup (data : value) (modelName : jsstring)
  (exams : list value) : jsstring :=
  if negb (truthy (detailed_of data modelName)) then SiteDetail.no_exam_results
  else
    match exams with
    | [] => SiteDetail.no_exam_results
    | _ => join [] (map (card_of (detailed_of data modelName)) exams)
    end.

(** The line of the header for the statistics [stats]. *)
Definition header_stats_text (stats : value) : jsstring :=
  SiteDetail.stats_text (field stats "passed") (field stats "total")
    (field stats "percentage").

(** The body of each leaderboard for the non-empty array [models]. *)
Definition site_index_leaderboard (data : value) (models : list value)
  : list node :=
  [Markup (join [] (indexed (site_index_row data) models))].

Definition matrix_a_leaderboard (data : value) (models : list value)
  : list node :=
  [Markup (join [] (indexed (matrix_a_row data) models))].

Definition matrix_b_leaderboard (data : value) (models : list value)
  : list node :=
  indexed (matrix_b_row data) models.

(** The head and the body of each matrix for the non-empty arrays [models]
    and [exams]. *)
Definition matrix_a_head (exams : list value) : list node :=
  [Markup (MatrixA.head_markup (join [] (map MatrixA.header_cell exams)))].

Definition matrix_a_body (data : value) (models exams : list value)
  : list node :=
  [Markup (join [] (map (fun model => matrix_a_body_row data model exams)
                      models))].

Definition matrix_b_head (exams : list value) : list node :=
  [Element (lit "tr") (MatrixB.header_row exams)].

Definition matrix_b_body (data : value) (models exams : list value)
  : list node :=
  map (fun model => matrix_b_body_row data model exams) models.

(** The header cells of the exams: in the compact matrix as they were
    assigned, in the verbose one as they were read back. *)
Definition exam_header_cells (exams : list value) : jsstring :=
  List.concat (map (fun e => lit "<th>" ++ esc e ++ lit "</th>") exams).

Definition exam_header_cells_read (exams : list value) : jsstring :=
  List.concat (map (fun e => lit "<th>" ++ esc_read e ++ lit "</th>") exams).

(** A document with the statistics of its one model and no
    [exam_results]. *)
Definition without_results : value :=
  obj [("models", VArr [str "A"]);
       ("exams", VArr [str "E1"]);
       ("model_stats",
        obj [("A", obj [("passed", int 1); ("total", int 1);
                        ("percentage", int 100)])])]%string.

(** ** [URLSearchParams]

    The detail page reads the model's name with
    [new URLSearchParams(window.location.search).get('model')]: the string
    is converted to scalar values, encoded as UTF-8 and parsed as
    [application/x-www-form-urlencoded]; names and values are
    percent-decoded and decoded as UTF-8, errors being replaced by
    U+FFFD. *)

(** The scalar values of a string: a surrogate pair is one code point, a
    lone surrogate is replaced by U+FFFD. *)
Fixpoint scalar_values (s : jsstring) : list N :=
  match s with
  | [] => []
  | c :: s' =>
      if is_high_surrogate c then
        match s' with
        | d :: s'' =>
            if is_low_surrogate d then
              ((c - 55296) * 1024 + (d - 56320) + 65536) :: scalar_values s''
            else 65533 :: scalar_values s'
        | [] => [65533]
        end
      else if is_low_surrogate c then 65533 :: scalar_values s'
      else c :: scalar_values s'
  end.

(** The code units of a scalar value. *)
Definition code_units (cp : N) : jsstring :=
  if cp <? 65536 then [cp]
  else [55296 + (cp - 65536) / 1024; 56320 + (cp - 65536) mod 1024].

(** The state of the UTF-8 decoder. *)
Record utf8_state : Type := {
  code_point : N;
  bytes_seen : N;
  bytes_needed : N;
  lower_boundary : N;
  upper_boundary : N;
}.

Definition utf8_start : utf8_state :=
  {| code_point := 0; bytes_seen := 0; bytes_needed := 0;
     lower_boundary := 128; upper_boundary := 191 |}.

(** A byte read while no byte is needed: the code points emitted and the
    next state. *)
Definition utf8_first (b : N) : list N * utf8_state :=
  if b <=? 127 then ([b], utf8_start)
  else if (194 <=? b) && (b <=? 223) then
    ([], {| code_point := N.land b 31; bytes_seen := 0; bytes_needed := 1;
            lower_boundary := 128; upper_boundary := 191 |})
  else if (224 <=? b) && (b <=? 239) then
    ([], {| code_point := N.land b 15; bytes_seen := 0; bytes_needed := 2;
            lower_boundary := if b =? 224 then 160 else 128;
            upper_boundary := if b =? 237 then 159 else 191 |})
  else if (240 <=? b) && (b <=? 244) then
    ([], {| code_point := N.land b 7; bytes_seen := 0; bytes_needed := 3;
            lower_boundary := if b =? 240 then 144 else 128;
            upper_boundary := if b =? 244 then 143 else 191 |})
  else ([65533], utf8_start).

(** A byte read in any state; a byte outside the boundaries ends the
    sequence with an error and is read again as a first byte. *)
Definition utf8_step (st : utf8_state) (b : N) : list N * utf8_state :=
  if bytes_needed st =? 0 then utf8_first b
  else if (b <? lower_boundary st) || (upper_boundary st <? b) then
    let '(out, st') := utf8_first b in (65533 :: out, st')
  else
    let cp := N.lor (N.shiftl (code_point st) 6) (N.land b 63) in
    if bytes_seen st + 1 =? bytes_needed st then ([cp], utf8_start)
    else ([], {| code_point := cp; bytes_seen := bytes_seen st + 1;
                 bytes_needed := bytes_needed st;
                 lower_boundary := 128; upper_boundary := 191 |}).

Fixpoint utf8_decode_from (st : utf8_state) (bytes : list N) : list N :=
  match bytes with
  | [] => if bytes_needed st =? 0 then [] else [65533]
  | b :: rest =>
      let '(out, st') := utf8_step st b in out ++ utf8_decode_from st' rest
  end.

Definition utf8_decode (bytes : list N) : list N :=
  utf8_decode_from utf8_start bytes.

(** Percent-decoding of a byte sequence. *)
Definition hex_value (b : N) : option N :=
  if (48 <=? b) && (b <=? 57) then Some (b - 48)
  else if (65 <=? b) && (b <=? 70) then Some (b - 55)
  else if (97 <=? b) && (b <=? 102) then Some (b - 87)
  else None.

Fixpoint percent_decode (bytes : list N) : list N :=
  match bytes with
  | [] => []
  | b :: rest =>
      match rest with
      | h :: l :: rest' =>
          match (if b =? 37 then hex_value h else None), hex_value l with
          | Some x, Some y => (x * 16 + y) :: percent_decode rest'
          | _, _ => b :: percent_decode rest
          end
      | _ => b :: percent_decode rest
      end
  end.

(** The sequences between the occurrences of a byte. *)
Fixpoint split_on (sep : N) (bytes : list N) : list (list N) :=
  match bytes with
  | [] => [[]]
  | b :: rest =>
      if b =? sep then [] :: split_on sep rest
      else
        match split_on sep rest with
        | first :: others => (b :: first) :: others
        | [] => [[b]]
        end
  end.

(** The bytes before the first occurrence of a byte and those after it. *)
Fixpoint break_at (sep : N) (bytes : list N) : list N * list N :=
  match bytes with
  | [] => ([], [])
  | b :: rest =>
      if b =? sep then ([], rest)
      else let '(name, value) := break_at sep rest in (b :: name, value)
  end.

(** A name or a value: [+] is a space, the bytes are percent-decoded and
    decoded as UTF-8. *)
Definition decode_component (bytes : list N) : jsstring :=
  flat_map code_units
    (utf8_decode (percent_decode (map (fun b : N => if b =? 43 then 32 else b) bytes))).

(** One sequence between two [&]: nothing when it is empty, otherwise the
    name before its first [=] and the value after it. *)
Definition parse_sequence (sequence : list N) : list (jsstring * jsstring) :=
  match sequence with
  | [] => []
  | _ =>
      let '(name, value) := break_at 61 sequence in
      [(decode_component name, decode_component value)]
  end.

Definition urlencoded_parse (bytes : list N) : list (jsstring * jsstring) :=
  flat_map parse_sequence (split_on 38 bytes).

(** [new URLSearchParams(init)] for a string. *)
Definition URLSearchParams (init : jsstring) : list (jsstring * jsstring) :=
  let init := scalar_values init in
  let init :=
    match init with
    | c :: rest => if c =? 63 then rest else init
    | [] => []
    end in
  urlencoded_parse (flat_map utf8 init).

(** [params.get(name)], [None] standing for [null]. *)
Fixpoint params_get (params : list (jsstring * jsstring)) (name : jsstring)
  : option jsstring :=
  match params with
  | [] => None
  | (n, v) :: rest => if str_eqb n name then Some v else params_get rest name
  end.

(** The handler of the detail page for the query string [search] of the
    page's address ([site/app.js], lines 49 to 72). *)
Definition detail_page (search : jsstring) (response : fetched) : M unit :=
  let params := URLSearchParams search in
  let modelName := params_get params (lit "model") in
  SiteDetail.onDOMContentLoaded modelName response.

(** Every element of the string is a 16-bit code unit. *)
Definition is_utf16 (s : jsstring) : bool := forallb (fun c => c <? 65536) s.

(** A scalar value: a code point that is not a surrogate. *)
Definition is_scalar (cp : N) : bool :=
  (cp <? 55296) || ((57344 <=? cp) && (cp <? 1114112)).

(** A code unit of an encoded component. *)
Definition url_safe (c : code_unit) : bool := unreserved c || (c =? 37).

(** The string holds no apostrophe, the character that ends a single-quoted
    string of a script. *)
Definition no_apostrophe (s : jsstring) : bool :=
  forallb (fun c => negb (c =? 39)) s.

(** A code unit of a numeral: a digit, a sign, the point, or a letter of
    [e], [NaN] and [Infinity]. *)
Definition numeral_unit (c : code_unit) : bool :=
  ((48 <=? c) && (c <=? 57))
  || existsb (N.eqb c) [43; 45; 46; 101; 78; 97; 73; 110; 102; 105; 116; 121].

(** The number of occurrences of a code unit in a string. *)
Definition count_unit (c : code_unit) (s : jsstring) : nat :=
  List.length (filter (N.eqb c) s).

(** The statistics of the model are numbers. *)
Definition numeric_stats (data model : value) : Prop :=
  exists passed total percentage : number,
    lookup (stats_of data model) (lit "passed") = VNum passed /\
    lookup (stats_of data model) (lit "total") = VNum total /\
    lookup (stats_of data model) (lit "percentage") = VNum percentage.

(** * Properties *)

(** ** Values and lookups *)

Lemma get_opt_lookup (v : value) (k : jsstring) :
  get_opt v k = Ok (lookup v k).
Proof.
  unfold lookup, get_opt, get.
  destruct v; cbn [is_nullish]; try reflexivity;
    (destruct (str_eqb k _); [reflexivity|]);
    destruct (array_index k); reflexivity.
Qed.

Lemma get_lookup (v : value) (k : jsstring) :
  is_nullish v = false -> get v k = Ok (lookup v k).
Proof.
  intros H. rewrite <- get_opt_lookup. unfold get_opt. now rewrite H.
Qed.

Lemma get_nullish (v : value) (k : jsstring) :
  is_nullish v = true -> get v k = Throw TypeError.
Proof. destruct v; simpl; congruence. Qed.

Lemma get_ok_not_nullish (v : value) (k : jsstring) (x : value) :
  get v k = Ok x -> is_nullish v = false.
Proof. destruct v; cbn; congruence. Qed.

Lemma truthy_not_nullish (v : value) : truthy v = true -> is_nullish v = false.
Proof. destruct v; simpl; congruence. Qed.

Lemma lookup_nullish (v : value) (k : jsstring) :
  is_nullish v = true -> lookup v k = VUndefined.
Proof. unfold lookup, get_opt. now intros ->. Qed.

Lemma lookup_undefined (k : jsstring) : lookup VUndefined k = VUndefined.
Proof. reflexivity. Qed.

Lemma str_eqb_refl (s : jsstring) : str_eqb s s = true.
Proof.
  induction s as [|c s IH]; simpl; [reflexivity|].
  unfold unit_eqb. now rewrite N.eqb_refl.
Qed.

Lemma str_eqb_eq (a b : jsstring) : str_eqb a b = true <-> a = b.
Proof.
  split; [|intros ->; apply str_eqb_refl].
  revert b. induction a as [|x a IH]; destruct b as [|y b]; simpl;
    try congruence.
  intros H. apply andb_prop in H as [Hx Hab].
  apply N.eqb_eq in Hx. f_equal; auto.
Qed.

(** ** Numbers

    The binary64 value of a positive integer is never zero and never NaN:
    a non-empty array has a truthy [length]. *)

Module NumFacts.

Local Open Scope Z_scope.

Lemma shr_1_m (r : shr_record) : 0 <= shr_m r -> shr_m (shr_1 r) = shr_m r / 2.
Proof.
  destruct r as [m b s]. cbn [shr_m]. intros Hm.
  rewrite <- Z.div2_div.
  destruct m as [|p|p]; [reflexivity| |lia].
  destruct p; reflexivity.
Qed.

Lemma iter_shr_1_m (n : positive) : forall r : shr_record,
  0 <= shr_m r -> shr_m (iter_pos shr_1 n r) = shr_m r / 2 ^ Zpos n.
Proof.
  assert (P2 : forall k, 0 < 2 ^ Zpos k) by (intros; apply Z.pow_pos_nonneg; lia).
  induction n as [n IH|n IH|]; intros r Hr; cbn [iter_pos].
  - assert (H1 : 0 <= shr_m (shr_1 r))
      by (rewrite shr_1_m by assumption; apply Z.div_pos; lia).
    assert (H2 : 0 <= shr_m (iter_pos shr_1 n (shr_1 r)))
      by (rewrite IH by assumption; apply Z.div_pos; [lia|apply P2]).
    rewrite IH, IH, shr_1_m by assumption.
    pose proof (P2 n).
    rewrite !Zdiv.Zdiv_Zdiv by lia. f_equal.
    rewrite (Pos2Z.inj_xI n).
    replace (2 * Z.pos n + 1) with (1 + Z.pos n + Z.pos n) by lia.
    rewrite !Z.pow_add_r by lia. change (2 ^ 1) with 2. ring.
  - assert (H2 : 0 <= shr_m (iter_pos shr_1 n r))
      by (rewrite IH by assumption; apply Z.div_pos; [lia|apply P2]).
    rewrite IH, IH by assumption.
    pose proof (P2 n).
    rewrite !Zdiv.Zdiv_Zdiv by lia. f_equal.
    rewrite (Pos2Z.inj_xO n).
    replace (2 * Z.pos n) with (Z.pos n + Z.pos n) by lia.
    rewrite !Z.pow_add_r by lia. ring.
  - now apply shr_1_m.
Qed.

Lemma digits2_pos_lower (p : positive) : 2 ^ (Zpos (digits2_pos p) - 1) <= Zpos p.
Proof.
  induction p as [p IH|p IH|]; cbn [digits2_pos]; [| |cbn; lia].
  - rewrite Pos2Z.inj_succ, (Pos2Z.inj_xI p).
    replace (Z.succ (Z.pos (digits2_pos p)) - 1) with (1 + (Z.pos (digits2_pos p) - 1)) by lia.
    rewrite Z.pow_add_r by lia. change (2 ^ 1) with 2.
    lia.
  - rewrite Pos2Z.inj_succ, (Pos2Z.inj_xO p).
    replace (Z.succ (Z.pos (digits2_pos p)) - 1) with (1 + (Z.pos (digits2_pos p) - 1)) by lia.
    rewrite Z.pow_add_r by lia. change (2 ^ 1) with 2.
    lia.
Qed.

Lemma shr_fexp_positive (m : positive) (e : Z) (l : location) :
  emin Num.prec Num.emax <= e ->
  0 < shr_m (fst (shr_fexp Num.prec Num.emax (Zpos m) e l)) /\
  emin Num.prec Num.emax <= snd (shr_fexp Num.prec Num.emax (Zpos m) e l).
Proof.
  intros He. unfold shr_fexp, shr.
  assert (Hm : shr_m (shr_record_of_loc (Zpos m) l) = Zpos m)
    by (destruct l as [|[]]; reflexivity).
  destruct (fexp Num.prec Num.emax (Zdigits2 (Z.pos m) + e) - e) as [|k|k] eqn:E;
    cbn [fst snd]; try (rewrite Hm; split; lia).
  rewrite iter_shr_1_m by (rewrite Hm; lia). rewrite Hm.
  unfold fexp in E. cbn [Zdigits2] in E.
  assert (Hk : Zpos k = Zpos (digits2_pos m) - Num.prec) by lia.
  split; [|lia].
  apply Z.div_str_pos. split; [apply Z.pow_pos_nonneg; lia|].
  etransitivity; [|apply digits2_pos_lower].
  apply Z.pow_le_mono_r; [lia|]. rewrite Hk. unfold Num.prec. lia.
Qed.

Lemma round_aux_positive (s : bool) (m : positive) (e : Z) (l : location) :
  emin Num.prec Num.emax <= e ->
  (exists m' e', binary_round_aux Num.prec Num.emax s (Zpos m) e l = S754_finite s m' e')
  \/ binary_round_aux Num.prec Num.emax s (Zpos m) e l = S754_infinity s.
Proof.
  intros He. unfold binary_round_aux.
  destruct (shr_fexp_positive m e l He) as [H1 H2].
  destruct (shr_fexp Num.prec Num.emax (Z.pos m) e l) as [r1 e1]. cbn [fst snd] in H1, H2.
  assert (Hr : 0 < round_nearest_even (shr_m r1) (loc_of_shr_record r1)).
  { unfold round_nearest_even. destruct (loc_of_shr_record r1) as [|[]]; try lia.
    destruct (Z.even (shr_m r1)); lia. }
  destruct (round_nearest_even (shr_m r1) (loc_of_shr_record r1)) as [|m2|m2]; try lia.
  destruct (shr_fexp_positive m2 e1 loc_Exact H2) as [H3 _].
  destruct (shr_fexp Num.prec Num.emax (Z.pos m2) e1 loc_Exact) as [r2 e2]. cbn [fst] in H3.
  destruct (shr_m r2) as [|m3|m3]; try lia.
  destruct (e2 <=? Num.emax - Num.prec); [left; eauto|right; reflexivity].
Qed.

Lemma of_Z_positive (p : positive) :
  (exists m e, Num.of_Z (Zpos p) = S754_finite false m e)
  \/ Num.of_Z (Zpos p) = S754_infinity false.
Proof.
  unfold Num.of_Z, binary_normalize, binary_round.
  destruct (shl_align p 0 (fexp Num.prec Num.emax (Z.pos (digits2_pos p) + 0))) as [mz ez] eqn:E.
  apply round_aux_positive.
  unfold shl_align in E.
  destruct (fexp Num.prec Num.emax (Z.pos (digits2_pos p) + 0) - 0) eqn:F;
    injection E as <- <-; try (unfold emin, Num.prec, Num.emax; lia).
  unfold fexp in *. lia.
Qed.

End NumFacts.

Lemma get_opt_length (items : list value) :
  get_opt (VArr items) (lit "length") = Ok (length_value items).
Proof. reflexivity. Qed.

Lemma get_length (items : list value) :
  get (VArr items) (lit "length") = Ok (length_value items).
Proof. reflexivity. Qed.

Lemma length_value_cons {A} (x : A) (l : list A) :
  (exists m e, length_value (x :: l) = VNum (S754_finite false m e))
  \/ length_value (x :: l) = VNum (S754_infinity false).
Proof.
  unfold length_value. cbn [List.length Z.of_nat].
  destruct (NumFacts.of_Z_positive (Pos.of_succ_nat (List.length l)))
    as [(m & e & ->)| ->]; eauto.
Qed.

Lemma truthy_length_cons {A} (x : A) (l : list A) :
  truthy (length_value (x :: l)) = true.
Proof.
  destruct (length_value_cons x l) as [(m & e & ->)| ->]; reflexivity.
Qed.

Lemma truthy_length_nil {A} : truthy (length_value (@nil A)) = false.
Proof. reflexivity. Qed.

Lemma truthy_length_nonempty {A} (l : list A) :
  l <> [] -> truthy (length_value l) = true.
Proof. destruct l; [congruence|intros _; apply truthy_length_cons]. Qed.

Lemma length_not_zero {A} (l : list A) :
  l <> [] ->
  match length_value l with VNum (S754_zero _) => true | _ => false end = false.
Proof.
  destruct l as [|x l]; [congruence|intros _].
  destruct (length_value_cons x l) as [(m & e & ->)| ->]; reflexivity.
Qed.

(** The order of numbers, as far as the duration formatter needs it. *)

Lemma compare_antisym (x y : number) (c : comparison) :
  SFcompare x y = Some c -> SFcompare y x = Some (CompOpp c).
Proof.
  destruct x as [sx|sx| |sx mx ex], y as [sy|sy| |sy my ey]; simpl;
    try discriminate;
    try (destruct sx; intros [= <-]; reflexivity);
    try (destruct sy; intros [= <-]; reflexivity);
    try (destruct sx, sy; intros [= <-]; reflexivity).
  intros [= <-]. f_equal.
  rewrite (Z.compare_antisym ex ey).
  change (Pos.compare_cont Eq my mx)
    with (Pos.compare_cont (CompOpp Eq) my mx).
  rewrite <- (Pos.compare_cont_antisym mx my Eq).
  destruct sx, sy; simpl; try reflexivity;
    destruct (ex ?= ey)%Z; simpl; try reflexivity;
    destruct (Pos.compare_cont Eq mx my); reflexivity.
Qed.

Lemma leb_not_ltb (a s : number) : Num.leb a s = true -> Num.ltb s a = false.
Proof.
  unfold Num.leb, Num.ltb, SFleb, SFltb.
  destruct (SFcompare a s) as [c|] eqn:E; [|discriminate].
  rewrite (compare_antisym _ _ _ E).
  destruct c; simpl; congruence.
Qed.

Lemma of_Z_60 : Num.of_Z 60 = S754_finite false 8444249301319680 (-47).
Proof. vm_compute. reflexivity. Qed.

Lemma of_Z_3600 : Num.of_Z 3600 = S754_finite false 7916483719987200 (-41).
Proof. vm_compute. reflexivity. Qed.

Lemma leb_3600_not_ltb_60 (s : number) :
  Num.leb (Num.of_Z 3600) s = true -> Num.ltb s (Num.of_Z 60) = false.
Proof.
  rewrite of_Z_60, of_Z_3600.
  unfold Num.leb, Num.ltb, SFleb, SFltb.
  destruct s as [sx|sx| |sx m e]; cbv [SFcompare];
    try discriminate; try (destruct sx; congruence).
  destruct sx; [discriminate|].
  destruct (Z.compare_spec (-41) e) as [He|He|He]; try discriminate;
    intros _.
  - subst e. reflexivity.
  - destruct (Z.compare_spec e (-47)); try lia; reflexivity.
Qed.

(** A counter or a length prints as its decimal numeral: checked here for
    the counts up to 2000, against the number's own conversion. *)
Lemma show_count_agrees (n : nat) :
  (n <= 2000)%nat ->
  Num.to_string (Num.of_Z (Z.of_nat n)) = show_count n.
Proof.
  intros H.
  assert (A : forallb
                (fun k => str_eqb (Num.to_string (Num.of_Z (Z.of_nat k)))
                            (show_count k))
                (seq 0 2001) = true) by (vm_compute; reflexivity).
  rewrite forallb_forall in A. apply str_eqb_eq, A, in_seq. lia.
Qed.

(** ** The page and iteration *)

Lemma bind_lift {A B} (r : result A) (k : A -> M B) (p : page) :
  bind (lift r) k p
  = match r with Ok a => k a p | Throw e => (Throw e, p) end.
Proof. destruct r; reflexivity. Qed.

Lemma bind_set_innerHTML_empty {B} (id : element_id) (k : unit -> M B)
  (p : page) :
  bind (set_innerHTML id []) k p = k tt (with_content p id []).
Proof. reflexivity. Qed.

Lemma bind_set_innerHTML {B} (id : element_id) (html : jsstring)
  (k : unit -> M B) (p : page) :
  html <> [] ->
  bind (set_innerHTML id html) k p = k tt (with_content p id [Markup html]).
Proof. destruct html; [congruence|reflexivity]. Qed.

Lemma bind_appendChild {B} (id : element_id) (child : node) (k : unit -> M B)
  (p : page) :
  bind (appendChild id child) k p
  = k tt (with_content p id (content p id ++ [child])).
Proof. reflexivity. Qed.

Lemma set_innerHTML_markup (id : element_id) (html : jsstring) (p : page) :
  html <> [] ->
  set_innerHTML id html p = (Ok tt, with_content p id [Markup html]).
Proof. destruct html; [congruence|reflexivity]. Qed.

Lemma content_put_content (p : page) (id : element_id) (c : list node) :
  content (snd (put_content id c p)) id = c.
Proof. cbn. destruct id; reflexivity. Qed.

Lemma content_with_content (p : page) (id : element_id) (c : list node) :
  content (with_content p id c) id = c.
Proof. cbn. destruct id; reflexivity. Qed.

Lemma map_from_pure {A B} (f : A -> nat -> result B) (g : nat -> A -> B)
  (l : list A) : forall i,
  (forall j x, nth_error l j = Some x -> f x (i + j)%nat = Ok (g (i + j)%nat x)) ->
  map_from f l i = Ok (indexed_from g l i).
Proof.
  induction l as [|x l IH]; intros i H; [reflexivity|].
  cbn [map_from indexed_from].
  generalize (H 0%nat x eq_refl). rewrite Nat.add_0_r. intros ->.
  cbn [rbind]. rewrite (IH (S i)); [reflexivity|].
  intros j y Hj. rewrite Nat.add_succ_l, <- Nat.add_succ_r.
  apply H. exact Hj.
Qed.

Lemma nth_error_indexed_from {A B} (g : nat -> A -> B) (l : list A) :
  forall i j, nth_error (indexed_from g l i) j
              = option_map (g (i + j)%nat) (nth_error l j).
Proof.
  induction l as [|x l IH]; intros i [|j]; cbn; try reflexivity.
  - now rewrite Nat.add_0_r.
  - rewrite IH. now rewrite Nat.add_succ_l, <- Nat.add_succ_r.
Qed.

Lemma length_indexed_from {A B} (g : nat -> A -> B) (l : list A) :
  forall i, List.length (indexed_from g l i) = List.length l.
Proof. induction l; intros i; cbn; auto. Qed.

Lemma indexed_from_map {A B} (g : A -> B) (l : list A) :
  forall i, indexed_from (fun _ => g) l i = map g l.
Proof. induction l as [|x l IH]; intros i; cbn; [|rewrite IH]; reflexivity. Qed.

Lemma forEach_append {A} (f : A -> nat -> M unit) (h : nat -> A -> node)
  (id : element_id) (l : list A) : forall i p,
  (forall j x q, nth_error l j = Some x ->
     outcome (f x (i + j)%nat) q = Ok tt /\
     content (after (f x (i + j)%nat) q) id = content q id ++ [h (i + j)%nat x]) ->
  outcome (forEach f l i) p = Ok tt /\
  content (after (forEach f l i) p) id = content p id ++ indexed_from h l i.
Proof.
  induction l as [|x l IH]; intros i p H.
  - cbn. now rewrite app_nil_r.
  - destruct (H 0%nat x p eq_refl) as [Ho Hc]. rewrite Nat.add_0_r in Ho, Hc.
    unfold outcome, after in *. cbn [forEach]. unfold bind.
    destruct (f x i p) as [[[]|e] p'] eqn:E; cbn in Ho, Hc; [|discriminate].
    destruct (IH (S i) p') as [Ho' Hc'].
    { intros j y q Hj. rewrite Nat.add_succ_l, <- Nat.add_succ_r.
      apply H. exact Hj. }
    unfold outcome, after in *. split; [exact Ho'|].
    rewrite Hc', Hc, <- app_assoc. reflexivity.
Qed.

Lemma forEach_frame {A} (f : A -> nat -> M unit) (id : element_id)
  (l : list A) :
  (forall j x q, content (after (f x j) q) id = content q id) ->
  forall i p, content (after (forEach f l i) p) id = content p id.
Proof.
  intros H. induction l as [|x l IH]; intros i p; [reflexivity|].
  pose proof (H i x p) as Hx. unfold after in *. cbn [forEach]. unfold bind.
  destruct (f x i p) as [[[]|e] p']; cbn [snd] in *; [|exact Hx].
  now rewrite IH.
Qed.

Lemma join_nonempty (r : jsstring) (rest : list jsstring) :
  r <> [] -> join [] (r :: rest) <> [].
Proof.
  destruct r as [|c r]; [congruence|]. intros _.
  destruct rest; cbn [join app]; discriminate.
Qed.

Lemma join_map_nonempty {A} (g : A -> jsstring) (l : list A) :
  l <> [] -> (forall x, g x <> []) -> join [] (map g l) <> [].
Proof.
  destruct l as [|x l]; [congruence|intros _ H].
  cbn [map]. apply join_nonempty, H.
Qed.

(** ** Occurrences *)


Lemma occurs_in_skip (s a t : jsstring) : occurs_in s t -> occurs_in s (a ++ t).
Proof.
  intros (before & after & ->). exists (a ++ before), after.
  now rewrite app_assoc.
Qed.

Lemma occurs_around (pre1 pre2 c post1 post2 : jsstring) :
  occurs_in (pre2 ++ c ++ post1) ((pre1 ++ pre2) ++ c ++ (post1 ++ post2)).
Proof.
  exists pre1, post2. now rewrite <- !app_assoc.
Qed.


(** The piece [pre2 ++ c ++ post1] occurs where the template has the hole
    [c] between a literal ending in [pre2] and a literal starting with
    [post1] ([n] units long). *)
Ltac find_hole pre2 post1 n :=
  repeat
    lazymatch goal with
    | |- occurs_in _ (lit ?X ++ ?c ++ lit ?Y ++ ?rest) =>
        first
          [ change (occurs_in (pre2 ++ c ++ post1)
                      ((firstn (List.length (lit X) - List.length pre2) (lit X)
                        ++ pre2)
                       ++ c ++ (post1 ++ (skipn n (lit Y) ++ rest))));
            apply occurs_around
          | apply occurs_in_skip; apply occurs_in_skip ]
    end.

(** ** Rows that are read back *)

Lemma tokenize_app (a : jsstring) : forall st ta b,
  tokenize st a = Some ta ->
  tokenize st (a ++ b) = option_map (app ta) (tokenize Data b).
Proof.
  induction a as [|c a IH]; intros st ta b H.
  - destruct st; cbn in H; try discriminate. injection H as <-.
    cbn. now destruct (tokenize Data b).
  - cbn [app tokenize] in *. destruct st as [|seen|seen].
    + destruct (c =? 60); [now apply IH|].
      destruct (c =? 38); [now apply IH|].
      destruct (tokenize Data a) as [t|] eqn:E; [|discriminate].
      cbn in H. injection H as <-. rewrite (IH Data t b E).
      now destruct (tokenize Data b).
    + destruct (c =? 62); [|now apply IH].
      destruct (tag_of seen) as [tag|]; [|discriminate].
      destruct (tokenize Data a) as [t|] eqn:E; [|discriminate].
      cbn in H. injection H as <-. rewrite (IH Data t b E).
      now destruct (tokenize Data b).
    + destruct (c =? 59); [|now apply IH].
      destruct (reference seen) as [u|]; [|discriminate].
      destruct (tokenize Data a) as [t|] eqn:E; [|discriminate].
      cbn in H. injection H as <-. rewrite (IH Data t b E).
      now destruct (tokenize Data b).
Qed.

Lemma build_app (ts : list token) : forall o cs ts',
  build o ts = Some cs ->
  build o (ts ++ ts') = option_map (app cs) (build None ts').
Proof.
  induction ts as [|t ts IH]; intros o cs ts' H.
  - destruct o; cbn in H; [discriminate|]. injection H as <-.
    cbn. now destruct (build None ts').
  - cbn [app build] in *.
    destruct o as [c|], t as [n a|n|u]; try discriminate;
      try (now apply IH).
    destruct (str_eqb n (element_name c)); [|discriminate].
    destruct (build None ts) as [r|] eqn:E; [|discriminate].
    cbn in H. injection H as <-. rewrite (IH None r ts' E).
    now destruct (build None ts').
Qed.

Lemma normalize_cons (x : code_unit) (r : jsstring) :
  normalize_newlines (x :: r)
  = if x =? 13 then
      10 :: match r with
            | d :: r' =>
                if d =? 10 then normalize_newlines r' else normalize_newlines r
            | [] => []
            end
    else x :: normalize_newlines r.
Proof. reflexivity. Qed.

Lemma normalize_app_pair (c : code_unit) (b a : jsstring) :
  c <> 10 ->
  normalize_newlines (a ++ c :: b)
  = normalize_newlines a ++ normalize_newlines (c :: b) /\
  forall x,
    normalize_newlines ((x :: a) ++ c :: b)
    = normalize_newlines (x :: a) ++ normalize_newlines (c :: b).
Proof.
  intros Hc. apply N.eqb_neq in Hc.
  induction a as [|y a [IH1 IH2]].
  - split; [reflexivity|]. intros x. cbn [app].
    rewrite (normalize_cons x (c :: b)), (normalize_cons x []), Hc.
    now destruct (x =? 13).
  - split; [apply IH2|]. intros x.
    change ((x :: y :: a) ++ c :: b) with (x :: y :: (a ++ c :: b)).
    rewrite (normalize_cons x (y :: a ++ c :: b)), (normalize_cons x (y :: a)).
    change (y :: a ++ c :: b) with ((y :: a) ++ c :: b).
    destruct (x =? 13).
    + destruct (y =? 10).
      * now rewrite IH1.
      * now rewrite (IH2 y).
    + now rewrite (IH2 y).
Qed.

Lemma normalize_app (a b : jsstring) :
  match b with c :: _ => c <> 10 | [] => True end ->
  normalize_newlines (a ++ b) = normalize_newlines a ++ normalize_newlines b.
Proof.
  destruct b as [|c b]; intros H.
  - now rewrite !app_nil_r.
  - exact (proj1 (normalize_app_pair c b a H)).
Qed.

Lemma normalize_plain (s : jsstring) :
  forallb (fun c => negb (c =? 13)) s = true -> normalize_newlines s = s.
Proof.
  induction s as [|c s IH]; [reflexivity|].
  cbn [forallb]. intros H. apply andb_prop in H as [Hc Hs].
  rewrite normalize_cons. apply negb_true_iff in Hc. rewrite Hc.
  now rewrite IH.
Qed.

Lemma normalize_plain_app (p s : jsstring) :
  forallb (fun c => negb (c =? 13)) p = true ->
  normalize_newlines (p ++ s) = p ++ normalize_newlines s.
Proof.
  induction p as [|c p IH]; [reflexivity|].
  cbn [forallb app]. intros H. apply andb_prop in H as [Hc Hp].
  rewrite normalize_cons. apply negb_true_iff in Hc. rewrite Hc.
  now rewrite IH.
Qed.

Lemma normalize_is_plain (s : jsstring) :
  forallb (fun c => negb (c =? 13)) (normalize_newlines s) = true /\
  forall x, forallb (fun c => negb (c =? 13)) (normalize_newlines (x :: s))
            = true.
Proof.
  induction s as [|y s [IH1 IH2]].
  - split; [reflexivity|]. intros x. rewrite normalize_cons.
    destruct (x =? 13) eqn:E; cbn [forallb normalize_newlines];
      [reflexivity|now rewrite E].
  - split; [apply IH2|]. intros x. rewrite normalize_cons.
    destruct (x =? 13) eqn:E.
    + cbn [forallb]. destruct (y =? 10); [exact IH1|apply IH2].
    + cbn [forallb]. rewrite E. apply IH2.
Qed.

Lemma forallb_app_true {A} (f : A -> bool) (l l' : list A) :
  forallb f l = true -> forallb f l' = true -> forallb f (l ++ l') = true.
Proof. intros H H'. rewrite forallb_app. now rewrite H, H'. Qed.

Lemma escape_unit_is_plain (x : code_unit) :
  (x =? 13) = false ->
  forallb (fun c => negb (c =? 13)) (escape_unit x) = true.
Proof.
  intros H. unfold escape_unit.
  repeat match goal with
         | |- context [if ?b then _ else _] => destruct b; [reflexivity|]
         end.
  cbn [forallb]. now rewrite H.
Qed.

Lemma escape_unit_head (y : code_unit) (r : jsstring) :
  (y =? 10) = false ->
  exists d es, escape_unit y ++ r = d :: es /\ (d =? 10) = false.
Proof.
  intros H. unfold escape_unit.
  repeat match goal with
         | |- context [if ?b then _ else _] =>
             destruct b; [eexists; eexists; split; reflexivity|]
         end.
  exists y, r. split; [reflexivity|exact H].
Qed.

Lemma normalize_serialize_pair (t : jsstring) :
  normalize_newlines (serialize_text t) = serialize_text (normalize_newlines t)
  /\
  forall x,
    normalize_newlines (serialize_text (x :: t))
    = serialize_text (normalize_newlines (x :: t)).
Proof.
  unfold serialize_text.
  induction t as [|y t [IH1 IH2]].
  - split; [reflexivity|]. intros x. cbn [flat_map]. rewrite app_nil_r.
    rewrite normalize_cons. destruct (x =? 13) eqn:E.
    + apply N.eqb_eq in E. subst x. reflexivity.
    + cbn [flat_map]. rewrite app_nil_r.
      apply normalize_plain, escape_unit_is_plain, E.
  - split; [apply IH2|]. intros x.
    rewrite (normalize_cons x (y :: t)). cbn [flat_map] in *.
    destruct (x =? 13) eqn:E.
    + apply N.eqb_eq in E. subst x.
      change (escape_unit 13) with [13]. cbn [app].
      rewrite normalize_cons. change (13 =? 13) with true. cbv iota.
      destruct (y =? 10) eqn:Ey.
      * apply N.eqb_eq in Ey. subst y. change (escape_unit 10) with [10].
        cbn [app]. change (10 =? 10) with true. cbv iota.
        cbn [flat_map]. change (escape_unit 10) with [10]. cbn [app].
        now rewrite IH1.
      * destruct (escape_unit_head y (flat_map escape_unit t) Ey)
          as (d & es & Hd & Hd10).
        rewrite Hd, Hd10, <- Hd. rewrite (IH2 y).
        cbn [flat_map]. reflexivity.
    + rewrite (normalize_plain_app _ _ (escape_unit_is_plain x E)).
      rewrite (IH2 y). cbn [flat_map]. reflexivity.
Qed.

Lemma normalize_serialize (t : jsstring) :
  normalize_newlines (serialize_text t) = serialize_text (normalize_newlines t).
Proof. exact (proj1 (normalize_serialize_pair t)). Qed.

Lemma tokenize_escape_unit (c : code_unit) (r : jsstring) :
  tokenize Data (escape_unit c ++ r)
  = option_map (cons (Character c)) (tokenize Data r).
Proof.
  unfold escape_unit.
  destruct (c =? 38) eqn:E38; [apply N.eqb_eq in E38; subst c; reflexivity|].
  destruct (c =? 160) eqn:E160; [apply N.eqb_eq in E160; subst c; reflexivity|].
  destruct (c =? 60) eqn:E60; [apply N.eqb_eq in E60; subst c; reflexivity|].
  destruct (c =? 62) eqn:E62; [apply N.eqb_eq in E62; subst c; reflexivity|].
  cbn [app tokenize]. now rewrite E60, E38.
Qed.

Lemma tokenize_text (t r : jsstring) :
  tokenize Data (serialize_text t ++ r)
  = option_map (app (map Character t)) (tokenize Data r).
Proof.
  unfold serialize_text. induction t as [|c t IH]; cbn [flat_map map app].
  - now destruct (tokenize Data r).
  - rewrite <- app_assoc, tokenize_escape_unit, IH.
    now destruct (tokenize Data r).
Qed.

Lemma tag_scan (w : jsstring) : forall seen r,
  forallb (fun c => negb (c =? 62)) w = true ->
  tokenize (TagOpen seen) (w ++ 62 :: r)
  = match tag_of (seen ++ w) with
    | Some t => option_map (cons t) (tokenize Data r)
    | None => None
    end.
Proof.
  induction w as [|c w IH]; intros seen r H.
  - cbn [app tokenize]. change (62 =? 62) with true. cbv iota.
    now rewrite app_nil_r.
  - cbn [forallb] in H. apply andb_prop in H as [Hc Hw].
    apply negb_true_iff in Hc.
    cbn [app tokenize]. rewrite Hc, (IH _ _ Hw), <- app_assoc. reflexivity.
Qed.

Lemma strip_prefix_spec (p : jsstring) : forall s r,
  strip_prefix p s = Some r -> s = p ++ r.
Proof.
  induction p as [|a p IH]; intros s r H.
  - cbn in H. now injection H as ->.
  - destruct s as [|b s]; [discriminate|]. cbn [strip_prefix] in H.
    unfold unit_eqb in H. destruct (a =? b) eqn:E; [|discriminate].
    apply N.eqb_eq in E. subst b. cbn [app]. f_equal. now apply IH.
Qed.

Lemma class_unit_plain (c : code_unit) :
  class_unit c = true -> (c =? 13) = false /\ (c =? 62) = false.
Proof.
  intros H. split; apply N.eqb_neq; intros ->; discriminate H.
Qed.

Lemma quoted_plain (v : jsstring) :
  quoted_value v = true ->
  forallb (fun c => negb (c =? 13)) v = true /\
  forallb (fun c => negb (c =? 62)) v = true.
Proof.
  induction v as [|c v IH]; [discriminate|].
  cbn [quoted_value forallb]. destruct v as [|d v].
  - intros H. apply N.eqb_eq in H. subst c. split; reflexivity.
  - intros H. apply andb_prop in H as [Hc Hv].
    destruct (class_unit_plain c Hc) as [-> ->].
    destruct (IH Hv) as [-> ->]. split; reflexivity.
Qed.

Lemma attributes_plain (a : jsstring) :
  attributes_read a = true ->
  forallb (fun c => negb (c =? 13)) a = true /\
  forallb (fun c => negb (c =? 62)) a = true.
Proof.
  destruct a as [|x a]; [split; reflexivity|].
  unfold attributes_read.
  destruct (strip_prefix (lit " class=`") (x :: a)) as [v|] eqn:E;
    [|discriminate].
  apply strip_prefix_spec in E. rewrite E. intros H.
  destruct (quoted_plain v H) as [H13 H62].
  split; rewrite forallb_app; apply andb_true_intro;
    (split; [reflexivity|assumption]).
Qed.

Lemma cell_name_cases (n : jsstring) :
  cell_name n = true -> n = lit "td" \/ n = lit "th".
Proof.
  unfold cell_name. intros H.
  apply orb_prop in H as [H|H]; apply str_eqb_eq in H; auto.
Qed.

Lemma tokenize_start_tag (n a r : jsstring) :
  cell_name n = true -> attributes_read a = true ->
  tokenize Data (lit "<" ++ n ++ a ++ lit ">" ++ r)
  = option_map (cons (StartTag n a)) (tokenize Data r).
Proof.
  intros Hn Ha. destruct (attributes_plain a Ha) as [_ Hgt].
  change (lit "<" ++ n ++ a ++ lit ">" ++ r) with (60 :: (n ++ a ++ 62 :: r)).
  cbn [tokenize]. change (60 =? 60) with true. cbv iota.
  rewrite app_assoc, tag_scan.
  - cbn [app]. unfold tag_of.
    destruct (cell_name_cases n Hn) as [-> | ->]; cbn [lit lit_unit app];
      rewrite Ha; reflexivity.
  - apply forallb_app_true; [|exact Hgt].
    destruct (cell_name_cases n Hn) as [-> | ->]; reflexivity.
Qed.

Lemma tokenize_end_tag (n r : jsstring) :
  cell_name n = true ->
  tokenize Data (lit "</" ++ n ++ lit ">" ++ r)
  = option_map (cons (EndTag n)) (tokenize Data r).
Proof.
  intros Hn. destruct (cell_name_cases n Hn) as [-> | ->]; reflexivity.
Qed.

Lemma build_text (t : jsstring) : forall c ts,
  build (Some c) (map Character t ++ ts)
  = build (Some {| element_name := element_name c;
                   element_attributes := element_attributes c;
                   element_text :=
                     element_text c ++ filter (fun u => negb (u =? 0)) t |})
      ts.
Proof.
  induction t as [|u t IH]; intros c ts.
  - cbn [map app filter]. rewrite app_nil_r. now destruct c.
  - cbn [map app build filter]. rewrite IH.
    cbn [element_name element_attributes element_text].
    destruct (u =? 0); cbn [negb]; [reflexivity|].
    now rewrite <- app_assoc.
Qed.

Lemma cells_of_cell (n a t : jsstring) :
  cell_name n = true -> attributes_read a = true ->
  cells_of (lit "<" ++ n ++ a ++ lit ">" ++ serialize_text t
            ++ lit "</" ++ n ++ lit ">")
  = Some [{| element_name := n; element_attributes := a;
             element_text := parsed_text t |}].
Proof.
  intros Hn Ha. destruct (attributes_plain a Ha) as [H13 _].
  assert (Pn : forallb (fun c => negb (c =? 13)) n = true)
    by (destruct (cell_name_cases n Hn) as [-> | ->]; reflexivity).
  unfold cells_of.
  replace (normalize_newlines
             (lit "<" ++ n ++ a ++ lit ">" ++ serialize_text t
              ++ lit "</" ++ n ++ lit ">"))
    with (lit "<" ++ n ++ a ++ lit ">"
          ++ serialize_text (normalize_newlines t)
          ++ lit "</" ++ n ++ lit ">" ++ []).
  - rewrite (tokenize_start_tag _ _ _ Hn Ha), tokenize_text,
      (tokenize_end_tag _ _ Hn).
    cbn [tokenize option_map build app].
    rewrite build_text. cbn [build element_name element_text app].
    rewrite str_eqb_refl. reflexivity.
  - rewrite app_nil_r.
    rewrite (normalize_plain_app (lit "<")) by reflexivity.
    rewrite (normalize_plain_app n) by exact Pn.
    rewrite (normalize_plain_app a) by exact H13.
    rewrite (normalize_plain_app (lit ">")) by reflexivity.
    rewrite (normalize_app (serialize_text t) (lit "</" ++ n ++ lit ">"))
      by (intros H; discriminate H).
    rewrite normalize_serialize.
    rewrite (normalize_plain (lit "</" ++ n ++ lit ">"))
      by (repeat apply forallb_app_true; try assumption; reflexivity).
    reflexivity.
Qed.

Lemma cells_of_app (a b : jsstring) (ca cb : list cell_element) :
  cells_of a = Some ca -> cells_of b = Some cb ->
  match b with c :: _ => c <> 10 | [] => True end ->
  cells_of (a ++ b) = Some (ca ++ cb).
Proof.
  unfold cells_of. intros Ha Hb Hs. rewrite (normalize_app _ _ Hs).
  destruct (tokenize Data (normalize_newlines a)) as [ta|] eqn:Ta;
    [|discriminate].
  destruct (tokenize Data (normalize_newlines b)) as [tb|] eqn:Tb;
    [|discriminate].
  rewrite (tokenize_app _ _ _ _ Ta), Tb. cbn [option_map].
  rewrite (build_app _ _ _ _ Ha), Hb. reflexivity.
Qed.

Lemma parsed_text_is_clean (t : jsstring) :
  forallb (fun u => negb (u =? 0) && negb (u =? 13)) (parsed_text t) = true.
Proof.
  unfold parsed_text. apply forallb_forall. intros u Hu.
  apply filter_In in Hu as [Hin Hz]. rewrite Hz.
  pose proof (proj1 (normalize_is_plain t)) as Hp.
  rewrite forallb_forall in Hp. now rewrite (Hp u Hin).
Qed.

Lemma parsed_text_clean (t : jsstring) :
  forallb (fun u => negb (u =? 0) && negb (u =? 13)) t = true ->
  parsed_text t = t.
Proof.
  intros H. unfold parsed_text. rewrite normalize_plain.
  - induction t as [|u t IH]; [reflexivity|].
    cbn [forallb filter] in *. apply andb_prop in H as [Hu Ht].
    apply andb_prop in Hu as [-> _]. now rewrite IH.
  - apply forallb_forall. intros u Hu. rewrite forallb_forall in H.
    specialize (H u Hu). now apply andb_prop in H as [_ ->].
Qed.

Lemma cells_of_serialize (cs : list cell_element) :
  forallb clean_cell cs = true ->
  cells_of (flat_map serialize_cell cs) = Some cs.
Proof.
  induction cs as [|c cs IH]; [reflexivity|].
  cbn [forallb flat_map]. intros H. apply andb_prop in H as [Hc Hcs].
  unfold clean_cell in Hc. apply andb_prop in Hc as [Hc Ht].
  apply andb_prop in Hc as [Hn Ha].
  apply (cells_of_app _ _ [c] cs).
  - unfold serialize_cell.
    rewrite (cells_of_cell _ _ _ Hn Ha), (parsed_text_clean _ Ht).
    now destruct c.
  - now apply IH.
  - destruct cs as [|d cs]; [exact I|]. cbn [flat_map]. discriminate.
Qed.

Lemma read_back_cells (html : jsstring) (cs : list cell_element) :
  cells_of html = Some cs -> read_back html = flat_map serialize_cell cs.
Proof. unfold read_back. now intros ->. Qed.

(** ** The duration formatter *)

(** C3.  The duration formatter renders an absent input ([undefined] or
    [null]) as the empty string.  For a number [s] it renders ["{s}s"] when
    [s < 60], ["{floor(s/60)}m {s mod 60}s"] when [60 <= s < 3600] and
    ["{floor(s/3600)}h {floor((s mod 3600)/60)}m"] when [3600 <= s], the
    text standing in the duration span; floor and remainder are taken on
    the raw value, fractional or not, with no other rounding.  The
    boundaries are exact: 0 gives "0s", 59 "59s", 60 "1m 0s", 3599
    "59m 59s" and 3600 "1h 0m". *)
Theorem duration_formatter (s : number) :
  SiteDetail.renderDuration VUndefined = [] /\
  SiteDetail.renderDuration VNull = [] /\
  (Num.ltb s (Num.of_Z 60) = true ->
   SiteDetail.renderDuration (VNum s)
   = span_duration (Num.to_string s ++ lit "s")) /\
  (Num.leb (Num.of_Z 60) s = true -> Num.ltb s (Num.of_Z 3600) = true ->
   SiteDetail.renderDuration (VNum s)
   = span_duration
       (Num.to_string (Num.floor (Num.div s (Num.of_Z 60))) ++ lit "m " ++
        Num.to_string (Num.rem s (Num.of_Z 60)) ++ lit "s")) /\
  (Num.leb (Num.of_Z 3600) s = true ->
   SiteDetail.renderDuration (VNum s)
   = span_duration
       (Num.to_string (Num.floor (Num.div s (Num.of_Z 3600))) ++ lit "h " ++
        Num.to_string
          (Num.floor (Num.div (Num.rem s (Num.of_Z 3600)) (Num.of_Z 60))) ++
        lit "m")) /\
  SiteDetail.renderDuration (int 0) = span_duration (lit "0s") /\
  SiteDetail.renderDuration (int 59) = span_duration (lit "59s") /\
  SiteDetail.renderDuration (int 60) = span_duration (lit "1m 0s") /\
  SiteDetail.renderDuration (int 3599) = span_duration (lit "59m 59s") /\
  SiteDetail.renderDuration (int 3600) = span_duration (lit "1h 0m") /\
  SiteDetail.renderDuration (VNum n59_5) = span_duration (lit "59.5s") /\
  SiteDetail.renderDuration (VNum n61_5) = span_duration (lit "1m 1.5s") /\
  SiteDetail.renderDuration (VNum n3725_9) = span_duration (lit "1h 2m").
Proof.
  split; [reflexivity|]. split; [reflexivity|].
  split; [|split; [|split]].
  - intros H. unfold SiteDetail.renderDuration.
    cbn [is_nullish to_number to_string]. rewrite H. reflexivity.
  - intros H60 H3600. unfold SiteDetail.renderDuration.
    cbn [is_nullish to_number to_string].
    rewrite (leb_not_ltb _ _ H60), H3600. reflexivity.
  - intros H3600. unfold SiteDetail.renderDuration.
    cbn [is_nullish to_number to_string].
    rewrite (leb_3600_not_ltb_60 _ H3600), (leb_not_ltb _ _ H3600).
    reflexivity.
  - repeat split; vm_compute; reflexivity.
Qed.

Lemma duration_formatter_witness :
  Num.leb (Num.of_Z 60) (Num.of_Z 75) = true /\
  Num.ltb (Num.of_Z 75) (Num.of_Z 3600) = true /\
  SiteDetail.renderDuration (int 75) = span_duration (lit "1m 15s").
Proof.
  split; [vm_compute; reflexivity|].
  split; [vm_compute; reflexivity|].
  unfold int.
  rewrite (proj1 (proj2 (proj2 (proj2 (duration_formatter (Num.of_Z 75))))));
    vm_compute; reflexivity.
Defined.

(** ** The escaper *)

Lemma decode_other (c : code_unit) (r : jsstring) :
  c <> 38 -> decode_text (c :: r) = c :: decode_text r.
Proof.
  intros Hc.
  destruct c as [|p]; [reflexivity|].
  destruct p as [p|p|]; try reflexivity.
  destruct p as [p|p|]; try reflexivity.
  destruct p as [p|p|]; try reflexivity.
  destruct p as [p|p|]; try reflexivity.
  destruct p as [p|p|]; try reflexivity.
  destruct p as [p|p|]; try reflexivity.
  congruence.
Qed.

Lemma decode_escape_unit (c : code_unit) (r : jsstring) :
  decode_text (escape_unit c ++ r) = c :: decode_text r.
Proof.
  unfold escape_unit.
  destruct (c =? 38) eqn:E38;
    [apply N.eqb_eq in E38; subst c; reflexivity|].
  destruct (c =? 160) eqn:E160;
    [apply N.eqb_eq in E160; subst c; reflexivity|].
  destruct (c =? 60) eqn:E60;
    [apply N.eqb_eq in E60; subst c; reflexivity|].
  destruct (c =? 62) eqn:E62;
    [apply N.eqb_eq in E62; subst c; reflexivity|].
  cbn [app]. apply decode_other. now apply N.eqb_neq.
Qed.

Lemma decode_serialize (s : jsstring) : decode_text (serialize_text s) = s.
Proof.
  unfold serialize_text.
  induction s as [|c s IH]; [reflexivity|].
  cbn [flat_map]. rewrite decode_escape_unit. now rewrite IH.
Qed.

Lemma serialize_no_angle (s : jsstring) (c : code_unit) :
  c = 60 \/ c = 62 -> ~ In c (serialize_text s).
Proof.
  intros Hc. induction s as [|x s IH]; [intros []|].
  unfold serialize_text in *. cbn [flat_map]. intros Hin.
  apply in_app_or in Hin as [Hin|Hin]; [|now apply IH].
  unfold escape_unit in Hin.
  destruct (x =? 38); [cbn in Hin; intuition (subst; discriminate)|].
  destruct (x =? 160); [cbn in Hin; intuition (subst; discriminate)|].
  destruct (x =? 60) eqn:E60; [cbn in Hin; intuition (subst; discriminate)|].
  destruct (x =? 62) eqn:E62; [cbn in Hin; intuition (subst; discriminate)|].
  cbn in Hin. destruct Hin as [->|[]].
  apply N.eqb_neq in E60, E62. intuition congruence.
Qed.

Lemma esc_injective (s t : jsstring) :
  esc (VStr s) = esc (VStr t) -> s = t.
Proof.
  intros H. rewrite <- (decode_serialize s), <- (decode_serialize t).
  exact (f_equal decode_text H).
Qed.

Lemma header_name_is_text (name : jsstring) (data : value) (p : page) :
  content (after (SiteDetail.renderHeader name data) p) model_name_id
  = match name with [] => [] | _ => [Text name] end.
Proof.
  unfold after, SiteDetail.renderHeader, bind, lift, set_title,
    set_textContent, put_content, ret.
  destruct (get data (lit "model_stats")) as [ms|]; [|reflexivity].
  destruct (get ms name) as [st|]; [|reflexivity].
  destruct (truthy st); [|reflexivity].
  destruct (get st (lit "passed")); [|reflexivity].
  destruct (get st (lit "total")); [|reflexivity].
  destruct (get st (lit "percentage")); reflexivity.
Qed.

(** ** The leaderboard *)

Lemma has_stats_model_stats (data model : value) :
  has_stats data model -> is_nullish (lookup data (lit "model_stats")) = false.
Proof.
  unfold has_stats, stats_of. intros H.
  destruct (is_nullish (lookup data (lit "model_stats"))) eqn:E; [|reflexivity].
  now rewrite (lookup_nullish _ _ E) in H.
Qed.

Lemma encode_throws_pair (s : jsstring) :
  (forall e, encode s = Throw e -> e = URIError) /\
  (forall c e, encode (c :: s) = Throw e -> e = URIError).
Proof.
  induction s as [|d s [IH1 IH2]].
  - split; [discriminate|]. intros c e. cbn [encode].
    destruct (unreserved c); [discriminate|].
    destruct (is_low_surrogate c); [congruence|].
    destruct (is_high_surrogate c); [congruence|discriminate].
  - split; [apply IH2|]. intros c e.
    change (encode (c :: d :: s)) with
      (if unreserved c then rbind (encode (d :: s)) (fun r => Ok (c :: r))
       else if is_low_surrogate c then Throw URIError
       else if is_high_surrogate c then
         if is_low_surrogate d then
           rbind (encode s) (fun r =>
             Ok (flat_map percent
                   (utf8 ((c - 55296) * 1024 + (d - 56320) + 65536)) ++ r))
         else Throw URIError
       else rbind (encode (d :: s)) (fun r => Ok (flat_map percent (utf8 c) ++ r))).
    destruct (unreserved c).
    { destruct (encode (d :: s)) eqn:E; cbn [rbind]; [discriminate|].
      intros [= <-]. now apply (IH2 d). }
    destruct (is_low_surrogate c); [congruence|].
    destruct (is_high_surrogate c).
    { destruct (is_low_surrogate d); [|congruence].
      destruct (encode s) eqn:E; cbn [rbind]; [discriminate|].
      intros [= <-]. now apply IH1. }
    destruct (encode (d :: s)) eqn:E; cbn [rbind]; [discriminate|].
    intros [= <-]. now apply (IH2 d).
Qed.

Lemma encode_uri_of (model : value) :
  encodeURIComponent model <> Throw URIError ->
  encodeURIComponent model = Ok (uri_of model).
Proof.
  unfold uri_of. destruct (encodeURIComponent model) as [u|e] eqn:E;
    [reflexivity|].
  intros H. exfalso. apply H. f_equal.
  exact (proj1 (encode_throws_pair _) e E).
Qed.

(** The callbacks on a document that is there. *)
Section LeaderboardRows.

Variable data : value.
Hypothesis Hdata : is_nullish data = false.

Lemma site_index_row_ok (model : value) (i : nat) :
  has_stats data model ->
  encodeURIComponent model <> Throw URIError ->
  SiteIndex.leaderboard_row data model i = Ok (site_index_row data i model).
Proof.
  intros Hs Hu. unfold SiteIndex.leaderboard_row, site_index_row, field.
  rewrite (get_lookup _ _ Hdata). cbn [rbind]. unfold get_at.
  rewrite (get_lookup _ _ (has_stats_model_stats _ _ Hs)). cbn [rbind].
  rewrite (encode_uri_of _ Hu). cbn [rbind].
  fold (stats_of data model).
  rewrite !(get_lookup _ _ Hs). reflexivity.
Qed.

Lemma matrix_a_row_ok (model : value) (i : nat) :
  has_stats data model ->
  MatrixA.leaderboard_row data model i = Ok (matrix_a_row data i model).
Proof.
  intros Hs. unfold MatrixA.leaderboard_row, matrix_a_row, field.
  rewrite (get_lookup _ _ Hdata). cbn [rbind]. unfold get_at.
  rewrite (get_lookup _ _ (has_stats_model_stats _ _ Hs)). cbn [rbind].
  fold (stats_of data model).
  rewrite !(get_lookup _ _ Hs). reflexivity.
Qed.

Lemma matrix_b_row_ok (model : value) (i : nat) (p : page) :
  has_stats data model ->
  outcome (MatrixB.leaderboard_row data model i) p = Ok tt /\
  content (after (MatrixB.leaderboard_row data model i) p) leaderboard_body_id
  = content p leaderboard_body_id ++ [matrix_b_row data i model].
Proof.
  intros Hs.
  unfold MatrixB.leaderboard_row, matrix_b_row, field, outcome, after, bind, lift.
  rewrite (get_lookup _ _ Hdata). unfold get_at.
  rewrite (get_lookup _ _ (has_stats_model_stats _ _ Hs)).
  fold (stats_of data model).
  rewrite !(get_lookup _ _ Hs). split; reflexivity.
Qed.

Lemma row_throws_without_stats (model : value) (i : nat) (p : page) :
  is_nullish (lookup data (lit "model_stats")) = false ->
  is_nullish (stats_of data model) = true ->
  MatrixA.leaderboard_row data model i = Throw TypeError /\
  outcome (MatrixB.leaderboard_row data model i) p = Throw TypeError.
Proof.
  intros Hs Hn. unfold MatrixA.leaderboard_row, MatrixB.leaderboard_row,
    outcome, bind, lift, get_at.
  rewrite (get_lookup _ _ Hdata). cbn [rbind].
  rewrite (get_lookup _ _ Hs). cbn [rbind].
  fold (stats_of data model).
  rewrite (get_nullish _ _ Hn). split; reflexivity.
Qed.

Lemma header_completes (modelName : jsstring) (p : page) :
  is_nullish (lookup data (lit "model_stats")) = false ->
  outcome (SiteDetail.renderHeader modelName data) p = Ok tt.
Proof.
  intros Hs.
  unfold SiteDetail.renderHeader, outcome, bind, lift, set_title,
    set_textContent, put_content, ret.
  rewrite (get_lookup _ _ Hdata), (get_lookup _ _ Hs).
  destruct (truthy (lookup (lookup data (lit "model_stats")) modelName)) eqn:E;
    [|reflexivity].
  rewrite !(get_lookup _ _ (truthy_not_nullish _ E)). reflexivity.
Qed.

End LeaderboardRows.

Lemma site_index_row_nonempty (data : value) (i : nat) (m : value) :
  site_index_row data i m <> [].
Proof. unfold site_index_row, SiteIndex.row_markup. discriminate. Qed.

Lemma matrix_a_row_nonempty (data : value) (i : nat) (m : value) :
  matrix_a_row data i m <> [].
Proof. unfold matrix_a_row, MatrixA.row_markup. discriminate. Qed.

(** X23.  Take a document whose [models] is an array and in which every
    listed model has an entry in [model_stats].  When the array is not
    empty, each leaderboard renders one row per model, in the order of
    [models] and without re-sorting (the leaderboard of [site/app.js] for
    names that [encodeURIComponent] accepts, because its rows link to the
    detail page).  The row at position [i] is the template of its script
    with the rank [i + 1], the escaped name, the score
    ["{passed}/{total}"] and a bar whose width is the model's [percentage]
    followed by a percent sign.  When [models] is empty, each renders
    exactly one placeholder row and no other content. *)
Theorem leaderboard_rows (data : value) (models : list value) (p : page) :
  get data (lit "models") = Ok (VArr models) ->
  (forall m, In m models -> has_stats data m) ->
  (models <> [] ->
   (outcome (MatrixA.renderLeaderboard data) p = Ok tt /\
    content (after (MatrixA.renderLeaderboard data) p) leaderboard_body_id
    = [Markup (join [] (indexed (matrix_a_row data) models))]) /\
   (outcome (MatrixB.renderLeaderboard data) p = Ok tt /\
    content (after (MatrixB.renderLeaderboard data) p) leaderboard_body_id
    = indexed (matrix_b_row data) models) /\
   ((forall m, In m models -> encodeURIComponent m <> Throw URIError) ->
    outcome (SiteIndex.renderLeaderboard data) p = Ok tt /\
    content (after (SiteIndex.renderLeaderboard data) p) leaderboard_body_id
    = [Markup (join [] (indexed (site_index_row data) models))])) /\
  (models = [] ->
   run (MatrixA.renderLeaderboard data) p
   = (Ok tt, with_content p leaderboard_body_id [Markup MatrixA.no_results]) /\
   run (MatrixB.renderLeaderboard data) p
   = (Ok tt, with_content (with_content p leaderboard_body_id [])
               leaderboard_body_id [Markup MatrixB.no_results]) /\
   run (SiteIndex.renderLeaderboard data) p
   = (Ok tt, with_content p leaderboard_body_id [Markup SiteIndex.no_results])) /\
  (forall i m,
     site_index_row data i m
     =
  lit "
            <tr onclick=`window.location.href='detail.html?model=" ++
  uri_of m ++
  lit "'` class=`clickable`>
                <td class=`rank`>" ++
  show_count (i + 1) ++
  lit "</td>
                <td class=`model`>" ++
  esc m ++
  lit "</td>
                <td class=`score`>" ++
  field (stats_of data m) "passed" ++
  lit "/" ++
  field (stats_of data m) "total" ++
  lit "</td>
                <td class=`bar-cell`><div class=`bar`><div class=`bar-fill` style=`width:" ++
  field (stats_of data m) "percentage" ++
  lit "%`></div></div></td>
            </tr>
        " /\
     matrix_a_row data i m
     =
  lit "
            <tr>
                <td class=`rank`>" ++
  show_count (i + 1) ++
  lit "</td>
                <td class=`model`>" ++
  esc m ++
  lit "</td>
                <td class=`score`>" ++
  field (stats_of data m) "passed" ++
  lit "/" ++
  field (stats_of data m) "total" ++
  lit "</td>
                <td class=`bar-cell`><div class=`bar`><div class=`bar-fill` style=`width:" ++
  field (stats_of data m) "percentage" ++
  lit "%`></div></div></td>
            </tr>
        " /\
     matrix_b_row data i m
     = Element (lit "tr")
         (
  lit "
            <td class=`rank`>#" ++
  show_count (i + 1) ++
  lit "</td>
            <td class=`model-name`>" ++
  esc m ++
  lit "</td>
            <td class=`score-pass`>" ++
  field (stats_of data m) "passed" ++
  lit "/" ++
  field (stats_of data m) "total" ++
  lit "</td>
            <td>
                <div class=`progress-bar`>
                    <div class=`progress-fill` style=`width: " ++
  field (stats_of data m) "percentage" ++
  lit "%`></div>
                </div>
                <span style=`margin-left: 10px;`>" ++
  field (stats_of data m) "percentage" ++
  lit "%</span>
            </td>
        ")).
Proof.
  intros Hm Hs. pose proof (get_ok_not_nullish _ _ _ Hm) as Hd.
  split; [|split; [|intros i m; repeat split]].
  - intros Hne. destruct models as [|m0 ms]; [congruence|]. clear Hne.
    split; [|split].
    + unfold MatrixA.renderLeaderboard, outcome, after, bind, lift.
      rewrite Hm, get_opt_length, truthy_length_cons. cbn [negb elements].
      unfold map_indexed.
      rewrite (map_from_pure _ (matrix_a_row data)).
      2:{ intros j x Hx. apply (matrix_a_row_ok data Hd).
          apply Hs. eapply nth_error_In; eauto. }
      fold (indexed (matrix_a_row data) (m0 :: ms)).
      rewrite set_innerHTML_markup
        by (apply join_nonempty, matrix_a_row_nonempty).
      cbn [fst snd]. now rewrite content_with_content.
    + unfold MatrixB.renderLeaderboard, outcome, after, bind, lift.
      cbn [set_innerHTML put_content fst snd].
      rewrite Hm. unfold MatrixB.missing_or_empty, MatrixB.length_is_zero.
      cbn [truthy negb]. rewrite get_length. cbn [rbind].
      destruct (length_value_cons m0 ms) as [(mm & e & ->)| ->];
        cbn [elements].
      all: match goal with
           | |- context [forEach ?f ?l ?i ?q] =>
               destruct (forEach_append f (matrix_b_row data)
                           leaderboard_body_id l i q) as [Ho Hc];
                 [intros j x q' Hx; apply (matrix_b_row_ok data Hd);
                  apply Hs; eapply nth_error_In; eauto|]
           end.
      all: unfold outcome, after in Ho, Hc; split; [exact Ho|].
      all: rewrite Hc; reflexivity.
    + intros Hu.
      unfold SiteIndex.renderLeaderboard, outcome, after, bind, lift.
      rewrite Hm, get_opt_length, truthy_length_cons. cbn [negb elements].
      unfold map_indexed.
      rewrite (map_from_pure _ (site_index_row data)).
      2:{ intros j x Hx.
          apply (site_index_row_ok data Hd);
            [apply Hs|apply Hu]; eapply nth_error_In; eauto. }
      fold (indexed (site_index_row data) (m0 :: ms)).
      rewrite set_innerHTML_markup
        by (apply join_nonempty, site_index_row_nonempty).
      cbn [fst snd]. now rewrite content_with_content.
  - intros ->.
    unfold run, MatrixA.renderLeaderboard, MatrixB.renderLeaderboard,
      SiteIndex.renderLeaderboard, bind, lift.
    rewrite Hm. repeat split.
Qed.

Lemma leaderboard_rows_witness :
  get sample (lit "models") = Ok (VArr [str "A"; str "B"]) /\
  (forall m, In m [str "A"; str "B"] -> has_stats sample m) /\
  content (after (MatrixA.renderLeaderboard sample) blank_page)
    leaderboard_body_id
  = [Markup (matrix_a_row sample 0 (str "A") ++ matrix_a_row sample 1 (str "B"))] /\
  content (after (MatrixB.renderLeaderboard sample) blank_page)
    leaderboard_body_id
  = [matrix_b_row sample 0 (str "A"); matrix_b_row sample 1 (str "B")].
Proof.
  assert (H : forall m, In m [str "A"; str "B"] -> has_stats sample m)
    by (intros m [<-|[<-|[]]]; reflexivity).
  assert (N : [str "A"; str "B"] <> []) by discriminate.
  split; [reflexivity|]. split; [exact H|]. split.
  - exact (proj2 (proj1 (proj1 (leaderboard_rows sample [str "A"; str "B"]
                                  blank_page eq_refl H) N))).
  - exact (proj2 (proj1 (proj2 (proj1 (leaderboard_rows sample
                                         [str "A"; str "B"] blank_page
                                         eq_refl H) N)))).
Defined.

(** C7, at the document [lone_surrogate], whose one model has its
    statistics and a name that is a lone surrogate: the leaderboard of
    [site/app.js] throws a [URIError] when it encodes the name for the
    link of the row, so that no row is emitted and the page handler puts
    its fallback row in place of the leaderboard, where the leaderboards of
    the other two scripts render the row with the rank 1, the score 1/1
    and the width 100%. *)
Theorem site_leaderboard_rejects_a_lone_surrogate
  (toLocaleDateString : value -> jsstring) :
  outcome (SiteIndex.renderLeaderboard lone_surrogate) blank_page
  = Throw URIError /\
  content (after (SiteIndex.renderLeaderboard lone_surrogate) blank_page)
    leaderboard_body_id
  = [] /\
  content (after (site_index_page toLocaleDateString (Loaded lone_surrogate))
             blank_page) leaderboard_body_id
  = [Markup (lit "<tr><td colspan=`4`>No results yet</td></tr>")] /\
  content (after (MatrixB.renderLeaderboard lone_surrogate) blank_page)
    leaderboard_body_id
  = [Element (lit "tr")
       (
  lit "
            <td class=`rank`>#" ++
  lit "1" ++
  lit "</td>
            <td class=`model-name`>" ++
  [55296] ++
  lit "</td>
            <td class=`score-pass`>" ++
  lit "1" ++
  lit "/" ++
  lit "1" ++
  lit "</td>
            <td>
                <div class=`progress-bar`>
                    <div class=`progress-fill` style=`width: " ++
  lit "100" ++
  lit "%`></div>
                </div>
                <span style=`margin-left: 10px;`>" ++
  lit "100" ++
  lit "%</span>
            </td>
        ")] /\
  content (after (MatrixA.renderLeaderboard lone_surrogate) blank_page)
    leaderboard_body_id
  = [Markup
       (
  lit "
            <tr>
                <td class=`rank`>" ++
  lit "1" ++
  lit "</td>
                <td class=`model`>" ++
  [55296] ++
  lit "</td>
                <td class=`score`>" ++
  lit "1" ++
  lit "/" ++
  lit "1" ++
  lit "</td>
                <td class=`bar-cell`><div class=`bar`><div class=`bar-fill` style=`width:" ++
  lit "100" ++
  lit "%`></div></div></td>
            </tr>
        ")].
Proof. repeat split; vm_compute; reflexivity. Qed.

(** The rows of the sample document, written out. *)
Lemma sample_rows :
  matrix_a_row sample 1 (str "B")
  = MatrixA.row_markup (lit "2") (lit "B") (lit "0") (lit "1") (lit "0") /\
  site_index_row sample 0 (str "A")
  = SiteIndex.row_markup (lit "A") (lit "1") (lit "A") (lit "1") (lit "1")
      (lit "100").
Proof. split; vm_compute; reflexivity. Qed.

(** A listed model without statistics makes the whole leaderboard throw. *)
Lemma map_from_throws {A B} (f : A -> nat -> result B) (e : error)
  (l : list A) : forall i,
  (forall j x, nth_error l j = Some x ->
     (exists y, f x (i + j)%nat = Ok y) \/ f x (i + j)%nat = Throw e) ->
  (exists j x, nth_error l j = Some x /\ f x (i + j)%nat = Throw e) ->
  map_from f l i = Throw e.
Proof.
  induction l as [|x l IH]; intros i Hall (j & y & Hj & Hy).
  - destruct j; discriminate Hj.
  - cbn [map_from].
    destruct (Hall 0%nat x eq_refl) as [(r & Hr)|Hr];
      rewrite Nat.add_0_r in Hr; rewrite Hr; cbn [rbind]; [|reflexivity].
    destruct j as [|j].
    + injection Hj as <-. rewrite Nat.add_0_r in Hy. congruence.
    + rewrite (IH (S i)); [reflexivity| |].
      * intros k z Hk. rewrite Nat.add_succ_l, <- Nat.add_succ_r.
        now apply Hall.
      * exists j, y. split; [exact Hj|].
        now rewrite Nat.add_succ_l, <- Nat.add_succ_r.
Qed.

Lemma leaderboard_throws (data : value) (models : list value) (m : value)
  (p : page) :
  get data (lit "models") = Ok (VArr models) ->
  is_nullish (lookup data (lit "model_stats")) = false ->
  In m models -> is_nullish (stats_of data m) = true ->
  outcome (MatrixA.renderLeaderboard data) p = Throw TypeError.
Proof.
  intros Hm Hs Hin Hn. pose proof (get_ok_not_nullish _ _ _ Hm) as Hd.
  unfold outcome, MatrixA.renderLeaderboard.
  rewrite bind_lift, Hm. cbv beta iota.
  rewrite bind_lift, get_opt_length. cbv beta iota.
  rewrite truthy_length_nonempty by (intros ->; exact Hin).
  cbn [negb]. rewrite bind_lift. cbn [elements].
  rewrite bind_lift. unfold map_indexed.
  rewrite (map_from_throws _ TypeError); [reflexivity| |].
  - intros j x Hx. cbn [Nat.add].
    destruct (is_nullish (stats_of data x)) eqn:E.
    + right. exact (proj1 (row_throws_without_stats data Hd x j p Hs E)).
    + left. eexists. now apply matrix_a_row_ok.
  - apply In_nth_error in Hin as [j Hj]. exists j, m. split; [exact Hj|].
    exact (proj1 (row_throws_without_stats data Hd m j p Hs Hn)).
Qed.

(** C1, at the document [missing_stats], which lists model A and has no
    entry for it in [model_stats]: each of the three leaderboard renderers
    throws a [TypeError] when it reads [passed] of the missing entry, where
    the header of the detail page completes; the page handlers catch the
    exception and replace the whole leaderboard by their fallback row, and
    the compact index script never reaches its matrix. *)
Theorem leaderboard_throws_without_stats
  (toLocaleDateString : value -> jsstring) :
  outcome (SiteIndex.renderLeaderboard missing_stats) blank_page
  = Throw TypeError /\
  outcome (MatrixA.renderLeaderboard missing_stats) blank_page
  = Throw TypeError /\
  outcome (MatrixB.renderLeaderboard missing_stats) blank_page
  = Throw TypeError /\
  outcome (SiteDetail.renderHeader (lit "A") missing_stats) blank_page = Ok tt /\
  content (after (site_index_page toLocaleDateString (Loaded missing_stats))
             blank_page) leaderboard_body_id
  = [Markup SiteIndex.no_results] /\
  content (after (matrix_a_page toLocaleDateString (Loaded missing_stats))
             blank_page) leaderboard_body_id
  = [Markup MatrixA.no_results] /\
  content (after (matrix_a_page toLocaleDateString (Loaded missing_stats))
             blank_page) results_body_id
  = [] /\
  content (after (matrix_b_page toLocaleDateString (Loaded missing_stats))
             blank_page) leaderboard_body_id
  = [Markup MatrixB.no_results].
Proof. repeat split; vm_compute; reflexivity. Qed.

(** ** The matrix *)



Lemma status_of_non_boolean (r : value) :
  (forall b, lookup r (lit "passed") <> VBool b) -> status_of r = NotAttempted.
Proof.
  intros H. unfold status_of.
  destruct (lookup r (lit "passed")) as [| |[]| | | | |]; try reflexivity;
    exfalso; eapply H; reflexivity.
Qed.

Lemma matrix_a_body_row_nonempty (data model : value) (exams : list value) :
  matrix_a_body_row data model exams <> [].
Proof. unfold matrix_a_body_row, MatrixA.body_row_markup. discriminate. Qed.

(** The cells of the verbose matrix as the parser reads them. *)
Lemma appended_cell (o : outcome3) :
  cells_of (appended_b o) = Some [marker_cell o] /\
  clean_cell (marker_cell o) = true /\
  serialize_cell (marker_cell o) = marker_b o.
Proof. destruct o; repeat split. Qed.

Lemma text_cell_clean (n a : jsstring) (v : value) :
  cell_name n = true -> attributes_read a = true ->
  clean_cell (text_cell n a v) = true.
Proof.
  intros Hn Ha. unfold clean_cell, text_cell.
  cbn [element_name element_attributes element_text].
  now rewrite Hn, Ha, parsed_text_is_clean.
Qed.

Lemma name_cell_cells (model : value) :
  cells_of (MatrixB.name_cell (MatrixB.escapeHtml model))
  = Some [text_cell (lit "td") (lit " class=`model-name`") model].
Proof.
  exact (cells_of_cell (lit "td") (lit " class=`model-name`") (text_of model)
           eq_refl eq_refl).
Qed.

Lemma header_cell_cells (exam : value) :
  cells_of (lit "<th>" ++ MatrixB.escapeHtml exam ++ lit "</th>")
  = Some [text_cell (lit "th") [] exam].
Proof.
  exact (cells_of_cell (lit "th") [] (text_of exam) eq_refl eq_refl).
Qed.

Lemma serialize_marker_cells (os : list outcome3) :
  flat_map serialize_cell (map marker_cell os) = List.concat (map marker_b os).
Proof.
  induction os as [|o os IH]; [reflexivity|].
  cbn [map flat_map List.concat].
  now rewrite IH, (proj2 (proj2 (appended_cell o))).
Qed.

(** The rows of a document whose [exam_results] is there, and the whole
    matrix of one whose [models] and [exams] are non-empty arrays. *)
Section MatrixRows.

Variable data : value.
Hypothesis Hdata : is_nullish data = false.
Hypothesis Hresults : is_nullish (lookup data (lit "exam_results")) = false.

Lemma matrix_a_cell (model exam : value) (n : nat) :
  MatrixA.cell data model exam n
  = Ok (marker_a (outcome_of data exam model),
        (n + counts (outcome_of data exam model))%nat).
Proof.
  unfold MatrixA.cell, get_at, get_opt_at, outcome_of.
  rewrite (get_lookup _ _ Hdata). cbn [rbind].
  rewrite (get_lookup _ _ Hresults). cbn [rbind].
  rewrite get_opt_lookup. cbn [rbind].
  fold (entry (lookup data (lit "exam_results")) exam model).
  rewrite get_opt_lookup. cbn [rbind].
  unfold status_of.
  destruct (is_true _); cbn [rbind marker_a counts];
    [now rewrite Nat.add_1_r|].
  destruct (is_false _); cbn [marker_a counts]; now rewrite Nat.add_0_r.
Qed.

Lemma matrix_b_cell (model exam : value) (st : MatrixB.row_state) :
  MatrixB.cell data model st exam
  = Ok {| MatrixB.row_innerHTML :=
            read_back (MatrixB.row_innerHTML st)
            ++ appended_b (outcome_of data exam model);
          MatrixB.passed :=
            (MatrixB.passed st + counts (outcome_of data exam model))%nat;
          MatrixB.total := S (MatrixB.total st) |}.
Proof.
  unfold MatrixB.cell, get_at, get_opt_at, outcome_of.
  rewrite (get_lookup _ _ Hdata). cbn [rbind].
  rewrite (get_lookup _ _ Hresults). cbn [rbind].
  rewrite get_opt_lookup. cbn [rbind].
  fold (entry (lookup data (lit "exam_results")) exam model).
  rewrite get_opt_lookup. cbn [rbind].
  unfold status_of.
  destruct (is_true _); cbn [rbind appended_b counts];
    [now rewrite Nat.add_1_r|].
  destruct (is_false _); cbn [appended_b counts]; now rewrite Nat.add_0_r.
Qed.

Lemma map_counting_cells (model : value) (exams : list value) :
  forall n,
  map_counting (MatrixA.cell data model) exams n
  = Ok (map (fun exam => marker_a (outcome_of data exam model)) exams,
        (n + passed_count (lookup data (lit "exam_results")) model exams)%nat).
Proof.
  induction exams as [|exam exams IH]; intros n.
  - cbn. now rewrite Nat.add_0_r.
  - cbn [map_counting map passed_count].
    rewrite matrix_a_cell. cbn [rbind].
    rewrite IH. cbn [rbind]. unfold outcome_of. now rewrite Nat.add_assoc.
Qed.

Lemma fold_cells_cells (model : value) (exams : list value) :
  forall st cs,
  cells_of (MatrixB.row_innerHTML st) = Some cs ->
  forallb clean_cell cs = true ->
  exists html,
    MatrixB.fold_cells (MatrixB.cell data model) exams st
    = Ok {| MatrixB.row_innerHTML := html;
            MatrixB.passed :=
              (MatrixB.passed st
               + passed_count (lookup data (lit "exam_results")) model exams)%nat;
            MatrixB.total := (MatrixB.total st + List.length exams)%nat |} /\
    cells_of html
    = Some (cs ++ map (fun exam => marker_cell (outcome_of data exam model))
                    exams).
Proof.
  induction exams as [|exam exams IH]; intros st cs Hcs Hclean.
  - exists (MatrixB.row_innerHTML st). cbn.
    rewrite app_nil_r, !Nat.add_0_r. split; [now destruct st|exact Hcs].
  - cbn [MatrixB.fold_cells map passed_count List.length].
    rewrite matrix_b_cell. cbn [rbind].
    set (o := outcome_of data exam model).
    destruct (appended_cell o) as (Ho & Hoc & _).
    match goal with
    | |- context [MatrixB.fold_cells _ _ ?st1] =>
        destruct (IH st1 (cs ++ [marker_cell o])) as (html & Hfold & Hcells)
    end.
    + cbn [MatrixB.row_innerHTML]. rewrite (read_back_cells _ _ Hcs).
      apply cells_of_app;
        [now apply cells_of_serialize|exact Ho|].
      destruct o; intros H; discriminate H.
    + apply forallb_app_true; [exact Hclean|]. cbn [forallb].
      now rewrite Hoc.
    + exists html. split.
      * rewrite Hfold.
        cbn [MatrixB.row_innerHTML MatrixB.passed MatrixB.total].
        unfold outcome_of in o. fold o.
        now rewrite <- Nat.add_assoc, Nat.add_succ_r, Nat.add_succ_l.
      * rewrite Hcells, <- app_assoc. reflexivity.
Qed.

Variable exams : list value.
Hypothesis Hexams : get data (lit "exams") = Ok (VArr exams).

Lemma matrix_a_body_row_ok (model : value) (i : nat) :
  MatrixA.body_row data model i = Ok (matrix_a_body_row data model exams).
Proof.
  unfold MatrixA.body_row, matrix_a_body_row.
  rewrite Hexams. cbn [rbind elements].
  rewrite map_counting_cells. cbn [rbind]. reflexivity.
Qed.

Lemma matrix_b_body_row_ok (model : value) (i : nat) (p : page) :
  outcome (MatrixB.body_row data model i) p = Ok tt /\
  content (after (MatrixB.body_row data model i) p) results_body_id
  = content p results_body_id ++ [matrix_b_body_row data model exams].
Proof.
  destruct (fold_cells_cells model exams
              {| MatrixB.row_innerHTML :=
                   MatrixB.name_cell (MatrixB.escapeHtml model);
                 MatrixB.passed := 0; MatrixB.total := 0 |}
              [text_cell (lit "td") (lit " class=`model-name`") model]
              (name_cell_cells model))
    as (html & Hfold & Hcells).
  { cbn [forallb]. now rewrite text_cell_clean. }
  unfold MatrixB.body_row, matrix_b_body_row, outcome, after, bind, lift.
  rewrite Hexams. cbn [elements].
  rewrite Hfold.
  cbn [MatrixB.row_innerHTML MatrixB.passed MatrixB.total Nat.add].
  rewrite (read_back_cells _ _ Hcells).
  split; [reflexivity|].
  unfold appendChild. rewrite content_put_content.
  cbn [app flat_map].
  rewrite <- (map_map (fun exam => outcome_of data exam model) marker_cell).
  rewrite serialize_marker_cells, map_map, <- app_assoc.
  reflexivity.
Qed.

Variable models : list value.
Hypothesis Hmodels : get data (lit "models") = Ok (VArr models).
Hypothesis Hsome_models : models <> [].
Hypothesis Hsome_exams : exams <> [].

Lemma matrix_a_renders (p : page) :
  outcome (MatrixA.renderDetailed data) p = Ok tt /\
  content (after (MatrixA.renderDetailed data) p) results_head_id
  = [Markup (MatrixA.head_markup (join [] (map MatrixA.header_cell exams)))] /\
  content (after (MatrixA.renderDetailed data) p) results_body_id
  = [Markup (join [] (map (fun model => matrix_a_body_row data model exams)
                        models))].
Proof.
  unfold outcome, after, MatrixA.renderDetailed, bind, lift.
  rewrite Hmodels, get_opt_length, (truthy_length_nonempty _ Hsome_models).
  cbn [negb].
  rewrite Hexams, get_opt_length, (truthy_length_nonempty _ Hsome_exams).
  cbn [negb elements].
  rewrite set_innerHTML_markup by (unfold MatrixA.head_markup; discriminate).
  unfold map_indexed.
  rewrite (map_from_pure _ (fun _ model => matrix_a_body_row data model exams))
    by (intros; apply matrix_a_body_row_ok).
  rewrite indexed_from_map.
  rewrite set_innerHTML_markup
    by (apply join_map_nonempty;
        [exact Hsome_models|intros; apply matrix_a_body_row_nonempty]).
  cbn [fst snd]. split; [reflexivity|]. split; reflexivity.
Qed.

Lemma nothing_to_show_false :
  MatrixB.nothing_to_show data = Ok false.
Proof.
  unfold MatrixB.nothing_to_show, MatrixB.missing_or_empty,
    MatrixB.length_is_zero.
  rewrite Hmodels. cbn [rbind truthy negb]. rewrite get_length. cbn [rbind].
  rewrite (length_not_zero _ Hsome_models).
  rewrite Hexams. cbn [rbind truthy negb]. rewrite get_length. cbn [rbind].
  now rewrite (length_not_zero _ Hsome_exams).
Qed.

Lemma matrix_b_body_row_frame (model : value) (i : nat) (p : page) :
  content (after (MatrixB.body_row data model i) p) results_header_id
  = content p results_header_id.
Proof.
  destruct (fold_cells_cells model exams
              {| MatrixB.row_innerHTML :=
                   MatrixB.name_cell (MatrixB.escapeHtml model);
                 MatrixB.passed := 0; MatrixB.total := 0 |}
              [text_cell (lit "td") (lit " class=`model-name`") model]
              (name_cell_cells model))
    as (html & Hfold & _).
  { cbn [forallb]. now rewrite text_cell_clean. }
  unfold after, MatrixB.body_row. rewrite bind_lift, Hexams. cbv beta iota.
  rewrite bind_lift. cbn [elements]. rewrite bind_lift, Hfold.
  reflexivity.
Qed.

Lemma matrix_b_renders (p : page) :
  outcome (MatrixB.renderDetailedResults data) p = Ok tt /\
  content (after (MatrixB.renderDetailedResults data) p) results_header_id
  = [Element (lit "tr") (MatrixB.header_row exams)] /\
  content (after (MatrixB.renderDetailedResults data) p) results_body_id
  = map (fun model => matrix_b_body_row data model exams) models.
Proof.
  unfold outcome, after, MatrixB.renderDetailedResults.
  rewrite !bind_set_innerHTML_empty, bind_lift, nothing_to_show_false.
  cbv beta iota.
  rewrite bind_lift, Hexams. cbv beta iota.
  rewrite bind_lift. cbn [elements].
  rewrite bind_appendChild, bind_lift, Hmodels. cbv beta iota.
  rewrite bind_lift. cbn [elements].
  match goal with
  | |- context [forEach ?f ?l ?i ?q] =>
      destruct (forEach_append f
                  (fun _ model => matrix_b_body_row data model exams)
                  results_body_id l i q) as [Ho Hc];
        [intros j x q' _; apply matrix_b_body_row_ok|];
      pose proof (forEach_frame f results_header_id l
                    (fun j x q' => matrix_b_body_row_frame x j q') i q) as Hf
  end.
  unfold outcome, after in Ho, Hc, Hf.
  split; [exact Ho|]. split.
  - rewrite Hf. reflexivity.
  - rewrite Hc, indexed_from_map. reflexivity.
Qed.

End MatrixRows.

(** ** The escaper in the renderers *)

Lemma cell_appends (data model exam : value) (st st' : MatrixB.row_state) :
  MatrixB.cell data model st exam = Ok st' ->
  exists o,
    MatrixB.row_innerHTML st'
    = read_back (MatrixB.row_innerHTML st) ++ appended_b o.
Proof.
  unfold MatrixB.cell.
  destruct (get data (lit "exam_results")) as [er|]; cbn [rbind];
    [|discriminate].
  destruct (get_at er exam) as [oe|]; cbn [rbind]; [|discriminate].
  destruct (get_opt_at oe model) as [r|]; cbn [rbind]; [|discriminate].
  destruct (get_opt r (lit "passed")) as [flag|]; cbn [rbind];
    [|discriminate].
  destruct (is_true flag); [intros [= <-]; now exists Passed|].
  destruct (is_false flag); intros [= <-];
    [now exists Failed3|now exists NotAttempted].
Qed.

Lemma fold_cells_appends (data model : value) (exams : list value) :
  forall st st' cs,
  MatrixB.fold_cells (MatrixB.cell data model) exams st = Ok st' ->
  cells_of (MatrixB.row_innerHTML st) = Some cs ->
  forallb clean_cell cs = true ->
  exists os,
    cells_of (MatrixB.row_innerHTML st') = Some (cs ++ map marker_cell os).
Proof.
  induction exams as [|exam exams IH]; intros st st' cs H Hcs Hclean.
  - cbn in H. injection H as <-. exists []. now rewrite app_nil_r.
  - cbn [MatrixB.fold_cells] in H.
    destruct (MatrixB.cell data model st exam) as [st1|] eqn:E;
      cbn [rbind] in H; [|discriminate].
    destruct (cell_appends _ _ _ _ _ E) as [o Ho].
    destruct (appended_cell o) as (Hc & Hoc & _).
    destruct (IH st1 st' (cs ++ [marker_cell o]) H) as [os Hos].
    + rewrite Ho, (read_back_cells _ _ Hcs).
      apply cells_of_app; [now apply cells_of_serialize|exact Hc|].
      destruct o; intros H'; discriminate H'.
    + apply forallb_app_true; [exact Hclean|]. cbn [forallb].
      now rewrite Hoc.
    + exists (o :: os). rewrite Hos, <- app_assoc. reflexivity.
Qed.

(** C4, as the code has it.  [esc] returns the text serialised as element
    content: [&], [<], [>] and U+00A0 become character references and every
    other code unit, the double quote included, is kept.  The result holds
    neither [<] nor [>], and reading it back as element content gives the
    text again.  A name [<b>] comes out as [&lt;b&gt;].  Each renderer that
    displays a model's name, whenever its callback returns, has put the
    escaped name, and nothing else, into the name's cell: the rows of the
    three leaderboards and of the compact matrix as they are assigned, the
    row of the verbose matrix as it is read back (there CR LF and CR are LF
    and U+0000 is gone, as in any text that a browser parses).  The header
    of the detail page assigns the name as text. *)
Theorem esc_preserves_text (s : jsstring) (data model : value) (i : nat)
  (row : jsstring) (p : page) :
  decode_text (esc (VStr s)) = s /\
  ~ In 60 (esc (VStr s)) /\
  ~ In 62 (esc (VStr s)) /\
  esc (str "<b>") = lit "&lt;b&gt;" /\
  esc (str "a&b") = lit "a&amp;b" /\
  esc (VStr [34]) = [34] /\
  (SiteIndex.leaderboard_row data model i = Ok row ->
   occurs_in (lit "<td class=`model`>" ++ esc model ++ lit "</td>") row) /\
  (MatrixA.leaderboard_row data model i = Ok row ->
   occurs_in (lit "<td class=`model`>" ++ esc model ++ lit "</td>") row) /\
  (MatrixA.body_row data model i = Ok row ->
   occurs_in (lit "<td class=`model-col`>" ++ esc model ++ lit "</td>") row) /\
  (outcome (MatrixB.leaderboard_row data model i) p = Ok tt ->
   exists html,
     content (after (MatrixB.leaderboard_row data model i) p)
       leaderboard_body_id
     = content p leaderboard_body_id ++ [Element (lit "tr") html] /\
     occurs_in (lit "<td class=`model-name`>" ++ esc model ++ lit "</td>")
       html) /\
  (outcome (MatrixB.body_row data model i) p = Ok tt ->
   exists html,
     content (after (MatrixB.body_row data model i) p) results_body_id
     = content p results_body_id ++ [Element (lit "tr") html] /\
     occurs_in
       (lit "<td class=`model-name`>" ++ esc_read model ++ lit "</td>")
       html) /\
  decode_text (esc_read (VStr s)) = parsed_text s /\
  content (after (SiteDetail.renderHeader s data) p) model_name_id
  = match s with [] => [] | _ => [Text s] end.
Proof.
  split; [apply decode_serialize|].
  split; [apply serialize_no_angle; now left|].
  split; [apply serialize_no_angle; now right|].
  split; [reflexivity|]. split; [reflexivity|]. split; [reflexivity|].
  split.
  { unfold SiteIndex.leaderboard_row.
    destruct (get data (lit "model_stats")) as [ms|]; cbn [rbind];
      [|discriminate].
    destruct (get_at ms model) as [st|]; cbn [rbind]; [|discriminate].
    destruct (encodeURIComponent model) as [u|]; cbn [rbind]; [|discriminate].
    destruct (get st (lit "passed")) as [a|]; cbn [rbind]; [|discriminate].
    destruct (get st (lit "total")) as [b|]; cbn [rbind]; [|discriminate].
    destruct (get st (lit "percentage")) as [c|]; cbn [rbind];
      [|discriminate].
    intros [= <-]. unfold SiteIndex.row_markup.
    find_hole (lit "<td class=`model`>") (lit "</td>") 5%nat. }
  split.
  { unfold MatrixA.leaderboard_row.
    destruct (get data (lit "model_stats")) as [ms|]; cbn [rbind];
      [|discriminate].
    destruct (get_at ms model) as [st|]; cbn [rbind]; [|discriminate].
    destruct (get st (lit "passed")) as [a|]; cbn [rbind]; [|discriminate].
    destruct (get st (lit "total")) as [b|]; cbn [rbind]; [|discriminate].
    destruct (get st (lit "percentage")) as [c|]; cbn [rbind];
      [|discriminate].
    intros [= <-]. unfold MatrixA.row_markup.
    find_hole (lit "<td class=`model`>") (lit "</td>") 5%nat. }
  split.
  { unfold MatrixA.body_row.
    destruct (get data (lit "exams")) as [xs|]; cbn [rbind]; [|discriminate].
    destruct (elements xs) as [items|]; cbn [rbind]; [|discriminate].
    destruct (map_counting (MatrixA.cell data model) items 0)
      as [[cells k]|]; cbn [rbind]; [|discriminate].
    intros [= <-]. unfold MatrixA.body_row_markup.
    exists (lit "<tr>"). eexists.
    rewrite <- !app_assoc. reflexivity. }
  split.
  { unfold outcome, after, MatrixB.leaderboard_row, bind, lift.
    destruct (get data (lit "model_stats")) as [ms|]; [|discriminate].
    destruct (get_at ms model) as [st|]; [|discriminate].
    destruct (get st (lit "passed")) as [a|]; [|discriminate].
    destruct (get st (lit "total")) as [b|]; [|discriminate].
    destruct (get st (lit "percentage")) as [c|]; [|discriminate].
    intros _. eexists. split.
    - unfold appendChild. rewrite content_put_content. reflexivity.
    - unfold MatrixB.row_markup, MatrixB.escapeHtml. fold (esc model).
      find_hole (lit "<td class=`model-name`>") (lit "</td>") 5%nat. }
  split.
  { unfold outcome, after, MatrixB.body_row, bind, lift.
    destruct (get data (lit "exams")) as [xs|]; [|discriminate].
    destruct (elements xs) as [items|]; [|discriminate].
    destruct (MatrixB.fold_cells (MatrixB.cell data model) items _)
      as [st'|] eqn:F; [|discriminate].
    intros _.
    destruct (fold_cells_appends _ _ _ _ _ _ F (name_cell_cells model))
      as [os Hos].
    { cbn [forallb]. now rewrite text_cell_clean. }
    eexists. split.
    - unfold appendChild. rewrite content_put_content. reflexivity.
    - rewrite (read_back_cells _ _ Hos). cbn [app flat_map].
      exists []. eexists. unfold serialize_cell, text_cell, esc_read.
      cbn [element_name element_attributes element_text].
      rewrite <- !app_assoc. reflexivity. }
  split; [apply decode_serialize|].
  apply header_name_is_text.
Qed.

(** C4 at a model named [<b>]: the row of the leaderboard of [site/app.js]
    holds the cell with [&lt;b&gt;]. *)
Lemma esc_preserves_text_witness :
  SiteIndex.leaderboard_row bold_name (str "<b>") 0
  = Ok (site_index_row bold_name 0 (str "<b>")) /\
  occurs_in (lit "<td class=`model`>&lt;b&gt;</td>")
    (site_index_row bold_name 0 (str "<b>")).
Proof.
  split; [reflexivity|].
  exact (proj1 (proj2 (proj2 (proj2 (proj2 (proj2 (proj2
           (esc_preserves_text [] bold_name (str "<b>") 0
              (site_index_row bold_name 0 (str "<b>")) blank_page)))))))
           eq_refl).
Defined.

(** C4, as stated, fails on the double quote: [esc] returns it as it is. *)
Lemma esc_keeps_double_quote :
  esc (VStr [34]) = [34] /\
  esc (str "say `hi`") = lit "say `hi`" /\
  decode_text (esc (VStr [34])) = [34].
Proof. repeat split. Qed.



(** C10.  When the entry [exam_results[exam][model]] is present but its
    [passed] is neither the boolean [true] nor the boolean [false] (the
    field is missing, or holds anything else), the cell of either matrix
    renderer is the neutral marker and the row's [passed] counter is left
    as it was: the outcome of an absent pair. *)
Theorem non_boolean_flag_is_neutral (data model exam : value) (n : nat)
  (st : MatrixB.row_state) :
  is_nullish data = false ->
  is_nullish (lookup data (lit "exam_results")) = false ->
  (forall b,
     lookup (entry (lookup data (lit "exam_results")) exam model) (lit "passed")
     <> VBool b) ->
  MatrixA.cell data model exam n = Ok (MatrixA.na_cell, n) /\
  MatrixB.cell data model st exam
  = Ok {| MatrixB.row_innerHTML :=
            read_back (MatrixB.row_innerHTML st) ++ MatrixB.na_cell;
          MatrixB.passed := MatrixB.passed st;
          MatrixB.total := S (MatrixB.total st) |}.
Proof.
  intros Hd He Hp.
  rewrite (matrix_a_cell data Hd He), (matrix_b_cell data Hd He).
  unfold outcome_of. rewrite (status_of_non_boolean _ Hp).
  cbn [marker_a appended_b counts]. now rewrite !Nat.add_0_r.
Qed.

Lemma non_boolean_flag_is_neutral_witness :
  is_nullish odd_flags = false /\
  is_nullish (lookup odd_flags (lit "exam_results")) = false /\
  (forall b,
     lookup (entry (lookup odd_flags (lit "exam_results")) (str "E1") (str "A"))
       (lit "passed") <> VBool b) /\
  MatrixA.cell odd_flags (str "A") (str "E1") 0 = Ok (MatrixA.na_cell, 0%nat).
Proof.
  split; [reflexivity|]. split; [reflexivity|].
  split; [intros b; vm_compute; discriminate|].
  apply (non_boolean_flag_is_neutral odd_flags (str "A") (str "E1") 0
           {| MatrixB.row_innerHTML := []; MatrixB.passed := 0;
              MatrixB.total := 0 |});
    [reflexivity|reflexivity|intros b; vm_compute; discriminate].
Defined.

Lemma matrix_a_is_silent (data : value) (p : page) :
  get data (lit "models") = Ok (VArr []) \/
  (exists models, get data (lit "models") = Ok (VArr models) /\
                  get data (lit "exams") = Ok (VArr [])) ->
  run (MatrixA.renderDetailed data) p = (Ok tt, p).
Proof.
  unfold run, MatrixA.renderDetailed, bind, lift, ret.
  intros [H|(models & Hm & Hx)].
  - rewrite H. reflexivity.
  - rewrite Hm, get_opt_length.
    destruct models as [|m ms]; [reflexivity|].
    rewrite truthy_length_cons. cbn [negb]. rewrite Hx. reflexivity.
Qed.

Lemma matrix_b_informs (data : value) (p : page) :
  get data (lit "models") = Ok (VArr []) \/
  (exists models, get data (lit "models") = Ok (VArr models) /\
                  get data (lit "exams") = Ok (VArr [])) ->
  outcome (MatrixB.renderDetailedResults data) p = Ok tt /\
  content (after (MatrixB.renderDetailedResults data) p) results_body_id
  = [Markup MatrixB.no_detailed_results] /\
  content (after (MatrixB.renderDetailedResults data) p) results_header_id = [].
Proof.
  unfold outcome, after, MatrixB.renderDetailedResults, bind, lift.
  cbn [set_innerHTML put_content].
  unfold MatrixB.nothing_to_show, MatrixB.missing_or_empty,
    MatrixB.length_is_zero.
  intros [H|(models & Hm & Hx)].
  - rewrite H. repeat split.
  - rewrite Hm. cbn [rbind truthy negb]. rewrite get_length. cbn [rbind].
    destruct models as [|m ms]; [repeat split|].
    destruct (length_value_cons m ms) as [(mm & e & ->)| ->];
      cbn [rbind]; rewrite Hx; repeat split.
Qed.

(** C5, at the document [no_models], whose [models] is empty: the compact
    matrix renderer returns without touching the page, so that nothing is
    rendered in place of the grid, where the verbose one renders its single
    informational row. *)
Theorem compact_matrix_renders_nothing :
  run (MatrixA.renderDetailed no_models) blank_page = (Ok tt, blank_page) /\
  content (after (MatrixA.renderDetailed no_models) blank_page) results_body_id
  = [] /\
  content (after (MatrixB.renderDetailedResults no_models) blank_page)
    results_body_id
  = [Markup MatrixB.no_detailed_results].
Proof. repeat split; vm_compute; reflexivity. Qed.

Lemma scenario_matrix_a :
  run (MatrixA.renderDetailed scenario) blank_page
  = (Ok tt,
     with_content
       (with_content blank_page results_head_id
          [Markup (lit "<tr><th class=`model-col`>Model</th><th>E1</th><th>Total</th></tr>")])
       results_body_id
       [Markup
          (lit "<tr><td class=`model-col`>A</td><td class=`pass`>&#10003;</td><td class=`pass`>1/1</td></tr>"
           ++ lit "<tr><td class=`model-col`>B</td><td class=`na`>-</td><td class=`pass`>0/1</td></tr>")]).
Proof. vm_compute. reflexivity. Qed.

Lemma scenario_matrix_b :
  outcome (MatrixB.renderDetailedResults scenario) blank_page = Ok tt /\
  content (after (MatrixB.renderDetailedResults scenario) blank_page)
    results_header_id
  = [Element (lit "tr") (lit "<th>Model</th><th>E1</th><th>Total</th>")] /\
  content (after (MatrixB.renderDetailedResults scenario) blank_page)
    results_body_id
  = [matrix_b_body_row scenario (str "A") [str "E1"];
     matrix_b_body_row scenario (str "B") [str "E1"]].
Proof. repeat split; vm_compute; reflexivity. Qed.

(** ** The detail page *)

Lemma existsb_same_string (name : jsstring) (models : list value) :
  ~ In (VStr name) models -> existsb (same_string name) models = false.
Proof.
  induction models as [|m models IH]; [reflexivity|].
  intros H. cbn [existsb].
  rewrite IH by (intros Hin; apply H; now right).
  rewrite orb_false_r.
  destruct m; try reflexivity. cbn [same_string].
  destruct (str_eqb s name) eqn:E; [|reflexivity].
  apply str_eqb_eq in E. subst s. exfalso. apply H. now left.
Qed.

(** C6.  When the detail page is requested without a [model] parameter
    (or with an empty one), and when the document is loaded and its
    [models] array does not contain the named model (or the document has no
    [models]), the handler assigns ['index.html'] to [window.location.href]
    and returns: no element of the page and not the title has been
    touched. *)
Theorem detail_page_redirects (p : page) (response : fetched)
  (name : jsstring) (data : value) (models : list value) :
  run (SiteDetail.onDOMContentLoaded None response) p = (Ok tt, redirected p) /\
  run (SiteDetail.onDOMContentLoaded (Some []) response) p
  = (Ok tt, redirected p) /\
  (get data (lit "models") = Ok (VArr models) ->
   ~ In (VStr name) models ->
   run (SiteDetail.onDOMContentLoaded (Some name) (Loaded data)) p
   = (Ok tt, redirected p)) /\
  (get data (lit "models") = Ok VUndefined ->
   run (SiteDetail.onDOMContentLoaded (Some name) (Loaded data)) p
   = (Ok tt, redirected p)).
Proof.
  split; [reflexivity|]. split; [reflexivity|]. split.
  - intros Hm Hn.
    unfold run, SiteDetail.onDOMContentLoaded.
    destruct (truthy (VStr name)); [|reflexivity]. cbn [negb].
    unfold try_catch, bind, await, ret, lift.
    rewrite Hm. cbn [includes_opt].
    rewrite (existsb_same_string _ _ Hn). reflexivity.
  - intros Hm.
    unfold run, SiteDetail.onDOMContentLoaded.
    destruct (truthy (VStr name)); [|reflexivity]. cbn [negb].
    unfold try_catch, bind, await, ret, lift.
    rewrite Hm. reflexivity.
Qed.

Lemma detail_page_redirects_witness :
  get sample (lit "models") = Ok (VArr [str "A"; str "B"]) /\
  ~ In (VStr (lit "C")) [str "A"; str "B"] /\
  run (SiteDetail.onDOMContentLoaded (Some (lit "C")) (Loaded sample)) blank_page
  = (Ok tt, redirected blank_page).
Proof.
  assert (H : ~ In (VStr (lit "C")) [str "A"; str "B"])
    by (intros [H|[H|[]]]; discriminate H).
  split; [reflexivity|]. split; [exact H|].
  exact (proj1 (proj2 (proj2 (detail_page_redirects blank_page Failed (lit "C")
                                sample [str "A"; str "B"]))) eq_refl H).
Defined.

(** ** Evidence cards *)

Lemma exam_card_returns (detailed exam : value) (i : nat) :
  truthy detailed = true ->
  SiteDetail.exam_card detailed exam i = Ok (card_of detailed exam).
Proof.
  intros Hd. unfold card_of, SiteDetail.exam_card, get_at.
  rewrite (get_lookup _ _ (truthy_not_nullish _ Hd)). cbn [rbind].
  destruct (truthy (lookup detailed (to_string exam))) eqn:E; [|reflexivity].
  cbn [negb]. rewrite !(get_lookup _ _ (truthy_not_nullish _ E)).
  reflexivity.
Qed.

Lemma card_of_missing (detailed exam : value) :
  truthy detailed = true ->
  truthy (lookup detailed (to_string exam)) = false ->
  card_of detailed exam = SiteDetail.no_result_card (esc exam).
Proof.
  intros Hd E. unfold card_of, SiteDetail.exam_card, get_at.
  rewrite (get_lookup _ _ (truthy_not_nullish _ Hd)). cbn [rbind].
  now rewrite E.
Qed.

Lemma card_of_present (detailed exam : value) :
  truthy detailed = true ->
  truthy (lookup detailed (to_string exam)) = true ->
  let result := lookup detailed (to_string exam) in
  card_of detailed exam
  = SiteDetail.card_markup
      (if truthy (lookup result (lit "passed")) then lit "pass" else lit "fail")
      (esc exam)
      (SiteDetail.renderDuration (lookup result (lit "duration_seconds")))
      (if truthy (lookup result (lit "passed")) then lit "PASSED"
       else lit "FAILED")
      (SiteDetail.renderOutputSection (lit "Expected Output")
         (lookup result (lit "expected")))
      (SiteDetail.renderOutputSection (lit "Actual Output")
         (lookup result (lit "output")))
      (SiteDetail.renderDiffSection (lookup result (lit "diff")))
      (SiteDetail.renderBootOutput (lookup result (lit "boot_output")))
      (SiteDetail.renderAgentOutput (lookup result (lit "agent_output"))).
Proof.
  intros Hd E. unfold card_of, SiteDetail.exam_card, get_at.
  rewrite (get_lookup _ _ (truthy_not_nullish _ Hd)). cbn [rbind].
  rewrite E. cbn [negb]. rewrite !(get_lookup _ _ (truthy_not_nullish _ E)).
  reflexivity.
Qed.

Lemma card_of_nonempty (detailed exam : value) :
  truthy detailed = true -> card_of detailed exam <> [].
Proof.
  intros Hd.
  destruct (truthy (lookup detailed (to_string exam))) eqn:E.
  - rewrite (card_of_present _ _ Hd E). unfold SiteDetail.card_markup.
    discriminate.
  - rewrite (card_of_missing _ _ Hd E). unfold SiteDetail.no_result_card.
    discriminate.
Qed.

(** C8, as the code has it.  On the detail page of a model that has a
    mapping in [detailed_results], with a non-empty [exams] array, the
    renderer completes and fills the container with one card per exam, in
    the order of [exams]; each card is computed from that exam's entry alone,
    and an exam for which the mapping yields nothing gets the minimal
    "No result" card, which holds the escaped name of the exam and the
    words "No result".  (When the model has no mapping at all in
    [detailed_results], a single "No exam results available" paragraph
    stands in place of all the cards.) *)
Theorem missing_entry_gets_its_own_card (modelName : jsstring) (data : value)
  (exams : list value) (mapping : list (jsstring * value)) (p : page) :
  get data (lit "exams") = Ok (VArr exams) ->
  exams <> [] ->
  lookup (lookup data (lit "detailed_results")) modelName = VObj mapping ->
  outcome (SiteDetail.renderExams modelName data) p = Ok tt /\
  content (after (SiteDetail.renderExams modelName data) p) exams_container_id
  = [Markup (join [] (map (card_of (VObj mapping)) exams))] /\
  (forall exam,
     lookup (VObj mapping) (to_string exam) = VUndefined ->
     card_of (VObj mapping) exam
     =
  lit "
                <div class=`exam-card na`>
                    <div class=`exam-header`>
                        <span class=`exam-name`>" ++
  esc exam ++
  lit "</span>
                        <span class=`exam-status`>No result</span>
                    </div>
                </div>
            ").
Proof.
  intros Hx Hne Hmap. pose proof (get_ok_not_nullish _ _ _ Hx) as Hd.
  assert (Ht : truthy (VObj mapping) = true) by reflexivity.
  assert (Hrun : SiteDetail.renderExams modelName data p
                 = (Ok tt, with_content p exams_container_id
                             [Markup (join [] (map (card_of (VObj mapping))
                                                 exams))])).
  { unfold SiteDetail.renderExams, bind, lift.
    rewrite (get_lookup _ _ Hd), get_opt_lookup, Hmap.
    unfold SiteDetail.nothing_to_show. rewrite Ht. cbn [negb].
    rewrite Hx. cbn [rbind]. rewrite get_opt_length. cbn [rbind elements].
    destruct exams as [|e0 es]; [congruence|].
    rewrite truthy_length_cons. cbn [negb].
    unfold map_indexed.
    rewrite (map_from_pure _ (fun _ => card_of (VObj mapping)))
      by (intros; now apply exam_card_returns).
    rewrite indexed_from_map.
    rewrite set_innerHTML_markup
      by (cbn [map]; apply join_nonempty, card_of_nonempty, Ht).
    reflexivity. }
  unfold outcome, after. rewrite Hrun. cbn [fst snd].
  split; [reflexivity|]. split; [apply content_with_content|].
  intros exam He. rewrite (card_of_missing _ _ Ht) by (now rewrite He).
  reflexivity.
Qed.

Lemma missing_entry_gets_its_own_card_witness :
  get evidence (lit "exams") = Ok (VArr [str "E1"; str "E2"]) /\
  [str "E1"; str "E2"] <> [] /\
  lookup (lookup evidence (lit "detailed_results")) (lit "A")
  = obj [("E1", obj [("passed", VBool true); ("duration_seconds", int 75);
                     ("boot_output", VStr [])])]%string /\
  lookup (lookup (lookup evidence (lit "detailed_results")) (lit "A"))
    (lit "E2") = VUndefined /\
  content (after (SiteDetail.renderExams (lit "A") evidence) blank_page)
    exams_container_id
  = [Markup
       (card_of (lookup (lookup evidence (lit "detailed_results")) (lit "A"))
          (str "E1")
        ++
  lit "
                <div class=`exam-card na`>
                    <div class=`exam-header`>
                        <span class=`exam-name`>" ++
  lit "E2" ++
  lit "</span>
                        <span class=`exam-status`>No result</span>
                    </div>
                </div>
            ")].
Proof.
  assert (N : [str "E1"; str "E2"] <> []) by discriminate.
  split; [reflexivity|]. split; [exact N|]. split; [reflexivity|].
  split; [reflexivity|].
  rewrite (proj1 (proj2 (missing_entry_gets_its_own_card (lit "A") evidence
                           [str "E1"; str "E2"] _ blank_page eq_refl N
                           eq_refl))).
  vm_compute. reflexivity.
Defined.

(** An exam named like a member that every object inherits has an entry
    for the code, whatever the mapping holds: [detailed[exam]] is the
    inherited member, and the card is that of a failed exam. *)
Lemma inherited_name_counts_as_an_entry :
  lookup (obj []) (lit "constructor") = VNative (lit "constructor") /\
  is_substring (lit "<span class=`exam-status`>FAILED</span>")
    (card_of (obj []) (str "constructor")) = true /\
  is_substring (lit "No result") (card_of (obj []) (str "constructor"))
  = false.
Proof. repeat split; vm_compute; reflexivity. Qed.

(** C8, as stated, fails where the model has no mapping in
    [detailed_results]: exam E1 then has no entry, and what is rendered is
    the "No exam results available" paragraph, not a card for E1. *)
Lemma no_card_without_a_mapping :
  In (str "A") [str "A"] /\
  lookup (lookup (lookup missing_stats (lit "detailed_results")) (lit "A"))
    (lit "E1") = VUndefined /\
  content (after (SiteDetail.renderExams (lit "A") missing_stats) blank_page)
    exams_container_id
  = [Markup SiteDetail.no_exam_results] /\
  SiteDetail.no_exam_results <> SiteDetail.no_result_card (lit "E1").
Proof.
  split; [now left|]. split; [reflexivity|]. split; [reflexivity|].
  intros H. vm_compute in H. discriminate H.
Qed.

(** ** Collapsible sections *)




(** * Further properties *)

(** ** The collapsible blocks *)

Lemma contains_app (c : jsstring) (l l' : list jsstring) :
  SiteDetail.contains c (l ++ l')
  = SiteDetail.contains c l || SiteDetail.contains c l'.
Proof. unfold SiteDetail.contains. apply existsb_app. Qed.

Lemma str_eqb_sym (a b : jsstring) : str_eqb a b = str_eqb b a.
Proof.
  destruct (str_eqb a b) eqn:E.
  - apply str_eqb_eq in E. subst. symmetry. apply str_eqb_refl.
  - destruct (str_eqb b a) eqn:E'; [|reflexivity].
    apply str_eqb_eq in E'. subst. now rewrite str_eqb_refl in E.
Qed.

Lemma contains_filter (c d : jsstring) (l : list jsstring) :
  SiteDetail.contains c (filter (fun x => negb (str_eqb x d)) l)
  = SiteDetail.contains c l && negb (str_eqb c d).
Proof.
  unfold SiteDetail.contains.
  induction l as [|x l IH]; [reflexivity|].
  cbn [filter existsb].
  destruct (str_eqb x d) eqn:Exd; cbn [negb existsb]; rewrite IH.
  - apply str_eqb_eq in Exd. subst x.
    destruct (str_eqb c d), (existsb (str_eqb c) l); reflexivity.
  - destruct (str_eqb c x) eqn:Ecx; [|reflexivity].
    apply str_eqb_eq in Ecx. subst x. rewrite Exd. reflexivity.
Qed.

Lemma filter_none (d : jsstring) (l : list jsstring) :
  SiteDetail.contains d l = false ->
  filter (fun x => negb (str_eqb x d)) l = l.
Proof.
  unfold SiteDetail.contains.
  induction l as [|x l IH]; [reflexivity|].
  cbn [existsb filter]. intros H. apply orb_false_elim in H as [Hx Hl].
  rewrite (str_eqb_sym x d), Hx. cbn [negb]. now rewrite IH.
Qed.

Lemma filter_twice {A} (f : A -> bool) (l : list A) :
  filter f (filter f l) = filter f l.
Proof.
  induction l as [|x l IH]; [reflexivity|].
  cbn [filter]. destruct (f x) eqn:E; [|exact IH].
  cbn [filter]. now rewrite E, IH.
Qed.

(** X1.  [toggleCollapse] flips the state of the block: it is collapsed
    afterwards exactly when it was not before.  The icon is [+] when the
    block is collapsed afterwards and the icon literal of the script (the
    code units 226, 710, 8217) when it is expanded; the classes other than
    [collapsed] are as they were, in the same order. *)
Theorem toggle_flips_collapsed (b : SiteDetail.collapsible) (c : jsstring) :
  is_collapsed (SiteDetail.toggleCollapse b) = negb (is_collapsed b) /\
  SiteDetail.icon (SiteDetail.toggleCollapse b)
  = (if is_collapsed (SiteDetail.toggleCollapse b) then lit "+"
     else [226; 710; 8217]) /\
  other_classes (SiteDetail.toggleCollapse b) = other_classes b /\
  SiteDetail.contains c (SiteDetail.classList (SiteDetail.toggleCollapse b))
  = if str_eqb c (lit "collapsed") then negb (is_collapsed b)
    else SiteDetail.contains c (SiteDetail.classList b).
Proof.
  unfold is_collapsed, other_classes, SiteDetail.toggleCollapse.
  destruct (SiteDetail.contains (lit "collapsed") (SiteDetail.classList b))
    eqn:E; cbn [SiteDetail.classList SiteDetail.icon negb].
  - rewrite !contains_filter, str_eqb_refl, andb_false_r.
    repeat split.
    + apply filter_twice.
    + destruct (str_eqb c (lit "collapsed")); cbn [negb];
        [apply andb_false_r|apply andb_true_r].
  - rewrite !contains_app, E. cbn [orb].
    replace (SiteDetail.contains (lit "collapsed") [lit "collapsed"])
      with true by reflexivity.
    repeat split.
    + rewrite filter_app. cbn [filter]. rewrite str_eqb_refl. cbn [negb].
      now rewrite app_nil_r.
    + unfold SiteDetail.contains at 2. cbn [existsb].
      rewrite orb_false_r.
      destruct (str_eqb c (lit "collapsed")) eqn:Ec; [|apply orb_false_r].
      apply orb_true_r.
Qed.

(** X2.  Two calls of [toggleCollapse] on an expanded block give its class
    list back unchanged, with the icon of an expanded block; on a collapsed
    block they leave it collapsed with the icon [+], the class [collapsed]
    now standing once, at the end of the list. *)
Theorem toggle_twice (b : SiteDetail.collapsible) :
  SiteDetail.toggleCollapse (SiteDetail.toggleCollapse b)
  = if is_collapsed b then
      {| SiteDetail.classList := other_classes b ++ [lit "collapsed"];
         SiteDetail.icon := lit "+" |}
    else
      {| SiteDetail.classList := SiteDetail.classList b;
         SiteDetail.icon := [226; 710; 8217] |}.
Proof.
  unfold is_collapsed, other_classes.
  unfold SiteDetail.toggleCollapse at 2.
  destruct (SiteDetail.contains (lit "collapsed") (SiteDetail.classList b))
    eqn:E; unfold SiteDetail.toggleCollapse;
    cbn [SiteDetail.classList SiteDetail.icon].
  - rewrite contains_filter, str_eqb_refl, andb_false_r. reflexivity.
  - rewrite contains_app, E. cbn [orb].
    replace (SiteDetail.contains (lit "collapsed") [lit "collapsed"])
      with true by reflexivity.
    rewrite filter_app. cbn [filter]. rewrite str_eqb_refl. cbn [negb].
    rewrite app_nil_r, (filter_none _ _ E). reflexivity.
Qed.

(** ** The escaper, unit by unit *)

Lemma escape_unit_plain (c : code_unit) :
  plain_unit c = true -> escape_unit c = [c].
Proof.
  unfold plain_unit, escape_unit. intros H. apply negb_true_iff in H.
  repeat (apply orb_false_elim in H as [H ?]).
  now rewrite H, H0, H1, H2.
Qed.

Lemma escape_unit_special (c : code_unit) :
  plain_unit c = false -> (1 < List.length (escape_unit c))%nat.
Proof.
  unfold plain_unit, escape_unit. intros H. apply negb_false_iff in H.
  destruct (c =? 38); [cbn; lia|].
  destruct (c =? 160); [cbn; lia|].
  destruct (c =? 60); [cbn; lia|].
  destruct (c =? 62); [cbn; lia|discriminate].
Qed.

Lemma escape_unit_length (c : code_unit) :
  (1 <= List.length (escape_unit c))%nat.
Proof.
  destruct (plain_unit c) eqn:E.
  - rewrite (escape_unit_plain _ E). cbn. lia.
  - pose proof (escape_unit_special _ E). lia.
Qed.

Lemma serialize_length (s : jsstring) :
  (List.length s <= List.length (serialize_text s))%nat.
Proof.
  unfold serialize_text. induction s as [|c s IH]; [cbn; lia|].
  cbn [flat_map]. rewrite length_app. cbn [List.length].
  pose proof (escape_unit_length c). lia.
Qed.

Lemma serialize_plain (s : jsstring) :
  forallb plain_unit s = true -> serialize_text s = s.
Proof.
  unfold serialize_text. induction s as [|c s IH]; [reflexivity|].
  cbn [forallb flat_map]. intros H. apply andb_prop in H as [Hc Hs].
  now rewrite (escape_unit_plain _ Hc), IH.
Qed.

Lemma serialize_same_length (s : jsstring) :
  List.length (serialize_text s) = List.length s ->
  forallb plain_unit s = true.
Proof.
  unfold serialize_text. induction s as [|c s IH]; [reflexivity|].
  cbn [forallb flat_map]. rewrite length_app. cbn [List.length].
  intros H. pose proof (serialize_length s) as Hs. unfold serialize_text in Hs.
  destruct (plain_unit c) eqn:E.
  - rewrite (escape_unit_plain _ E) in H. cbn in H. cbn. apply IH. lia.
  - pose proof (escape_unit_special _ E). lia.
Qed.

(** X3.  [esc] works unit by unit: the escape of a concatenation is the
    concatenation of the escapes, the result is never shorter than the
    text, and it is the text itself exactly when the text holds none of
    [&], [<], [>] and U+00A0. *)
Theorem esc_unit_by_unit (s t : jsstring) :
  esc (VStr (s ++ t)) = esc (VStr s) ++ esc (VStr t) /\
  (List.length s <= List.length (esc (VStr s)))%nat /\
  (esc (VStr s) = s <-> forallb plain_unit s = true).
Proof.
  unfold esc, text_of. cbn [is_nullish to_string].
  split; [apply flat_map_app|]. split; [apply serialize_length|].
  split; [|apply serialize_plain].
  intros H. apply serialize_same_length. now rewrite H.
Qed.

(** ** What a renderer leaves alone *)

Section Preservation.

Variable R : page -> page -> Prop.
Hypothesis R_refl : forall p, R p p.
Hypothesis R_trans : forall p q r, R p q -> R q r -> R p r.

Lemma preserves_ret {A} (a : A) : preserves R (ret a).
Proof. intros p. apply R_refl. Qed.

Lemma preserves_lift {A} (r : result A) : preserves R (lift r).
Proof. intros p. apply R_refl. Qed.

Lemma preserves_bind {A B} (m : M A) (k : A -> M B) :
  preserves R m -> (forall a, preserves R (k a)) -> preserves R (bind m k).
Proof.
  intros Hm Hk p. specialize (Hm p). unfold after, bind in *.
  destruct (m p) as [[a|e] p']; cbn [snd] in *; [|exact Hm].
  eapply R_trans; [exact Hm|]. apply Hk.
Qed.

Lemma preserves_forEach {A} (f : A -> nat -> M unit) (l : list A) :
  (forall x j, preserves R (f x j)) -> forall i, preserves R (forEach f l i).
Proof.
  intros H. induction l as [|x l IH]; intros i; cbn [forEach].
  - apply preserves_ret.
  - apply preserves_bind; [apply H|intros _; apply IH].
Qed.

Lemma preserves_try_catch (body handler : M unit) :
  preserves R body -> preserves R handler ->
  preserves R (try_catch body handler).
Proof.
  intros Hb Hh p. specialize (Hb p). unfold after, try_catch in *.
  destruct (body p) as [[a|e] p']; cbn [snd] in *; [exact Hb|].
  eapply R_trans; [exact Hb|]. apply Hh.
Qed.

End Preservation.

Lemma same_outside_refl (ids : list element_id) (p : page) :
  same_outside ids p p.
Proof. split; reflexivity. Qed.

Lemma same_outside_trans (ids : list element_id) (p q r : page) :
  same_outside ids p q -> same_outside ids q r -> same_outside ids p r.
Proof.
  intros [L1 C1] [L2 C2]. split; [congruence|].
  intros id H. rewrite (C2 id H). now apply C1.
Qed.

Lemma same_title_refl (p : page) : same_title p p.
Proof. reflexivity. Qed.

Lemma same_title_trans (p q r : page) :
  same_title p q -> same_title q r -> same_title p r.
Proof. unfold same_title. congruence. Qed.

Lemma element_id_eqb_eq (a b : element_id) :
  element_id_eqb a b = true -> a = b.
Proof. destruct a, b; cbn; congruence. Qed.

Lemma keeps_put_content (ids : list element_id) (id : element_id)
  (c : list node) :
  In id ids -> keeps ids (put_content id c).
Proof.
  intros Hin p. split; [reflexivity|]. intros i Hi. cbn.
  destruct (element_id_eqb i id) eqn:E; [|reflexivity].
  apply element_id_eqb_eq in E. subst i. contradiction.
Qed.

Lemma keeps_appendChild (ids : list element_id) (id : element_id)
  (child : node) :
  In id ids -> keeps ids (appendChild id child).
Proof.
  intros Hin p. unfold appendChild.
  exact (keeps_put_content ids id (content p id ++ [child]) Hin p).
Qed.

Lemma keeps_set_title (ids : list element_id) (t : jsstring) :
  keeps ids (set_title t).
Proof. intros p. split; reflexivity. Qed.

Lemma keeps_title_put_content (id : element_id) (c : list node) :
  keeps_title (put_content id c).
Proof. intros p. reflexivity. Qed.

Lemma keeps_title_appendChild (id : element_id) (child : node) :
  keeps_title (appendChild id child).
Proof. intros p. reflexivity. Qed.

Lemma keeps_ret {A} (ids : list element_id) (a : A) : keeps ids (ret a).
Proof. exact (preserves_ret _ (same_outside_refl ids) a). Qed.

Lemma keeps_lift {A} (ids : list element_id) (r : result A) :
  keeps ids (lift r).
Proof. exact (preserves_lift _ (same_outside_refl ids) r). Qed.

Lemma keeps_bind {A B} (ids : list element_id) (m : M A) (k : A -> M B) :
  keeps ids m -> (forall a, keeps ids (k a)) -> keeps ids (bind m k).
Proof. exact (preserves_bind _ (same_outside_trans ids) m k). Qed.

Lemma keeps_forEach {A} (ids : list element_id) (f : A -> nat -> M unit)
  (l : list A) :
  (forall x j, keeps ids (f x j)) -> forall i, keeps ids (forEach f l i).
Proof.
  exact (preserves_forEach _ (same_outside_refl ids) (same_outside_trans ids)
           f l).
Qed.

Lemma keeps_title_ret {A} (a : A) : keeps_title (ret a).
Proof. exact (preserves_ret _ same_title_refl a). Qed.

Lemma keeps_title_lift {A} (r : result A) : keeps_title (lift r).
Proof. exact (preserves_lift _ same_title_refl r). Qed.

Lemma keeps_title_bind {A B} (m : M A) (k : A -> M B) :
  keeps_title m -> (forall a, keeps_title (k a)) -> keeps_title (bind m k).
Proof. exact (preserves_bind _ same_title_trans m k). Qed.

Lemma keeps_title_forEach {A} (f : A -> nat -> M unit) (l : list A) :
  (forall x j, keeps_title (f x j)) -> forall i, keeps_title (forEach f l i).
Proof. exact (preserves_forEach _ same_title_refl same_title_trans f l). Qed.

(** The renderers are sequences of reads and writes: the goal is taken
    apart along the sequence. *)
Ltac frame_step :=
  unfold keeps, keeps_title;
  lazymatch goal with
  | |- preserves (same_outside _) (ret _) => apply keeps_ret
  | |- preserves (same_outside _) (lift _) => apply keeps_lift
  | |- preserves (same_outside _) (put_content _ _) =>
      apply keeps_put_content; cbn; tauto
  | |- preserves (same_outside _) (appendChild _ _) =>
      apply keeps_appendChild; cbn; tauto
  | |- preserves (same_outside _) (set_title _) => apply keeps_set_title
  | |- preserves (same_outside _) (bind _ _) => apply keeps_bind; [|intros ?]
  | |- preserves (same_outside _) (forEach _ _ _) =>
      apply keeps_forEach; intros ? ?
  | |- preserves same_title (ret _) => apply keeps_title_ret
  | |- preserves same_title (lift _) => apply keeps_title_lift
  | |- preserves same_title (put_content _ _) => apply keeps_title_put_content
  | |- preserves same_title (appendChild _ _) => apply keeps_title_appendChild
  | |- preserves same_title (bind _ _) => apply keeps_title_bind; [|intros ?]
  | |- preserves same_title (forEach _ _ _) =>
      apply keeps_title_forEach; intros ? ?
  | |- preserves _ (if ?b then _ else _) => destruct b
  end.

Ltac frame := unfold keeps, keeps_title; cbv zeta; repeat frame_step.

Lemma keeps_b_leaderboard_row (data model : value) (i : nat) :
  keeps [leaderboard_body_id] (MatrixB.leaderboard_row data model i) /\
  keeps_title (MatrixB.leaderboard_row data model i).
Proof. unfold MatrixB.leaderboard_row. split; frame. Qed.

Lemma keeps_b_body_row (data model : value) (i : nat) :
  keeps [results_header_id; results_body_id] (MatrixB.body_row data model i) /\
  keeps_title (MatrixB.body_row data model i).
Proof. unfold MatrixB.body_row. split; frame. Qed.

Lemma renderStats_keeps (toLocaleDateString : value -> jsstring)
  (data : value) :
  keeps [total_models_id; total_exams_id; last_updated_id]
    (renderStats toLocaleDateString data) /\
  keeps_title (renderStats toLocaleDateString data).
Proof. unfold renderStats, set_textContent. split; frame. Qed.

Lemma site_index_leaderboard_keeps (data : value) :
  keeps [leaderboard_body_id] (SiteIndex.renderLeaderboard data) /\
  keeps_title (SiteIndex.renderLeaderboard data).
Proof. unfold SiteIndex.renderLeaderboard, set_innerHTML. split; frame. Qed.

Lemma matrix_a_leaderboard_keeps (data : value) :
  keeps [leaderboard_body_id] (MatrixA.renderLeaderboard data) /\
  keeps_title (MatrixA.renderLeaderboard data).
Proof. unfold MatrixA.renderLeaderboard, set_innerHTML. split; frame. Qed.

Lemma matrix_b_leaderboard_keeps (data : value) :
  keeps [leaderboard_body_id] (MatrixB.renderLeaderboard data) /\
  keeps_title (MatrixB.renderLeaderboard data).
Proof.
  unfold MatrixB.renderLeaderboard, set_innerHTML.
  split; frame; apply keeps_b_leaderboard_row.
Qed.

Lemma matrix_a_detailed_keeps (data : value) :
  keeps [results_head_id; results_body_id] (MatrixA.renderDetailed data) /\
  keeps_title (MatrixA.renderDetailed data).
Proof. unfold MatrixA.renderDetailed, set_innerHTML. split; frame. Qed.

Lemma matrix_b_detailed_keeps (data : value) :
  keeps [results_header_id; results_body_id]
    (MatrixB.renderDetailedResults data) /\
  keeps_title (MatrixB.renderDetailedResults data).
Proof.
  unfold MatrixB.renderDetailedResults, set_innerHTML.
  split; frame; apply keeps_b_body_row.
Qed.

Lemma renderHeader_keeps (modelName : jsstring) (data : value) :
  keeps [model_name_id; model_stats_id] (SiteDetail.renderHeader modelName data).
Proof. unfold SiteDetail.renderHeader, set_textContent. frame. Qed.

Lemma renderExams_keeps (modelName : jsstring) (data : value) :
  keeps [exams_container_id] (SiteDetail.renderExams modelName data) /\
  keeps_title (SiteDetail.renderExams modelName data).
Proof. unfold SiteDetail.renderExams, set_innerHTML. split; frame. Qed.

(** X4.  Each renderer of the index pages writes to its own elements only,
    whether it returns or throws: [renderStats] to the three elements of
    the statistics bar, each [renderLeaderboard] to the body of the
    leaderboard, [renderDetailed] and [renderDetailedResults] to the head
    and the body of the matrix.  None of them navigates or changes the
    title. *)
Theorem index_renderers_keep_to_their_elements
  (toLocaleDateString : value -> jsstring) (data : value) :
  (keeps [total_models_id; total_exams_id; last_updated_id]
     (renderStats toLocaleDateString data) /\
   keeps_title (renderStats toLocaleDateString data)) /\
  (keeps [leaderboard_body_id] (SiteIndex.renderLeaderboard data) /\
   keeps_title (SiteIndex.renderLeaderboard data)) /\
  (keeps [leaderboard_body_id] (MatrixA.renderLeaderboard data) /\
   keeps_title (MatrixA.renderLeaderboard data)) /\
  (keeps [leaderboard_body_id] (MatrixB.renderLeaderboard data) /\
   keeps_title (MatrixB.renderLeaderboard data)) /\
  (keeps [results_head_id; results_body_id] (MatrixA.renderDetailed data) /\
   keeps_title (MatrixA.renderDetailed data)) /\
  (keeps [results_header_id; results_body_id]
     (MatrixB.renderDetailedResults data) /\
   keeps_title (MatrixB.renderDetailedResults data)).
Proof.
  split; [apply renderStats_keeps|].
  split; [apply site_index_leaderboard_keeps|].
  split; [apply matrix_a_leaderboard_keeps|].
  split; [apply matrix_b_leaderboard_keeps|].
  split; [apply matrix_a_detailed_keeps|apply matrix_b_detailed_keeps].
Qed.

(** X5.  On the detail page [renderHeader] writes to the heading and to the
    statistics line only (besides the title), and [renderExams] to the
    container of the cards only, leaving the title alone; neither
    navigates.  This holds whether they return or throw. *)
Theorem detail_renderers_keep_to_their_elements (modelName : jsstring)
  (data : value) :
  keeps [model_name_id; model_stats_id] (SiteDetail.renderHeader modelName data) /\
  keeps [exams_container_id] (SiteDetail.renderExams modelName data) /\
  keeps_title (SiteDetail.renderExams modelName data).
Proof.
  split; [apply renderHeader_keeps|apply renderExams_keeps].
Qed.

(** ** The page handlers *)

Lemma try_catch_returns (body handler : M unit) (p : page) :
  (forall q, outcome handler q = Ok tt) ->
  outcome (try_catch body handler) p = Ok tt.
Proof.
  intros H. unfold outcome, try_catch in *.
  destruct (body p) as [[[]|e] p']; [reflexivity|apply H].
Qed.

(** X6.  No [DOMContentLoaded] handler lets an exception escape, whatever
    was loaded and whatever the page holds: the three handlers of the index
    pages and the handler of the detail page all return. *)
Theorem handlers_never_throw (toLocaleDateString : value -> jsstring)
  (query : option jsstring) (response : fetched) (p : page) :
  outcome (site_index_page toLocaleDateString response) p = Ok tt /\
  outcome (matrix_a_page toLocaleDateString response) p = Ok tt /\
  outcome (matrix_b_page toLocaleDateString response) p = Ok tt /\
  outcome (SiteDetail.onDOMContentLoaded query response) p = Ok tt.
Proof.
  repeat split; try (apply try_catch_returns; reflexivity).
  unfold SiteDetail.onDOMContentLoaded.
  destruct query as [name|]; [|reflexivity].
  destruct (negb (truthy (VStr name))); [reflexivity|].
  apply try_catch_returns. reflexivity.
Qed.

(** X7.  When the load fails, and when the document is [null], each handler
    of an index page leaves the page as it was except for the body of the
    leaderboard, which holds the fallback row of that script; the handler
    of the detail page, called with a non-empty name, leaves the page as it
    was except for the container, which holds the "Failed to load results"
    paragraph. *)
Theorem failed_load_shows_fallback (toLocaleDateString : value -> jsstring)
  (c : code_unit) (name : jsstring) (p : page) :
  (run (site_index_page toLocaleDateString Failed) p
   = (Ok tt, index_fallback SiteIndex.no_results p) /\
   run (matrix_a_page toLocaleDateString Failed) p
   = (Ok tt, index_fallback MatrixA.no_results p) /\
   run (matrix_b_page toLocaleDateString Failed) p
   = (Ok tt, index_fallback MatrixB.no_results p) /\
   run (SiteDetail.onDOMContentLoaded (Some (c :: name)) Failed) p
   = (Ok tt, detail_fallback p)) /\
  (run (site_index_page toLocaleDateString (Loaded VNull)) p
   = (Ok tt, index_fallback SiteIndex.no_results p) /\
   run (matrix_a_page toLocaleDateString (Loaded VNull)) p
   = (Ok tt, index_fallback MatrixA.no_results p) /\
   run (matrix_b_page toLocaleDateString (Loaded VNull)) p
   = (Ok tt, index_fallback MatrixB.no_results p) /\
   run (SiteDetail.onDOMContentLoaded (Some (c :: name)) (Loaded VNull)) p
   = (Ok tt, detail_fallback p)).
Proof. repeat split. Qed.

(** ** The statistics bar *)

Lemma text_of_or_else (v : value) :
  text_of (or_else v (VNum (S754_zero false))) = count_text v.
Proof.
  unfold or_else, count_text, text_of.
  destruct (truthy v) eqn:E; [|reflexivity].
  now rewrite (truthy_not_nullish _ E).
Qed.

Lemma text_shown_set (t : jsstring) : text_shown (text_node t) = Some t.
Proof. destruct t; reflexivity. Qed.

Lemma renderStats_page (toLocaleDateString : value -> jsstring)
  (data : value) (p : page) :
  is_nullish data = false ->
  renderStats toLocaleDateString data p
  = let p1 :=
      with_content
        (with_content p total_models_id
           (text_node (count_text (lookup data (lit "total_models")))))
        total_exams_id
        (text_node (count_text (lookup data (lit "total_exams")))) in
    (Ok tt,
     if truthy (lookup data (lit "generated_at")) then
       with_content p1 last_updated_id
         (text_node (toLocaleDateString (lookup data (lit "generated_at"))))
     else p1).
Proof.
  intros Hd.
  unfold renderStats, bind, lift, set_textContent, put_content, ret.
  rewrite !(get_lookup _ _ Hd). cbv beta iota zeta.
  rewrite !text_of_or_else.
  destruct (truthy (lookup data (lit "generated_at"))); reflexivity.
Qed.

Lemma renderStats_counts (toLocaleDateString : value -> jsstring)
  (data : value) (p : page) :
  is_nullish data = false ->
  outcome (renderStats toLocaleDateString data) p = Ok tt /\
  text_shown (content (after (renderStats toLocaleDateString data) p)
                total_models_id)
  = Some (count_text (lookup data (lit "total_models"))) /\
  text_shown (content (after (renderStats toLocaleDateString data) p)
                total_exams_id)
  = Some (count_text (lookup data (lit "total_exams"))).
Proof.
  intros Hd. unfold outcome, after.
  rewrite (renderStats_page _ _ _ Hd). cbv zeta.
  destruct (truthy (lookup data (lit "generated_at")));
    cbn [fst snd with_content content element_id_eqb];
    rewrite !text_shown_set; repeat split.
Qed.

(** X8.  For a document that is there, [renderStats] returns, and each
    counter shows [count_text] of its field: the field as a string when it
    is truthy and 0 otherwise (a field that is missing, null, zero, NaN or
    the empty string).  The date is written when [generated_at] is truthy;
    otherwise its element is left as it was. *)
Theorem stats_show_counts (toLocaleDateString : value -> jsstring)
  (data : value) (p : page) :
  is_nullish data = false ->
  outcome (renderStats toLocaleDateString data) p = Ok tt /\
  text_shown (content (after (renderStats toLocaleDateString data) p)
                total_models_id)
  = Some (count_text (lookup data (lit "total_models"))) /\
  text_shown (content (after (renderStats toLocaleDateString data) p)
                total_exams_id)
  = Some (count_text (lookup data (lit "total_exams"))) /\
  (if truthy (lookup data (lit "generated_at")) then
     text_shown (content (after (renderStats toLocaleDateString data) p)
                   last_updated_id)
     = Some (toLocaleDateString (lookup data (lit "generated_at")))
   else
     content (after (renderStats toLocaleDateString data) p) last_updated_id
     = content p last_updated_id) /\
  count_text VUndefined = lit "0" /\
  count_text VNull = lit "0" /\
  count_text (int 0) = lit "0" /\
  count_text (VNum Num.nan) = lit "0" /\
  count_text (VStr []) = lit "0" /\
  count_text (int 12) = lit "12".
Proof.
  intros Hd.
  destruct (renderStats_counts toLocaleDateString data p Hd) as (Ho & Hm & Hx).
  split; [exact Ho|]. split; [exact Hm|]. split; [exact Hx|].
  split; [|repeat split; vm_compute; reflexivity].
  unfold after. rewrite (renderStats_page _ _ _ Hd). cbv zeta.
  destruct (truthy (lookup data (lit "generated_at")));
    cbn [fst snd with_content content element_id_eqb];
    rewrite ?text_shown_set; reflexivity.
Qed.

Lemma stats_show_counts_witness :
  is_nullish sample = false /\
  text_shown (content (after (renderStats (fun _ => []) sample) blank_page)
                total_models_id)
  = Some (lit "0").
Proof.
  split; [reflexivity|].
  exact (proj1 (proj2 (stats_show_counts (fun _ => []) sample blank_page
                         eq_refl))).
Defined.

(** ** Sequences of renderers *)

Lemma bind_returns {A B} (m : M A) (k : A -> M B) (p : page) (a : A) :
  outcome m p = Ok a ->
  outcome (bind m k) p = outcome (k a) (after m p) /\
  after (bind m k) p = after (k a) (after m p).
Proof.
  unfold outcome, after, bind. destruct (m p) as [[a'|e] p']; cbn [fst snd];
    [intros [= ->]; split; reflexivity|discriminate].
Qed.

Lemma bind_throws {A B} (m : M A) (k : A -> M B) (p : page) (e : error) :
  outcome m p = Throw e ->
  outcome (bind m k) p = Throw e /\ after (bind m k) p = after m p.
Proof.
  unfold outcome, after, bind. destruct (m p) as [[a'|e'] p']; cbn [fst snd];
    [discriminate|intros [= ->]; split; reflexivity].
Qed.

Lemma try_catch_body_returns (body handler : M unit) (p : page) :
  outcome body p = Ok tt -> after (try_catch body handler) p = after body p.
Proof.
  unfold outcome, after, try_catch. destruct (body p) as [[[]|e] p'];
    cbn [fst snd]; [reflexivity|discriminate].
Qed.

Lemma try_catch_body_throws (body handler : M unit) (p : page) (e : error) :
  outcome body p = Throw e ->
  after (try_catch body handler) p = after handler (after body p).
Proof.
  unfold outcome, after, try_catch. destruct (body p) as [[[]|e'] p'];
    cbn [fst snd]; [discriminate|reflexivity].
Qed.

Lemma run_pair {A} (m : M A) (p : page) : m p = (outcome m p, after m p).
Proof. unfold outcome, after. now destruct (m p). Qed.

(** ** The detail page of a listed model *)

Lemma existsb_same_string_in (name : jsstring) (models : list value) :
  In (VStr name) models -> existsb (same_string name) models = true.
Proof.
  intros H. apply existsb_exists. exists (VStr name). split; [exact H|].
  apply str_eqb_refl.
Qed.

Lemma stats_text_nonempty (a b c : jsstring) : SiteDetail.stats_text a b c <> [].
Proof. unfold SiteDetail.stats_text. destruct a; discriminate. Qed.

Lemma renderHeader_page (name : jsstring) (data : value) (p : page) :
  is_nullish data = false ->
  let p1 :=
    with_content
      {| content := content p; title := SiteDetail.title_text name;
         location_href := location_href p |}
      model_name_id (match name with [] => [] | _ => [Text name] end) in
  let stats := stats_of data (VStr name) in
  SiteDetail.renderHeader name data p
  = if is_nullish (lookup data (lit "model_stats")) then (Throw TypeError, p1)
    else if truthy stats then
      (Ok tt, with_content p1 model_stats_id [Text (header_stats_text stats)])
    else (Ok tt, p1).
Proof.
  intros Hd p1 stats. subst p1 stats.
  unfold SiteDetail.renderHeader, bind, lift, set_title, set_textContent,
    put_content, ret, stats_of, header_stats_text, field.
  cbn [to_string].
  rewrite (get_lookup _ _ Hd).
  destruct (is_nullish (lookup data (lit "model_stats"))) eqn:Es.
  - now rewrite (get_nullish _ _ Es).
  - rewrite (get_lookup _ _ Es).
    destruct (truthy (lookup (lookup data (lit "model_stats")) name)) eqn:Et;
      [|reflexivity].
    rewrite !(get_lookup _ _ (truthy_not_nullish _ Et)).
    match goal with
    | |- context [SiteDetail.stats_text ?a ?b ?c] =>
        pose proof (stats_text_nonempty a b c) as Hne;
          destruct (SiteDetail.stats_text a b c); [congruence|reflexivity]
    end.
Qed.

Lemma renderExams_page (name : jsstring) (data : value) (exams : list value)
  (p : page) :
  get data (lit "exams") = Ok (VArr exams) ->
  SiteDetail.renderExams name data p
  = (Ok tt,
     with_content p exams_container_id [Markup (exams_markup data name exams)]).
Proof.
  intros Hx. pose proof (get_ok_not_nullish _ _ _ Hx) as Hd.
  unfold SiteDetail.renderExams, bind, lift, exams_markup, detailed_of.
  rewrite (get_lookup _ _ Hd), get_opt_lookup.
  unfold SiteDetail.nothing_to_show.
  destruct (truthy (lookup (lookup data (lit "detailed_results")) name)) eqn:Ht;
    cbn [negb]; [|reflexivity].
  rewrite Hx. cbn [rbind]. rewrite get_opt_length. cbn [rbind elements].
  destruct exams as [|e0 es]; [reflexivity|].
  rewrite truthy_length_cons. cbn [negb].
  unfold map_indexed.
  rewrite (map_from_pure _ (fun _ => card_of _))
    by (intros; now apply exam_card_returns).
  rewrite indexed_from_map.
  rewrite set_innerHTML_markup
    by (cbn [map]; apply join_nonempty, card_of_nonempty, Ht).
  reflexivity.
Qed.

Lemma detail_page_run (c : code_unit) (name : jsstring) (data : value)
  (models exams : list value) (p : page) :
  get data (lit "models") = Ok (VArr models) ->
  In (VStr (c :: name)) models ->
  get data (lit "exams") = Ok (VArr exams) ->
  let p1 :=
    with_content
      {| content := content p; title := SiteDetail.title_text (c :: name);
         location_href := location_href p |}
      model_name_id [Text (c :: name)] in
  let stats := stats_of data (VStr (c :: name)) in
  SiteDetail.onDOMContentLoaded (Some (c :: name)) (Loaded data) p
  = (Ok tt,
     if is_nullish (lookup data (lit "model_stats")) then
       with_content p1 exams_container_id [Markup SiteDetail.failed_to_load]
     else
       with_content
         (if truthy stats then
            with_content p1 model_stats_id [Text (header_stats_text stats)]
          else p1)
         exams_container_id [Markup (exams_markup data (c :: name) exams)]).
Proof.
  intros Hm Hin Hx p1 stats. subst p1 stats.
  pose proof (get_ok_not_nullish _ _ _ Hm) as Hd.
  unfold SiteDetail.onDOMContentLoaded. cbn [truthy negb].
  unfold try_catch, bind at 1, await, ret.
  rewrite bind_lift, Hm. cbv beta iota.
  rewrite bind_lift. cbn [includes_opt].
  rewrite (existsb_same_string_in _ _ Hin). cbn [truthy negb].
  unfold bind at 1.
  rewrite (renderHeader_page _ _ _ Hd). cbv zeta.
  destruct (is_nullish (lookup data (lit "model_stats"))) eqn:Es;
    [reflexivity|].
  destruct (truthy (stats_of data (VStr (c :: name))));
    rewrite (renderExams_page _ _ _ _ Hx); reflexivity.
Qed.

(** X9.  The detail page of a model that [models] lists, for a document
    whose [exams] is an array and in which what [detailed_results] yields
    for the model, if anything, is the document's own (it is not a member
    that every object inherits, as it would be for a model named
    [constructor] without a mapping).  The handler does not navigate; the
    title and the heading show the name; the statistics line is written
    when [model_stats] yields a truthy value for the model (for a model
    named [constructor] without statistics that value is the inherited
    member, and the line reads undefined/undefined) and left as it was
    otherwise.  The container holds the
    "Failed to load results" paragraph when the document has no
    [model_stats] (reading the model's entry then throws), and otherwise
    what [renderExams] renders: the "No exam results available" paragraph
    when the model has no mapping in [detailed_results] or [exams] is
    empty, and one card per exam otherwise. *)
Theorem detail_page_of_a_listed_model (c : code_unit) (name : jsstring)
  (data : value) (models exams : list value) (p : page) :
  get data (lit "models") = Ok (VArr models) ->
  In (VStr (c :: name)) models ->
  get data (lit "exams") = Ok (VArr exams) ->
  is_native (detailed_of data (c :: name)) = false ->
  let q := after (SiteDetail.onDOMContentLoaded (Some (c :: name))
                    (Loaded data)) p in
  location_href q = location_href p /\
  title q = SiteDetail.title_text (c :: name) /\
  content q model_name_id = [Text (c :: name)] /\
  content q model_stats_id
  = (if truthy (stats_of data (VStr (c :: name))) then
       [Text (header_stats_text (stats_of data (VStr (c :: name))))]
     else content p model_stats_id) /\
  content q exams_container_id
  = (if is_nullish (lookup data (lit "model_stats")) then
       [Markup SiteDetail.failed_to_load]
     else [Markup (exams_markup data (c :: name) exams)]).
Proof.
  intros Hm Hin Hx _ q. subst q. unfold after.
  rewrite (detail_page_run _ _ _ _ _ _ Hm Hin Hx). cbv zeta. cbn [snd].
  destruct (is_nullish (lookup data (lit "model_stats"))) eqn:Es.
  - unfold stats_of. cbn [to_string]. rewrite (lookup_nullish _ _ Es).
    repeat split.
  - destruct (truthy (stats_of data (VStr (c :: name)))); repeat split.
Qed.

Lemma detail_page_of_a_listed_model_witness :
  get evidence (lit "models") = Ok (VArr [str "A"]) /\
  In (VStr (lit "A")) [str "A"] /\
  get evidence (lit "exams") = Ok (VArr [str "E1"; str "E2"]) /\
  is_native (detailed_of evidence (lit "A")) = false /\
  title (after (SiteDetail.onDOMContentLoaded (Some (lit "A")) (Loaded evidence))
           blank_page)
  = lit "A - calcolatori-bench".
Proof.
  assert (H : In (VStr (lit "A")) [str "A"]) by (now left).
  split; [reflexivity|]. split; [exact H|]. split; [reflexivity|].
  split; [reflexivity|].
  exact (proj1 (proj2 (detail_page_of_a_listed_model 65 [] evidence [str "A"]
                         [str "E1"; str "E2"] blank_page eq_refl H eq_refl
                         eq_refl))).
Defined.

(** A model named like a member that every object inherits has statistics
    for the code, whatever [model_stats] holds: [model_stats[model]] is the
    inherited member, no leaderboard throws, and each shows
    [undefined/undefined] as the score. *)
Lemma inherited_name_has_statistics (toLocaleDateString : value -> jsstring) :
  stats_of inherited_name (str "constructor") = VNative (lit "constructor") /\
  content (after (SiteDetail.onDOMContentLoaded (Some (lit "constructor"))
                    (Loaded inherited_name)) blank_page) model_stats_id
  = [Text (lit "undefined/undefined exams passed (undefined%)")] /\
  content (after (site_index_page toLocaleDateString (Loaded inherited_name))
             blank_page) leaderboard_body_id
  = [Markup
       (SiteIndex.row_markup (lit "constructor") (lit "1") (lit "constructor")
          (lit "undefined") (lit "undefined") (lit "undefined"))] /\
  content (after (MatrixA.renderLeaderboard inherited_name) blank_page)
    leaderboard_body_id
  = [Markup
       (MatrixA.row_markup (lit "1") (lit "constructor") (lit "undefined")
          (lit "undefined") (lit "undefined"))] /\
  content (after (MatrixB.renderLeaderboard inherited_name) blank_page)
    leaderboard_body_id
  = [Element (lit "tr")
       (MatrixB.row_markup (lit "1") (lit "constructor") (lit "undefined")
          (lit "undefined") (lit "undefined"))].
Proof. repeat split; vm_compute; reflexivity. Qed.

(** ** All or nothing *)

(** A renderer that builds its markup with [map] and assigns it at the end
    has changed nothing when it throws. *)
Ltac all_or_nothing :=
  unfold after, outcome, bind, lift; cbv beta iota zeta;
  repeat
    (match goal with
     | |- context [match ?r with Ok _ => _ | Throw _ => _ end] =>
         destruct r; try (left; reflexivity)
     | |- context [if ?b then _ else _] =>
         destruct b; try (right; reflexivity)
     end; cbv beta iota);
  try first [left; reflexivity | right; reflexivity].

Lemma site_index_leaderboard_atomic (data : value) (p : page) :
  after (SiteIndex.renderLeaderboard data) p = p \/
  outcome (SiteIndex.renderLeaderboard data) p = Ok tt.
Proof. unfold SiteIndex.renderLeaderboard. all_or_nothing. Qed.

Lemma matrix_a_leaderboard_atomic (data : value) (p : page) :
  after (MatrixA.renderLeaderboard data) p = p \/
  outcome (MatrixA.renderLeaderboard data) p = Ok tt.
Proof. unfold MatrixA.renderLeaderboard. all_or_nothing. Qed.

Lemma renderExams_atomic (name : jsstring) (data : value) (p : page) :
  after (SiteDetail.renderExams name data) p = p \/
  outcome (SiteDetail.renderExams name data) p = Ok tt.
Proof. unfold SiteDetail.renderExams. all_or_nothing. Qed.

(** X10.  The renderers that build their markup with [map] and assign it
    once at the end (the [renderLeaderboard] of [site/app.js] and of the
    compact script, and [renderExams]) are all or nothing: either they
    return, or they have left the page exactly as it was. *)
Theorem map_renderers_are_all_or_nothing (name : jsstring) (data : value)
  (p : page) :
  (after (SiteIndex.renderLeaderboard data) p = p \/
   outcome (SiteIndex.renderLeaderboard data) p = Ok tt) /\
  (after (MatrixA.renderLeaderboard data) p = p \/
   outcome (MatrixA.renderLeaderboard data) p = Ok tt) /\
  (after (SiteDetail.renderExams name data) p = p \/
   outcome (SiteDetail.renderExams name data) p = Ok tt).
Proof.
  split; [apply site_index_leaderboard_atomic|].
  split; [apply matrix_a_leaderboard_atomic|apply renderExams_atomic].
Qed.

(** ** The index pages *)

Lemma keeps_content {A} (ids : list element_id) (m : M A) (p : page)
  (id : element_id) :
  keeps ids m -> existsb (element_id_eqb id) ids = false ->
  content (after m p) id = content p id.
Proof.
  intros H Hid. apply (proj2 (H p)). intros Hin.
  assert (E : existsb (element_id_eqb id) ids = true).
  { apply existsb_exists. exists id. split; [exact Hin|]. now destruct id. }
  congruence.
Qed.

Lemma map_from_throws_at {A B} (f : A -> nat -> result B) (x : A)
  (l : list A) :
  In x l -> (forall i, exists e, f x i = Throw e) ->
  forall i, exists e, map_from f l i = Throw e.
Proof.
  induction l as [|y l IH]; intros Hin Hx i; [destruct Hin|].
  cbn [map_from]. destruct (f y i) as [r|e] eqn:E; cbn [rbind]; [|eauto].
  destruct Hin as [->|Hin].
  - destruct (Hx i) as [e He]. congruence.
  - destruct (IH Hin Hx (S i)) as [e ->]. cbn [rbind]. eauto.
Qed.

Lemma forEach_throws_at {A} (f : A -> nat -> M unit) (x : A) (l : list A) :
  In x l -> (forall i q, exists e, outcome (f x i) q = Throw e) ->
  forall i p, exists e, outcome (forEach f l i) p = Throw e.
Proof.
  induction l as [|y l IH]; intros Hin Hx i p; [destruct Hin|].
  cbn [forEach]. destruct (outcome (f y i) p) as [[]|e] eqn:E.
  - destruct (bind_returns _ (fun _ => forEach f l (S i)) _ _ E) as [-> _].
    destruct Hin as [->|Hin]; [destruct (Hx i p); congruence|].
    now apply IH.
  - destruct (bind_throws _ (fun _ => forEach f l (S i)) _ _ E) as [-> _].
    eauto.
Qed.

Lemma rows_throw_without_stats (data m : value) (i : nat) (q : page) :
  is_nullish data = false -> is_nullish (stats_of data m) = true ->
  (exists e, SiteIndex.leaderboard_row data m i = Throw e) /\
  (exists e, MatrixA.leaderboard_row data m i = Throw e) /\
  (exists e, outcome (MatrixB.leaderboard_row data m i) q = Throw e).
Proof.
  intros Hd Hn.
  unfold SiteIndex.leaderboard_row, MatrixA.leaderboard_row,
    MatrixB.leaderboard_row, outcome, bind, lift, get_at.
  rewrite (get_lookup _ _ Hd). cbn [rbind].
  destruct (is_nullish (lookup data (lit "model_stats"))) eqn:Es.
  - rewrite (get_nullish _ _ Es).
    repeat split; eexists; reflexivity.
  - rewrite (get_lookup _ _ Es). cbn [rbind]. fold (stats_of data m).
    rewrite (get_nullish _ _ Hn).
    destruct (encodeURIComponent m); repeat split; eexists; reflexivity.
Qed.

Section WithoutStatistics.

Variable data : value.
Variable models : list value.
Variable m : value.
Hypothesis Hmodels : get data (lit "models") = Ok (VArr models).
Hypothesis Hlisted : In m models.
Hypothesis Hnone : is_nullish (stats_of data m) = true.

Lemma some_models : models <> [].
Proof. intros E. rewrite E in Hlisted. exact Hlisted. Qed.

Lemma site_index_leaderboard_throws (p : page) :
  exists e, SiteIndex.renderLeaderboard data p = (Throw e, p).
Proof.
  pose proof (get_ok_not_nullish _ _ _ Hmodels) as Hd.
  destruct (map_from_throws_at (SiteIndex.leaderboard_row data) m models
              Hlisted
              (fun i => proj1 (rows_throw_without_stats data m i p Hd Hnone))
              0%nat) as [e He].
  exists e. unfold SiteIndex.renderLeaderboard.
  rewrite bind_lift, Hmodels. cbv beta iota.
  rewrite bind_lift, get_opt_length. cbv beta iota.
  rewrite (truthy_length_nonempty _ some_models). cbn [negb].
  rewrite bind_lift. cbn [elements]. rewrite bind_lift.
  unfold map_indexed. now rewrite He.
Qed.

Lemma matrix_a_leaderboard_throws (p : page) :
  exists e, MatrixA.renderLeaderboard data p = (Throw e, p).
Proof.
  pose proof (get_ok_not_nullish _ _ _ Hmodels) as Hd.
  destruct (map_from_throws_at (MatrixA.leaderboard_row data) m models
              Hlisted
              (fun i => proj1 (proj2 (rows_throw_without_stats data m i p Hd
                                        Hnone)))
              0%nat) as [e He].
  exists e. unfold MatrixA.renderLeaderboard.
  rewrite bind_lift, Hmodels. cbv beta iota.
  rewrite bind_lift, get_opt_length. cbv beta iota.
  rewrite (truthy_length_nonempty _ some_models). cbn [negb].
  rewrite bind_lift. cbn [elements]. rewrite bind_lift.
  unfold map_indexed. now rewrite He.
Qed.

Lemma matrix_b_leaderboard_throws (p : page) :
  exists e, outcome (MatrixB.renderLeaderboard data) p = Throw e.
Proof.
  pose proof (get_ok_not_nullish _ _ _ Hmodels) as Hd.
  unfold outcome, MatrixB.renderLeaderboard.
  rewrite bind_set_innerHTML_empty, bind_lift, Hmodels. cbv beta iota.
  rewrite bind_lift.
  unfold MatrixB.missing_or_empty, MatrixB.length_is_zero.
  cbn [truthy negb]. rewrite get_length. cbn [rbind].
  rewrite (length_not_zero _ some_models).
  rewrite bind_lift. cbn [elements].
  apply (forEach_throws_at (MatrixB.leaderboard_row data) m models Hlisted).
  intros i q.
  exact (proj2 (proj2 (rows_throw_without_stats data m i q Hd Hnone))).
Qed.

End WithoutStatistics.

Lemma after_loaded (k : value -> M unit) (data : value) (p : page) :
  bind (await (Loaded data)) k p = k data p.
Proof. reflexivity. Qed.

(** X11.  When for some listed model [model_stats] yields nothing
    ([undefined] or [null]: the model has no entry of its own there and its
    name is not that of a member every object inherits, or [model_stats]
    itself is missing), each index
    page ends with its fallback row in place of the leaderboard.  On the
    pages of [site/app.js] and of the compact script nothing else has
    changed: the statistics bar and the matrix are never reached.  On the
    page of the verbose script, which renders the statistics bar first,
    the counters are shown and the matrix is as it was. *)
Theorem index_pages_fall_back_without_statistics
  (toLocaleDateString : value -> jsstring) (data : value)
  (models : list value) (m : value) (p : page) :
  get data (lit "models") = Ok (VArr models) ->
  In m models ->
  is_nullish (stats_of data m) = true ->
  run (site_index_page toLocaleDateString (Loaded data)) p
  = (Ok tt, index_fallback SiteIndex.no_results p) /\
  run (matrix_a_page toLocaleDateString (Loaded data)) p
  = (Ok tt, index_fallback MatrixA.no_results p) /\
  (let q := after (matrix_b_page toLocaleDateString (Loaded data)) p in
   content q leaderboard_body_id = [Markup MatrixB.no_results] /\
   content q results_header_id = content p results_header_id /\
   content q results_body_id = content p results_body_id /\
   text_shown (content q total_models_id)
   = Some (count_text (lookup data (lit "total_models"))) /\
   text_shown (content q total_exams_id)
   = Some (count_text (lookup data (lit "total_exams")))).
Proof.
  intros Hm Hin Hn. pose proof (get_ok_not_nullish _ _ _ Hm) as Hd.
  split; [|split].
  - unfold run, site_index_page, try_catch. rewrite after_loaded.
    unfold bind at 1.
    destruct (site_index_leaderboard_throws data models m Hm Hin Hn p)
      as [e ->].
    reflexivity.
  - unfold run, matrix_a_page, try_catch. rewrite after_loaded.
    unfold bind at 1.
    destruct (matrix_a_leaderboard_throws data models m Hm Hin Hn p)
      as [e ->].
    reflexivity.
  - cbv zeta.
    destruct (renderStats_counts toLocaleDateString data p Hd)
      as (Hs & Htm & Htx).
    set (p1 := after (renderStats toLocaleDateString data) p) in *.
    destruct (matrix_b_leaderboard_throws data models m Hm Hin Hn p1)
      as [e He].
    set (p2 := after (MatrixB.renderLeaderboard data) p1).
    assert (Hbody :
      outcome (bind (await (Loaded data)) (fun data =>
                 bind (renderStats toLocaleDateString data) (fun _ =>
                 bind (MatrixB.renderLeaderboard data) (fun _ =>
                 MatrixB.renderDetailedResults data)))) p = Throw e /\
      after (bind (await (Loaded data)) (fun data =>
               bind (renderStats toLocaleDateString data) (fun _ =>
               bind (MatrixB.renderLeaderboard data) (fun _ =>
               MatrixB.renderDetailedResults data)))) p = p2).
    { unfold outcome, after. rewrite after_loaded.
      destruct (bind_returns _ (fun _ =>
                  bind (MatrixB.renderLeaderboard data) (fun _ =>
                  MatrixB.renderDetailedResults data)) _ _ Hs) as [Ho Ha].
      unfold outcome, after in Ho, Ha. rewrite Ho, Ha.
      apply (bind_throws _ _ _ _ He). }
    destruct Hbody as [Ho Ha].
    unfold matrix_b_page.
    rewrite (try_catch_body_throws _ _ _ _ Ho), Ha.
    pose proof (proj1 (matrix_b_leaderboard_keeps data)) as Kl.
    pose proof (proj1 (renderStats_keeps toLocaleDateString data)) as Ks.
    cbn [after set_innerHTML put_content snd content element_id_eqb].
    unfold p2.
    rewrite !(keeps_content _ _ _ _ Kl) by reflexivity.
    fold p1. rewrite Htm, Htx. unfold p1.
    rewrite !(keeps_content _ _ _ _ Ks) by reflexivity.
    repeat split.
Qed.

Lemma index_pages_fall_back_without_statistics_witness :
  get missing_stats (lit "models") = Ok (VArr [str "A"]) /\
  In (str "A") [str "A"] /\
  is_nullish (stats_of missing_stats (str "A")) = true /\
  run (matrix_a_page (fun _ => []) (Loaded missing_stats)) blank_page
  = (Ok tt, index_fallback MatrixA.no_results blank_page).
Proof.
  assert (H : In (str "A") [str "A"]) by (now left).
  split; [reflexivity|]. split; [exact H|]. split; [reflexivity|].
  exact (proj1 (proj2 (index_pages_fall_back_without_statistics (fun _ => [])
                         missing_stats [str "A"] (str "A") blank_page eq_refl H
                         eq_refl))).
Defined.

(** The leaderboards of a document in which every listed model has its
    statistics. *)
Section Leaderboards.

Variable data : value.
Variable models : list value.
Hypothesis Hmodels : get data (lit "models") = Ok (VArr models).
Hypothesis Hsome : models <> [].
Hypothesis Hstats : forall m, In m models -> has_stats data m.

Lemma site_index_leaderboard_page (p : page) :
  (forall m, In m models -> encodeURIComponent m <> Throw URIError) ->
  SiteIndex.renderLeaderboard data p
  = (Ok tt,
     with_content p leaderboard_body_id (site_index_leaderboard data models)).
Proof.
  intros Hu. pose proof (get_ok_not_nullish _ _ _ Hmodels) as Hd.
  unfold SiteIndex.renderLeaderboard, bind, lift.
  rewrite Hmodels, get_opt_length, (truthy_length_nonempty _ Hsome).
  cbn [negb elements]. unfold map_indexed.
  rewrite (map_from_pure _ (site_index_row data)).
  2:{ intros j x Hx.
      apply (site_index_row_ok data Hd);
        [apply Hstats|apply Hu]; eapply nth_error_In; eauto. }
  fold (indexed (site_index_row data) models).
  rewrite set_innerHTML_markup; [reflexivity|].
  unfold indexed. intros E.
  destruct models as [|m0 ms] eqn:Em; [congruence|].
  exact (join_nonempty _ _ (site_index_row_nonempty data 0 m0) E).
Qed.

Lemma matrix_a_leaderboard_page (p : page) :
  MatrixA.renderLeaderboard data p
  = (Ok tt,
     with_content p leaderboard_body_id (matrix_a_leaderboard data models)).
Proof.
  pose proof (get_ok_not_nullish _ _ _ Hmodels) as Hd.
  unfold MatrixA.renderLeaderboard, bind, lift.
  rewrite Hmodels, get_opt_length, (truthy_length_nonempty _ Hsome).
  cbn [negb elements]. unfold map_indexed.
  rewrite (map_from_pure _ (matrix_a_row data)).
  2:{ intros j x Hx. apply (matrix_a_row_ok data Hd).
      apply Hstats. eapply nth_error_In; eauto. }
  fold (indexed (matrix_a_row data) models).
  rewrite set_innerHTML_markup; [reflexivity|].
  unfold indexed. intros E.
  destruct models as [|m0 ms] eqn:Em; [congruence|].
  exact (join_nonempty _ _ (matrix_a_row_nonempty data 0 m0) E).
Qed.

Lemma matrix_b_leaderboard_renders (p : page) :
  outcome (MatrixB.renderLeaderboard data) p = Ok tt /\
  content (after (MatrixB.renderLeaderboard data) p) leaderboard_body_id
  = matrix_b_leaderboard data models.
Proof.
  pose proof (get_ok_not_nullish _ _ _ Hmodels) as Hd.
  unfold outcome, after, MatrixB.renderLeaderboard.
  rewrite bind_set_innerHTML_empty, bind_lift, Hmodels. cbv beta iota.
  rewrite bind_lift.
  unfold MatrixB.missing_or_empty, MatrixB.length_is_zero.
  cbn [truthy negb]. rewrite get_length. cbn [rbind].
  rewrite (length_not_zero _ Hsome).
  rewrite bind_lift. cbn [elements].
  match goal with
  | |- context [forEach ?f ?l ?i ?q] =>
      destruct (forEach_append f (matrix_b_row data) leaderboard_body_id
                  l i q) as [Ho Hc];
        [intros j x q' Hx; apply (matrix_b_row_ok data Hd);
         apply Hstats; eapply nth_error_In; eauto|]
  end.
  unfold outcome, after in Ho, Hc. split; [exact Ho|].
  rewrite Hc. reflexivity.
Qed.

End Leaderboards.

(** X12.  For a document whose [models] and [exams] are non-empty arrays,
    in which every listed model has statistics, [exam_results] is there and
    what it yields for an exam, if anything, is the document's own, the
    pages of the compact and of the verbose script show every region: the
    leaderboard, the head and the body of the matrix and both counters,
    whatever the order in which the handler calls the renderers.  The rows
    of the verbose matrix are as the browser reads them back each time a
    cell is appended: the markers are the characters themselves and not the
    references that the script wrote. *)
Theorem index_pages_render_every_region
  (toLocaleDateString : value -> jsstring) (data : value)
  (models exams : list value) (p : page) :
  get data (lit "models") = Ok (VArr models) -> models <> [] ->
  (forall m, In m models -> has_stats data m) ->
  get data (lit "exams") = Ok (VArr exams) -> exams <> [] ->
  is_nullish (lookup data (lit "exam_results")) = false ->
  plain_results data exams ->
  (let q := after (matrix_a_page toLocaleDateString (Loaded data)) p in
   content q leaderboard_body_id = matrix_a_leaderboard data models /\
   content q results_head_id = matrix_a_head exams /\
   content q results_body_id = matrix_a_body data models exams /\
   text_shown (content q total_models_id)
   = Some (count_text (lookup data (lit "total_models"))) /\
   text_shown (content q total_exams_id)
   = Some (count_text (lookup data (lit "total_exams")))) /\
  (let q := after (matrix_b_page toLocaleDateString (Loaded data)) p in
   content q leaderboard_body_id = matrix_b_leaderboard data models /\
   content q results_header_id = matrix_b_head exams /\
   content q results_body_id = matrix_b_body data models exams /\
   text_shown (content q total_models_id)
   = Some (count_text (lookup data (lit "total_models"))) /\
   text_shown (content q total_exams_id)
   = Some (count_text (lookup data (lit "total_exams")))).
Proof.
  intros Hm Hsm Hs Hx Hsx He _.
  pose proof (get_ok_not_nullish _ _ _ Hm) as Hd.
  pose proof (proj1 (renderStats_keeps toLocaleDateString data)) as Ks.
  split; cbv zeta.
  - pose proof (proj1 (matrix_a_detailed_keeps data)) as Kd.
    set (p1 := with_content p leaderboard_body_id
                 (matrix_a_leaderboard data models)).
    destruct (matrix_a_renders data Hd He exams Hx models Hm Hsm Hsx p1)
      as (Hdo & Hdh & Hdb).
    set (p2 := after (MatrixA.renderDetailed data) p1) in *.
    destruct (renderStats_counts toLocaleDateString data p2 Hd)
      as (Hso & Htm & Htx).
    assert (Hbody :
      outcome (bind (await (Loaded data)) (fun data =>
                 bind (MatrixA.renderLeaderboard data) (fun _ =>
                 bind (MatrixA.renderDetailed data) (fun _ =>
                 renderStats toLocaleDateString data)))) p = Ok tt /\
      after (bind (await (Loaded data)) (fun data =>
               bind (MatrixA.renderLeaderboard data) (fun _ =>
               bind (MatrixA.renderDetailed data) (fun _ =>
               renderStats toLocaleDateString data)))) p
      = after (renderStats toLocaleDateString data) p2).
    { unfold outcome, after. rewrite after_loaded. unfold bind at 1 3.
      rewrite (matrix_a_leaderboard_page data models Hm Hsm Hs p). fold p1.
      destruct (bind_returns _ (fun _ => renderStats toLocaleDateString data)
                  _ _ Hdo) as [Ho Ha].
      unfold outcome, after in Ho, Ha. rewrite Ho, Ha.
      split; [exact Hso|reflexivity]. }
    destruct Hbody as [Ho Ha].
    unfold matrix_a_page.
    rewrite (try_catch_body_returns _ _ _ Ho), Ha.
    rewrite Htm, Htx.
    rewrite !(keeps_content _ _ _ _ Ks) by reflexivity.
    rewrite Hdh, Hdb. unfold p2.
    rewrite (keeps_content _ _ _ _ Kd) by reflexivity.
    repeat split.
  - pose proof (proj1 (matrix_b_detailed_keeps data)) as Kd.
    pose proof (proj1 (matrix_b_leaderboard_keeps data)) as Kl.
    destruct (renderStats_counts toLocaleDateString data p Hd)
      as (Hso & Htm & Htx).
    set (p1 := after (renderStats toLocaleDateString data) p) in *.
    destruct (matrix_b_leaderboard_renders data models Hm Hsm Hs p1)
      as (Hlo & Hlc).
    set (p2 := after (MatrixB.renderLeaderboard data) p1) in *.
    destruct (matrix_b_renders data Hd He exams Hx models Hm Hsm Hsx p2)
      as (Hdo & Hdh & Hdb).
    assert (Hbody :
      outcome (bind (await (Loaded data)) (fun data =>
                 bind (renderStats toLocaleDateString data) (fun _ =>
                 bind (MatrixB.renderLeaderboard data) (fun _ =>
                 MatrixB.renderDetailedResults data)))) p = Ok tt /\
      after (bind (await (Loaded data)) (fun data =>
               bind (renderStats toLocaleDateString data) (fun _ =>
               bind (MatrixB.renderLeaderboard data) (fun _ =>
               MatrixB.renderDetailedResults data)))) p
      = after (MatrixB.renderDetailedResults data) p2).
    { unfold outcome, after. rewrite after_loaded.
      destruct (bind_returns _ (fun _ =>
                  bind (MatrixB.renderLeaderboard data) (fun _ =>
                  MatrixB.renderDetailedResults data)) _ _ Hso) as [Ho Ha].
      unfold outcome, after in Ho, Ha. rewrite Ho, Ha.
      change (snd (renderStats toLocaleDateString data p)) with p1.
      destruct (bind_returns _ (fun _ => MatrixB.renderDetailedResults data)
                  _ _ Hlo) as [Ho' Ha'].
      unfold outcome, after in Ho', Ha'. rewrite Ho', Ha'.
      split; [exact Hdo|reflexivity]. }
    destruct Hbody as [Ho Ha].
    unfold matrix_b_page.
    rewrite (try_catch_body_returns _ _ _ Ho), Ha.
    rewrite Hdh, Hdb.
    rewrite !(keeps_content _ _ _ _ Kd) by reflexivity.
    rewrite Hlc. unfold p2.
    rewrite !(keeps_content _ _ _ _ Kl) by reflexivity.
    rewrite Htm, Htx. repeat split.
Qed.

Lemma index_pages_render_every_region_witness :
  get sample (lit "models") = Ok (VArr [str "A"; str "B"]) /\
  [str "A"; str "B"] <> [] /\
  (forall m, In m [str "A"; str "B"] -> has_stats sample m) /\
  get sample (lit "exams") = Ok (VArr [str "E1"]) /\
  [str "E1"] <> [] /\
  is_nullish (lookup sample (lit "exam_results")) = false /\
  plain_results sample [str "E1"] /\
  content (after (matrix_b_page (fun _ => []) (Loaded sample)) blank_page)
    results_header_id
  = [Element (lit "tr") (lit "<th>Model</th><th>E1</th><th>Total</th>")] /\
  content (after (matrix_b_page (fun _ => []) (Loaded sample)) blank_page)
    results_body_id
  = [Element (lit "tr")
       (lit "<td class=`model-name`>A</td><td class=`pass-icon`>" ++ [10004]
        ++ lit "</td><td class=`score-pass`>1/1</td>");
     Element (lit "tr")
       (lit "<td class=`model-name`>B</td><td class=`fail-icon`>" ++ [10008]
        ++ lit "</td><td class=`score-pass`>0/1</td>")].
Proof.
  assert (H : forall m, In m [str "A"; str "B"] -> has_stats sample m)
    by (intros m [<-|[<-|[]]]; reflexivity).
  assert (Nm : [str "A"; str "B"] <> []) by discriminate.
  assert (Nx : [str "E1"] <> []) by discriminate.
  assert (Pr : plain_results sample [str "E1"])
    by (intros exam [<-|[]]; reflexivity).
  split; [reflexivity|]. split; [exact Nm|]. split; [exact H|].
  split; [reflexivity|]. split; [exact Nx|]. split; [reflexivity|].
  split; [exact Pr|].
  pose proof (proj2 (index_pages_render_every_region (fun _ => [])
                       sample [str "A"; str "B"] [str "E1"]
                       blank_page eq_refl Nm H eq_refl Nx eq_refl Pr)) as R.
  cbv zeta in R. destruct R as (_ & Rh & Rb & _).
  split; [exact Rh|]. rewrite Rb. vm_compute. reflexivity.
Defined.

(** X13.  For a document whose [models] is a non-empty array of names that
    [encodeURIComponent] accepts, each with statistics, the index page of
    [site/app.js] shows the leaderboard, one row per model in the order of
    [models], and both counters. *)
Theorem site_index_page_renders (toLocaleDateString : value -> jsstring)
  (data : value) (models : list value) (p : page) :
  get data (lit "models") = Ok (VArr models) -> models <> [] ->
  (forall m, In m models -> has_stats data m) ->
  (forall m, In m models -> encodeURIComponent m <> Throw URIError) ->
  let q := after (site_index_page toLocaleDateString (Loaded data)) p in
  content q leaderboard_body_id = site_index_leaderboard data models /\
  text_shown (content q total_models_id)
  = Some (count_text (lookup data (lit "total_models"))) /\
  text_shown (content q total_exams_id)
  = Some (count_text (lookup data (lit "total_exams"))).
Proof.
  intros Hm Hsm Hs Hu. pose proof (get_ok_not_nullish _ _ _ Hm) as Hd.
  pose proof (proj1 (renderStats_keeps toLocaleDateString data)) as Ks.
  cbv zeta.
  set (p1 := with_content p leaderboard_body_id
               (site_index_leaderboard data models)).
  destruct (renderStats_counts toLocaleDateString data p1 Hd)
    as (Hso & Htm & Htx).
  assert (Hbody :
    outcome (bind (await (Loaded data)) (fun data =>
               bind (SiteIndex.renderLeaderboard data) (fun _ =>
               renderStats toLocaleDateString data))) p = Ok tt /\
    after (bind (await (Loaded data)) (fun data =>
             bind (SiteIndex.renderLeaderboard data) (fun _ =>
             renderStats toLocaleDateString data))) p
    = after (renderStats toLocaleDateString data) p1).
  { unfold outcome, after. rewrite after_loaded. unfold bind.
    rewrite (site_index_leaderboard_page data models Hm Hsm Hs p Hu). fold p1.
    split; [exact Hso|reflexivity]. }
  destruct Hbody as [Ho Ha].
  unfold site_index_page.
  rewrite (try_catch_body_returns _ _ _ Ho), Ha.
  rewrite Htm, Htx.
  rewrite !(keeps_content _ _ _ _ Ks) by reflexivity.
  repeat split.
Qed.

Lemma site_index_page_renders_witness :
  get sample (lit "models") = Ok (VArr [str "A"; str "B"]) /\
  [str "A"; str "B"] <> [] /\
  (forall m, In m [str "A"; str "B"] -> has_stats sample m) /\
  (forall m, In m [str "A"; str "B"] ->
     encodeURIComponent m <> Throw URIError) /\
  content (after (site_index_page (fun _ => []) (Loaded sample)) blank_page)
    leaderboard_body_id
  = [Markup (site_index_row sample 0 (str "A")
             ++ site_index_row sample 1 (str "B"))].
Proof.
  assert (H : forall m, In m [str "A"; str "B"] -> has_stats sample m)
    by (intros m [<-|[<-|[]]]; reflexivity).
  assert (U : forall m, In m [str "A"; str "B"] ->
                encodeURIComponent m <> Throw URIError)
    by (intros m [<-|[<-|[]]]; discriminate).
  assert (N : [str "A"; str "B"] <> []) by discriminate.
  split; [reflexivity|]. split; [exact N|]. split; [exact H|].
  split; [exact U|].
  exact (proj1 (site_index_page_renders (fun _ => []) sample
                  [str "A"; str "B"] blank_page eq_refl N H U)).
Defined.

(** ** The sections of a card *)

Lemma join_concat (l : list jsstring) : join [] l = List.concat l.
Proof.
  induction l as [|x [|y l] IH]; [reflexivity|cbn; now rewrite app_nil_r|].
  change (join [] (x :: y :: l)) with (x ++ [] ++ join [] (y :: l)).
  rewrite IH. reflexivity.
Qed.

Lemma serialize_join_lines (line : jsstring) (lines : list jsstring) :
  serialize_text (join [10] (line :: lines))
  = join [10] (map serialize_text (line :: lines)).
Proof.
  revert line. induction lines as [|l lines IH]; intros line; [reflexivity|].
  change (join [10] (line :: l :: lines))
    with (line ++ [10] ++ join [10] (l :: lines)).
  change (join [10] (map serialize_text (line :: l :: lines)))
    with (serialize_text line ++ [10]
          ++ join [10] (map serialize_text (l :: lines))).
  unfold serialize_text at 1. rewrite !flat_map_app.
  fold (serialize_text line). fold (serialize_text (join [10] (l :: lines))).
  now rewrite IH.
Qed.

Lemma array_join_strings (sep : jsstring) (lines : list jsstring) :
  array_join sep (map VStr lines) = join sep lines.
Proof.
  unfold array_join. rewrite map_map. cbn [is_nullish to_string].
  now rewrite map_id.
Qed.

Lemma output_section_markup_nonempty (title content : jsstring) :
  SiteDetail.output_section_markup title content <> [].
Proof. unfold SiteDetail.output_section_markup. discriminate. Qed.

(** X14.  [renderOutputSection] renders nothing exactly when the output is
    falsy or an empty array, and [renderDiffSection] exactly when the diff
    is falsy.  An array of lines is rendered as one block, each line
    escaped and the lines joined by newlines; an output that is rendered
    and is not an array is rendered as its escaped string. *)
Theorem output_sections_of_a_card (title : jsstring) (output : value)
  (line : jsstring) (lines : list jsstring) :
  (SiteDetail.renderOutputSection title output = [] <->
   truthy output = false \/ output = VArr []) /\
  (SiteDetail.renderDiffSection output = [] <-> truthy output = false) /\
  SiteDetail.renderOutputSection title (VArr (map VStr (line :: lines)))
  = SiteDetail.output_section_markup title
      (join [10] (map (fun l => esc (VStr l)) (line :: lines))) /\
  (SiteDetail.renderOutputSection title output <> [] ->
   isArray output = false ->
   SiteDetail.renderOutputSection title output
   = SiteDetail.output_section_markup title (esc output)).
Proof.
  split; [|split; [|split]].
  - unfold SiteDetail.renderOutputSection. split.
    + destruct (truthy output) eqn:Et; [|now left]. cbn [negb orb].
      destruct output as [| | | | |items| |]; cbn [isArray andb];
        try (intros H; now apply output_section_markup_nonempty in H).
      destruct items as [|x items]; [now right|].
      cbn [List.length Nat.eqb].
      intros H; now apply output_section_markup_nonempty in H.
    + intros [H| ->]; [now rewrite H|reflexivity].
  - unfold SiteDetail.renderDiffSection. split.
    + destruct (truthy output); [|reflexivity]. cbn [negb].
      unfold SiteDetail.diff_section_markup. discriminate.
    + now intros ->.
  - unfold SiteDetail.renderOutputSection.
    cbn [map truthy negb isArray List.length Nat.eqb andb orb].
    change (VStr line :: map VStr lines) with (map VStr (line :: lines)).
    rewrite array_join_strings. unfold esc, text_of.
    cbn [is_nullish to_string]. now rewrite serialize_join_lines.
  - unfold SiteDetail.renderOutputSection. intros Hne Ha. rewrite Ha in *.
    cbn [andb] in *. rewrite orb_false_r in *.
    destruct (negb (truthy output)); [congruence|reflexivity].
Qed.

Lemma output_sections_of_a_card_witness :
  SiteDetail.renderOutputSection (lit "Actual Output") (str "a<b") <> [] /\
  isArray (str "a<b") = false /\
  SiteDetail.renderOutputSection (lit "Actual Output") (str "a<b")
  = SiteDetail.output_section_markup (lit "Actual Output") (lit "a&lt;b").
Proof.
  assert (N : SiteDetail.renderOutputSection (lit "Actual Output") (str "a<b")
              <> []) by discriminate.
  split; [exact N|]. split; [reflexivity|].
  exact (proj2 (proj2 (proj2 (output_sections_of_a_card (lit "Actual Output")
                                (str "a<b") [] []))) N eq_refl).
Defined.

(** ** The head of the matrix *)

Lemma fold_left_header (exams : list value) : forall html cs,
  cells_of html = Some cs -> forallb clean_cell cs = true ->
  cells_of
    (fold_left
       (fun html exam =>
          read_back html ++ lit "<th>" ++ MatrixB.escapeHtml exam
          ++ lit "</th>")
       exams html)
  = Some (cs ++ map (text_cell (lit "th") []) exams).
Proof.
  induction exams as [|e exams IH]; intros html cs Hcs Hclean;
    cbn [fold_left map].
  - now rewrite app_nil_r.
  - rewrite (IH _ (cs ++ [text_cell (lit "th") [] e])).
    + now rewrite <- app_assoc.
    + rewrite (read_back_cells _ _ Hcs).
      apply cells_of_app;
        [now apply cells_of_serialize|apply header_cell_cells|].
      intros H; discriminate H.
    + apply forallb_app_true; [exact Hclean|]. cbn [forallb].
      now rewrite text_cell_clean.
Qed.

Lemma serialize_header_cells (exams : list value) :
  flat_map serialize_cell (map (text_cell (lit "th") []) exams)
  = exam_header_cells_read exams.
Proof.
  unfold exam_header_cells_read.
  induction exams as [|e exams IH]; [reflexivity|].
  cbn [map flat_map List.concat]. now rewrite IH.
Qed.

Lemma matrix_a_head_cells (exams : list value) :
  matrix_a_head exams
  = [Markup (lit "<tr><th class=`model-col`>Model</th>"
             ++ exam_header_cells exams ++ lit "<th>Total</th></tr>")].
Proof.
  unfold matrix_a_head, MatrixA.head_markup. now rewrite join_concat.
Qed.

Lemma matrix_b_head_cells (exams : list value) :
  matrix_b_head exams
  = [Element (lit "tr")
       (lit "<th>Model</th>" ++ exam_header_cells_read exams
        ++ lit "<th>Total</th>")].
Proof.
  unfold matrix_b_head, MatrixB.header_row. cbv zeta.
  rewrite (read_back_cells _ _
             (fold_left_header exams (lit "<th>Model</th>")
                [{| element_name := lit "th"; element_attributes := [];
                    element_text := lit "Model" |}] eq_refl eq_refl)).
  cbn [app flat_map]. rewrite serialize_header_cells.
  now rewrite <- !app_assoc.
Qed.

(** The matrix of a document whose [models] and [exams] are non-empty
    arrays, whatever else it holds. *)
Section MatrixHeads.

Variable data : value.
Variables models exams : list value.
Hypothesis Hmodels : get data (lit "models") = Ok (VArr models).
Hypothesis Hsome_models : models <> [].
Hypothesis Hexams : get data (lit "exams") = Ok (VArr exams).
Hypothesis Hsome_exams : exams <> [].

Lemma matrix_a_head_is_set (p : page) :
  content (after (MatrixA.renderDetailed data) p) results_head_id
  = matrix_a_head exams.
Proof.
  unfold after, MatrixA.renderDetailed.
  rewrite bind_lift, Hmodels. cbv beta iota.
  rewrite bind_lift, get_opt_length. cbv beta iota.
  rewrite (truthy_length_nonempty _ Hsome_models). cbn [negb].
  rewrite bind_lift, Hexams. cbv beta iota.
  rewrite bind_lift, get_opt_length. cbv beta iota.
  rewrite (truthy_length_nonempty _ Hsome_exams). cbn [negb].
  rewrite bind_lift. cbn [elements].
  rewrite bind_set_innerHTML by (unfold MatrixA.head_markup; discriminate).
  match goal with
  | |- content (snd (?m ?q)) _ = _ =>
      change (content (after m q) results_head_id = matrix_a_head exams);
        assert (K : keeps [results_body_id] m)
  end.
  { unfold set_innerHTML. frame. }
  rewrite (keeps_content _ _ _ _ K) by reflexivity.
  apply content_with_content.
Qed.

Lemma matrix_b_head_is_set (p : page) :
  content (after (MatrixB.renderDetailedResults data) p) results_header_id
  = matrix_b_head exams.
Proof.
  unfold after, MatrixB.renderDetailedResults.
  rewrite !bind_set_innerHTML_empty, bind_lift.
  unfold MatrixB.nothing_to_show, MatrixB.missing_or_empty,
    MatrixB.length_is_zero.
  rewrite Hmodels. cbn [rbind truthy negb]. rewrite get_length. cbn [rbind].
  rewrite (length_not_zero _ Hsome_models).
  rewrite Hexams. cbn [rbind truthy negb]. rewrite get_length. cbn [rbind].
  rewrite (length_not_zero _ Hsome_exams). cbv beta iota.
  rewrite bind_lift. cbv beta iota.
  rewrite bind_lift. cbn [elements].
  rewrite bind_appendChild.
  match goal with
  | |- content (snd (?m ?q)) _ = _ =>
      change (content (after m q) results_header_id = matrix_b_head exams);
        assert (K : keeps [results_body_id] m)
  end.
  { frame. unfold MatrixB.body_row. frame. }
  rewrite (keeps_content _ _ _ _ K) by reflexivity.
  reflexivity.
Qed.

End MatrixHeads.

(** X15.  For a document whose [models] and [exams] are non-empty arrays,
    both matrix renderers leave one row in the head: the cell Model, one
    cell per exam in the order of [exams] holding the escaped name, and the
    cell Total.  The verbose script builds its row with [innerHTML +=], so
    that its cells were read back: in a name CR LF and CR are LF and
    U+0000 is gone, and a name without them is as [esc] returns it, so
    that for such names the two heads hold the same exam cells.  The head
    is in place whether or not the body can be drawn. *)
Theorem matrix_heads_list_the_exams (data : value)
  (models exams : list value) (p : page) :
  get data (lit "models") = Ok (VArr models) -> models <> [] ->
  get data (lit "exams") = Ok (VArr exams) -> exams <> [] ->
  content (after (MatrixA.renderDetailed data) p) results_head_id
  = [Markup (lit "<tr><th class=`model-col`>Model</th>"
             ++ exam_header_cells exams ++ lit "<th>Total</th></tr>")] /\
  content (after (MatrixB.renderDetailedResults data) p) results_header_id
  = [Element (lit "tr")
       (lit "<th>Model</th>" ++ exam_header_cells_read exams
        ++ lit "<th>Total</th>")] /\
  (forall e,
     forallb (fun u => negb (u =? 0) && negb (u =? 13)) (text_of e) = true ->
     esc_read e = esc e) /\
  ((forall e, In e exams ->
      forallb (fun u => negb (u =? 0) && negb (u =? 13)) (text_of e) = true) ->
   exam_header_cells_read exams = exam_header_cells exams).
Proof.
  intros Hm Hsm Hx Hsx.
  rewrite (matrix_a_head_is_set data models exams Hm Hsm Hx Hsx).
  rewrite (matrix_b_head_is_set data models exams Hm Hsm Hx Hsx).
  split; [apply matrix_a_head_cells|]. split; [apply matrix_b_head_cells|].
  assert (Hclean : forall e,
            forallb (fun u => negb (u =? 0) && negb (u =? 13)) (text_of e)
            = true -> esc_read e = esc e).
  { intros e He. unfold esc_read, esc. now rewrite (parsed_text_clean _ He). }
  split; [exact Hclean|].
  intros Hall. unfold exam_header_cells_read, exam_header_cells. f_equal.
  apply map_ext_in. intros e He. now rewrite (Hclean e (Hall e He)).
Qed.

Lemma matrix_heads_list_the_exams_witness :
  get scenario (lit "models") = Ok (VArr [str "A"; str "B"]) /\
  [str "A"; str "B"] <> [] /\
  get scenario (lit "exams") = Ok (VArr [str "E1"]) /\
  [str "E1"] <> [] /\
  content (after (MatrixB.renderDetailedResults scenario) blank_page)
    results_header_id
  = [Element (lit "tr") (lit "<th>Model</th><th>E1</th><th>Total</th>")].
Proof.
  assert (Nm : [str "A"; str "B"] <> []) by discriminate.
  assert (Nx : [str "E1"] <> []) by discriminate.
  split; [reflexivity|]. split; [exact Nm|]. split; [reflexivity|].
  split; [exact Nx|].
  exact (proj1 (proj2 (matrix_heads_list_the_exams scenario
                         [str "A"; str "B"] [str "E1"] blank_page eq_refl Nm
                         eq_refl Nx))).
Defined.

(** ** The counters of a matrix row *)

Lemma get_throws (v : value) (k : jsstring) (e : error) :
  get v k = Throw e -> e = TypeError.
Proof.
  destruct v; cbn [get]; try congruence;
    destruct (str_eqb k (lit "length")); try discriminate;
    destruct (array_index k); discriminate.
Qed.

Lemma get_opt_returns (v : value) (k : jsstring) :
  exists x, get_opt v k = Ok x.
Proof. rewrite get_opt_lookup. eauto. Qed.

Lemma matrix_a_cell_counts (data model exam : value) (n : nat) :
  match MatrixA.cell data model exam n with
  | Ok (_, k) => (n <= k <= S n)%nat
  | Throw e => e = TypeError
  end.
Proof.
  unfold MatrixA.cell, get_at, get_opt_at.
  destruct (get data (lit "exam_results")) as [er|e] eqn:E1; cbn [rbind];
    [|exact (get_throws _ _ _ E1)].
  destruct (get er (to_string exam)) as [oe|e] eqn:E2; cbn [rbind];
    [|exact (get_throws _ _ _ E2)].
  repeat (rewrite get_opt_lookup; cbn [rbind]).
  repeat match goal with
         | |- context [if ?b then _ else _] =>
             destruct b; repeat (rewrite get_opt_lookup; cbn [rbind])
         end; cbv beta iota; lia.
Qed.

Lemma matrix_b_cell_counts (data model exam : value)
  (st : MatrixB.row_state) :
  match MatrixB.cell data model st exam with
  | Ok st' =>
      (MatrixB.passed st <= MatrixB.passed st' <= S (MatrixB.passed st))%nat /\
      MatrixB.total st' = S (MatrixB.total st)
  | Throw e => e = TypeError
  end.
Proof.
  unfold MatrixB.cell, get_at, get_opt_at.
  destruct (get data (lit "exam_results")) as [er|e] eqn:E1; cbn [rbind];
    [|exact (get_throws _ _ _ E1)].
  destruct (get er (to_string exam)) as [oe|e] eqn:E2; cbn [rbind];
    [|exact (get_throws _ _ _ E2)].
  repeat (rewrite get_opt_lookup; cbn [rbind]).
  repeat match goal with
         | |- context [if ?b then _ else _] =>
             destruct b; repeat (rewrite get_opt_lookup; cbn [rbind])
         end; cbn [MatrixB.passed MatrixB.total]; lia.
Qed.

(** X16.  While the cells of a matrix row are drawn, the counter [passed]
    never decreases and grows by at most one per exam; there is one cell per
    exam and, in the verbose script, [total] grows by exactly one per exam.
    The only exception the cells of a row can throw is a [TypeError]. *)
Theorem matrix_counters_are_bounded (data model : value)
  (exams : list value) (n : nat) (st : MatrixB.row_state) :
  match map_counting (MatrixA.cell data model) exams n with
  | Ok (cells, k) =>
      List.length cells = List.length exams /\
      (n <= k <= n + List.length exams)%nat
  | Throw e => e = TypeError
  end /\
  match MatrixB.fold_cells (MatrixB.cell data model) exams st with
  | Ok st' =>
      (MatrixB.passed st <= MatrixB.passed st'
       <= MatrixB.passed st + List.length exams)%nat /\
      MatrixB.total st' = (MatrixB.total st + List.length exams)%nat
  | Throw e => e = TypeError
  end.
Proof.
  split.
  - revert n. induction exams as [|exam exams IH]; intros n.
    + cbn. lia.
    + cbn [map_counting List.length].
      pose proof (matrix_a_cell_counts data model exam n) as Hc.
      destruct (MatrixA.cell data model exam n) as [[c k]|e]; cbn [rbind];
        [|exact Hc].
      specialize (IH k).
      destruct (map_counting (MatrixA.cell data model) exams k)
        as [[cells k']|e]; cbn [rbind]; [|exact IH].
      cbn [List.length]. lia.
  - revert st. induction exams as [|exam exams IH]; intros st.
    + cbn. lia.
    + cbn [MatrixB.fold_cells List.length].
      pose proof (matrix_b_cell_counts data model exam st) as Hc.
      destruct (MatrixB.cell data model st exam) as [st1|e]; cbn [rbind];
        [|exact Hc].
      specialize (IH st1).
      destruct (MatrixB.fold_cells (MatrixB.cell data model) exams st1)
        as [st'|e]; [|exact IH].
      lia.
Qed.

(** ** A document without [exam_results] *)

Lemma map_from_throws_first {A B} (f : A -> nat -> result B) (e : error)
  (l : list A) (i : nat) :
  l <> [] -> (forall x j, f x j = Throw e) -> map_from f l i = Throw e.
Proof.
  destruct l as [|x l]; [congruence|]. intros _ H. cbn [map_from].
  now rewrite H.
Qed.

Lemma map_counting_throws_first {A B} (f : A -> nat -> result (B * nat))
  (e : error) (l : list A) (n : nat) :
  l <> [] -> (forall x j, f x j = Throw e) -> map_counting f l n = Throw e.
Proof.
  destruct l as [|x l]; [congruence|]. intros _ H. cbn [map_counting].
  now rewrite H.
Qed.

Lemma fold_cells_throws_first (f : MatrixB.row_state -> value ->
                                   result MatrixB.row_state)
  (e : error) (l : list value) (st : MatrixB.row_state) :
  l <> [] -> (forall s x, f s x = Throw e) ->
  MatrixB.fold_cells f l st = Throw e.
Proof.
  destruct l as [|x l]; [congruence|]. intros _ H. cbn [MatrixB.fold_cells].
  now rewrite H.
Qed.

Lemma forEach_throws_first {A} (f : A -> nat -> M unit) (e : error)
  (l : list A) (i : nat) (p : page) :
  l <> [] -> (forall x j q, f x j q = (Throw e, q)) ->
  forEach f l i p = (Throw e, p).
Proof.
  destruct l as [|x l]; [congruence|]. intros _ H. cbn [forEach].
  unfold bind. now rewrite H.
Qed.

Section WithoutResults.

Variable data : value.
Variables models exams : list value.
Hypothesis Hmodels : get data (lit "models") = Ok (VArr models).
Hypothesis Hsome_models : models <> [].
Hypothesis Hexams : get data (lit "exams") = Ok (VArr exams).
Hypothesis Hsome_exams : exams <> [].
Hypothesis Hnone : is_nullish (lookup data (lit "exam_results")) = true.

Lemma cells_throw (model exam : value) (n : nat) (st : MatrixB.row_state) :
  MatrixA.cell data model exam n = Throw TypeError /\
  MatrixB.cell data model st exam = Throw TypeError.
Proof.
  pose proof (get_ok_not_nullish _ _ _ Hmodels) as Hd.
  unfold MatrixA.cell, MatrixB.cell, get_at.
  rewrite (get_lookup _ _ Hd). cbn [rbind].
  rewrite (get_nullish _ _ Hnone). split; reflexivity.
Qed.

Lemma matrix_a_detailed_throws (p : page) :
  MatrixA.renderDetailed data p
  = (Throw TypeError, with_content p results_head_id (matrix_a_head exams)).
Proof.
  unfold MatrixA.renderDetailed.
  rewrite bind_lift, Hmodels. cbv beta iota.
  rewrite bind_lift, get_opt_length. cbv beta iota.
  rewrite (truthy_length_nonempty _ Hsome_models). cbn [negb].
  rewrite bind_lift, Hexams. cbv beta iota.
  rewrite bind_lift, get_opt_length. cbv beta iota.
  rewrite (truthy_length_nonempty _ Hsome_exams). cbn [negb].
  rewrite bind_lift. cbn [elements].
  rewrite bind_set_innerHTML by (unfold MatrixA.head_markup; discriminate).
  rewrite bind_lift. cbn [elements]. rewrite bind_lift.
  unfold map_indexed.
  rewrite (map_from_throws_first _ TypeError); [reflexivity|exact Hsome_models|].
  intros model j. unfold MatrixA.body_row.
  rewrite Hexams. cbn [rbind elements].
  rewrite (map_counting_throws_first _ TypeError);
    [reflexivity|exact Hsome_exams|].
  intros exam n.
  exact (proj1 (cells_throw model exam n
                  {| MatrixB.row_innerHTML := []; MatrixB.passed := 0;
                     MatrixB.total := 0 |})).
Qed.

Lemma matrix_b_detailed_throws (p : page) :
  MatrixB.renderDetailedResults data p
  = (Throw TypeError,
     with_content
       (with_content (with_content p results_header_id []) results_body_id [])
       results_header_id (matrix_b_head exams)).
Proof.
  unfold MatrixB.renderDetailedResults.
  rewrite !bind_set_innerHTML_empty, bind_lift.
  unfold MatrixB.nothing_to_show, MatrixB.missing_or_empty,
    MatrixB.length_is_zero.
  rewrite Hmodels. cbn [rbind truthy negb]. rewrite get_length. cbn [rbind].
  rewrite (length_not_zero _ Hsome_models).
  rewrite Hexams. cbn [rbind truthy negb]. rewrite get_length. cbn [rbind].
  rewrite (length_not_zero _ Hsome_exams). cbv beta iota.
  rewrite bind_lift. cbv beta iota.
  rewrite bind_lift. cbn [elements].
  rewrite bind_appendChild.
  rewrite bind_lift. cbv beta iota. rewrite bind_lift. cbn [elements].
  rewrite (forEach_throws_first _ TypeError); [reflexivity|exact Hsome_models|].
  intros model j q. unfold MatrixB.body_row.
  rewrite bind_lift, Hexams. cbv beta iota. rewrite bind_lift. cbn [elements].
  rewrite bind_lift.
  rewrite (fold_cells_throws_first _ TypeError);
    [reflexivity|exact Hsome_exams|].
  intros st exam. exact (proj2 (cells_throw model exam 0 st)).
Qed.

End WithoutResults.

(** X17.  For a document without [exam_results] (its [models] and [exams]
    non-empty arrays, every listed model with statistics), drawing the
    matrix throws after its head is in place, and the handler replaces the
    leaderboard, which had been drawn, by its fallback row.  The page of
    the compact script has not reached its counters and the body of its
    matrix is as it was; the page of the verbose script shows its counters
    and the body of its matrix is empty. *)
Theorem index_pages_need_exam_results
  (toLocaleDateString : value -> jsstring) (data : value)
  (models exams : list value) (p : page) :
  get data (lit "models") = Ok (VArr models) -> models <> [] ->
  (forall m, In m models -> has_stats data m) ->
  get data (lit "exams") = Ok (VArr exams) -> exams <> [] ->
  is_nullish (lookup data (lit "exam_results")) = true ->
  (let q := after (matrix_a_page toLocaleDateString (Loaded data)) p in
   content q leaderboard_body_id = [Markup MatrixA.no_results] /\
   content q results_head_id = matrix_a_head exams /\
   content q results_body_id = content p results_body_id /\
   content q total_models_id = content p total_models_id /\
   content q total_exams_id = content p total_exams_id) /\
  (let q := after (matrix_b_page toLocaleDateString (Loaded data)) p in
   content q leaderboard_body_id = [Markup MatrixB.no_results] /\
   content q results_header_id = matrix_b_head exams /\
   content q results_body_id = [] /\
   text_shown (content q total_models_id)
   = Some (count_text (lookup data (lit "total_models"))) /\
   text_shown (content q total_exams_id)
   = Some (count_text (lookup data (lit "total_exams")))).
Proof.
  intros Hm Hsm Hs Hx Hsx Hn. pose proof (get_ok_not_nullish _ _ _ Hm) as Hd.
  split; cbv zeta.
  - assert (Hrun :
      matrix_a_page toLocaleDateString (Loaded data) p
      = (Ok tt,
         with_content
           (with_content
              (with_content p leaderboard_body_id
                 (matrix_a_leaderboard data models))
              results_head_id (matrix_a_head exams))
           leaderboard_body_id [Markup MatrixA.no_results])).
    { unfold matrix_a_page, try_catch. rewrite after_loaded.
      unfold bind at 1.
      rewrite (matrix_a_leaderboard_page data models Hm Hsm Hs p).
      unfold bind at 1.
      rewrite (matrix_a_detailed_throws data models exams Hm Hsm Hx Hsx Hn).
      reflexivity. }
    unfold after. rewrite Hrun. repeat split.
  - pose proof (proj1 (matrix_b_leaderboard_keeps data)) as Kl.
    destruct (renderStats_counts toLocaleDateString data p Hd)
      as (Hso & Htm & Htx).
    set (p1 := after (renderStats toLocaleDateString data) p) in *.
    destruct (matrix_b_leaderboard_renders data models Hm Hsm Hs p1)
      as (Hlo & _).
    set (p2 := after (MatrixB.renderLeaderboard data) p1) in *.
    assert (Hbody :
      outcome (bind (await (Loaded data)) (fun data =>
                 bind (renderStats toLocaleDateString data) (fun _ =>
                 bind (MatrixB.renderLeaderboard data) (fun _ =>
                 MatrixB.renderDetailedResults data)))) p = Throw TypeError /\
      after (bind (await (Loaded data)) (fun data =>
               bind (renderStats toLocaleDateString data) (fun _ =>
               bind (MatrixB.renderLeaderboard data) (fun _ =>
               MatrixB.renderDetailedResults data)))) p
      = with_content
          (with_content (with_content p2 results_header_id [])
             results_body_id [])
          results_header_id (matrix_b_head exams)).
    { unfold outcome, after. rewrite after_loaded.
      destruct (bind_returns _ (fun _ =>
                  bind (MatrixB.renderLeaderboard data) (fun _ =>
                  MatrixB.renderDetailedResults data)) _ _ Hso) as [Ho Ha].
      unfold outcome, after in Ho, Ha. rewrite Ho, Ha.
      change (snd (renderStats toLocaleDateString data p)) with p1.
      destruct (bind_returns _ (fun _ => MatrixB.renderDetailedResults data)
                  _ _ Hlo) as [Ho' Ha'].
      unfold outcome, after in Ho', Ha'. rewrite Ho', Ha'.
      change (snd (MatrixB.renderLeaderboard data p1)) with p2.
      rewrite (matrix_b_detailed_throws data models exams Hm Hsm Hx Hsx Hn).
      split; reflexivity. }
    destruct Hbody as [Ho Ha].
    unfold matrix_b_page.
    rewrite (try_catch_body_throws _ _ _ _ Ho), Ha.
    cbn [after set_innerHTML put_content snd with_content content
         element_id_eqb].
    unfold p2.
    rewrite !(keeps_content _ _ _ _ Kl) by reflexivity.
    rewrite Htm, Htx. repeat split.
Qed.

Lemma index_pages_need_exam_results_witness :
  get without_results (lit "models") = Ok (VArr [str "A"]) /\
  [str "A"] <> [] /\
  (forall m, In m [str "A"] -> has_stats without_results m) /\
  get without_results (lit "exams") = Ok (VArr [str "E1"]) /\
  [str "E1"] <> [] /\
  is_nullish (lookup without_results (lit "exam_results")) = true /\
  content (after (matrix_a_page (fun _ => []) (Loaded without_results))
             blank_page) leaderboard_body_id
  = [Markup MatrixA.no_results].
Proof.
  assert (H : forall m, In m [str "A"] -> has_stats without_results m)
    by (intros m [<-|[]]; reflexivity).
  assert (Nm : [str "A"] <> []) by discriminate.
  assert (Nx : [str "E1"] <> []) by discriminate.
  split; [reflexivity|]. split; [exact Nm|]. split; [exact H|].
  split; [reflexivity|]. split; [exact Nx|]. split; [reflexivity|].
  exact (proj1 (proj1 (index_pages_need_exam_results (fun _ => [])
                         without_results [str "A"] [str "E1"] blank_page
                         eq_refl Nm H eq_refl Nx eq_refl))).
Defined.

(** ** A duration that is not a number *)

(** X18.  A duration given as a text whose numeric value is NaN (a text
    that is not a numeral) is rendered as "NaNh NaNm". *)
Theorem duration_of_a_non_number (s : jsstring) :
  to_number (VStr s) = Num.nan ->
  SiteDetail.renderDuration (VStr s)
  = lit "<span class=`exam-duration`>NaNh NaNm</span>".
Proof.
  intros Hv. unfold SiteDetail.renderDuration. cbn [is_nullish]. rewrite Hv.
  vm_compute. reflexivity.
Qed.

Lemma duration_of_a_non_number_witness :
  to_number (str "soon") = Num.nan /\
  SiteDetail.renderDuration (str "soon")
  = lit "<span class=`exam-duration`>NaNh NaNm</span>".
Proof.
  split; [vm_compute; reflexivity|].
  apply duration_of_a_non_number; vm_compute; reflexivity.
Defined.

(** ** The query string *)

(** Division and remainder by a constant are linear. *)
Ltac divide := zify; Z.to_euclidean_division_equations; lia.

Lemma land_low (b : N) (n : N) : N.land b (N.ones n) = b mod 2 ^ n.
Proof. apply N.land_ones. Qed.

Lemma lor_shiftl_6 (a b : N) :
  N.lor (N.shiftl a 6) (N.land b 63) = a * 64 + b mod 64.
Proof.
  change 63 with (N.ones 6). rewrite N.land_ones, N.shiftl_mul_pow2.
  change (2 ^ 6) with 64.
  rewrite <- N.lxor_lor, <- N.add_nocarry_lxor; [reflexivity| |].
  all: apply N.bits_inj_0; intros i; rewrite N.land_spec.
  all: destruct (N.lt_ge_cases i 6) as [Hi|Hi].
  all: try (change 64 with (2 ^ 6); rewrite N.mul_pow2_bits_low by exact Hi;
            reflexivity).
  all: change 64 with (2 ^ 6); rewrite N.mod_pow2_bits_high by exact Hi;
    apply andb_false_r.
Qed.

Lemma land_31 (b : N) : N.land b 31 = b mod 32.
Proof. exact (N.land_ones b 5). Qed.

Lemma land_15 (b : N) : N.land b 15 = b mod 16.
Proof. exact (N.land_ones b 4). Qed.

Lemma land_7 (b : N) : N.land b 7 = b mod 8.
Proof. exact (N.land_ones b 3). Qed.

(** The decoder, byte by byte. *)

Lemma decode_ascii (b : N) (rest : list N) :
  b <= 127 ->
  utf8_decode_from utf8_start (b :: rest) = b :: utf8_decode_from utf8_start rest.
Proof.
  intros H. cbn [utf8_decode_from]. unfold utf8_step, utf8_first.
  cbn [bytes_needed utf8_start N.eqb].
  now rewrite (proj2 (N.leb_le b 127) H).
Qed.

Lemma decode_lead (b : N) (rest : list N) :
  194 <= b <= 244 ->
  utf8_decode_from utf8_start (b :: rest)
  = utf8_decode_from
      {| code_point :=
           if b <=? 223 then b mod 32 else if b <=? 239 then b mod 16
           else b mod 8;
         bytes_seen := 0;
         bytes_needed := if b <=? 223 then 1 else if b <=? 239 then 2 else 3;
         lower_boundary :=
           if b =? 224 then 160 else if b =? 240 then 144 else 128;
         upper_boundary :=
           if b =? 237 then 159 else if b =? 244 then 143 else 191 |}
      rest.
Proof.
  intros H. cbn [utf8_decode_from]. unfold utf8_step, utf8_first.
  cbn [bytes_needed utf8_start N.eqb].
  rewrite land_31, land_15, land_7.
  destruct (N.leb_spec b 127); [lia|].
  destruct (N.leb_spec 194 b); [|lia].
  destruct (N.leb_spec b 223); cbn [andb app].
  - destruct (N.eqb_spec b 224); [lia|]. destruct (N.eqb_spec b 240); [lia|].
    destruct (N.eqb_spec b 237); [lia|]. destruct (N.eqb_spec b 244); [lia|].
    reflexivity.
  - destruct (N.leb_spec 224 b); [|lia].
    destruct (N.leb_spec b 239); cbn [andb app].
    + destruct (N.eqb_spec b 224);
        [|destruct (N.eqb_spec b 240); [lia|]];
        (destruct (N.eqb_spec b 237);
         [|destruct (N.eqb_spec b 244); [lia|]]); reflexivity.
    + destruct (N.leb_spec 240 b); [|lia].
      destruct (N.leb_spec b 244); [|lia]. cbn [andb app].
      destruct (N.eqb_spec b 224); [lia|]. destruct (N.eqb_spec b 237); [lia|].
      reflexivity.
Qed.

Lemma decode_trail (st : utf8_state) (b : N) (rest : list N) :
  bytes_needed st <> 0 -> lower_boundary st <= b -> b <= upper_boundary st ->
  utf8_decode_from st (b :: rest)
  = if bytes_seen st + 1 =? bytes_needed st then
      (code_point st * 64 + b mod 64) :: utf8_decode_from utf8_start rest
    else
      utf8_decode_from
        {| code_point := code_point st * 64 + b mod 64;
           bytes_seen := bytes_seen st + 1;
           bytes_needed := bytes_needed st;
           lower_boundary := 128; upper_boundary := 191 |}
        rest.
Proof.
  intros Hn Hl Hu. cbn [utf8_decode_from]. unfold utf8_step.
  rewrite lor_shiftl_6.
  destruct (N.eqb_spec (bytes_needed st) 0); [contradiction|].
  destruct (N.ltb_spec b (lower_boundary st)); [lia|].
  destruct (N.ltb_spec (upper_boundary st) b); [lia|]. cbn [orb].
  destruct (bytes_seen st + 1 =? bytes_needed st); reflexivity.
Qed.

(** The tests on a byte are decided from the bounds on the code point. *)
Ltac decide_tests :=
  repeat
    (match goal with
     | |- context [?a <=? ?b] =>
         destruct (N.leb_spec a b); try (exfalso; divide)
     | |- context [?a <? ?b] =>
         destruct (N.ltb_spec a b); try (exfalso; divide)
     | |- context [?a =? ?b] =>
         destruct (N.eqb_spec a b); try (exfalso; divide)
     end;
     cbn [andb orb negb bytes_needed bytes_seen code_point lower_boundary
          upper_boundary]).

Ltac trail :=
  rewrite decode_trail;
  cbn [bytes_needed bytes_seen code_point lower_boundary upper_boundary];
  [decide_tests| try discriminate; decide_tests; divide ..].

Lemma utf8_decode_encoded (cp : N) (rest : list N) :
  is_scalar cp = true ->
  utf8_decode (utf8 cp ++ rest) = cp :: utf8_decode rest.
Proof.
  unfold is_scalar, utf8_decode, utf8. intros Hs.
  assert (H : cp < 55296 \/ 57344 <= cp < 1114112).
  { apply orb_prop in Hs as [Hs|Hs]; [left|right].
    - now apply N.ltb_lt.
    - apply andb_prop in Hs as [H1 H2].
      apply N.leb_le in H1. apply N.ltb_lt in H2. now split. }
  clear Hs.
  destruct (N.ltb_spec cp 128); [|destruct (N.ltb_spec cp 2048);
    [|destruct (N.ltb_spec cp 65536)]]; cbn [app].
  - apply decode_ascii. lia.
  - rewrite decode_lead by divide. decide_tests.
    trail. f_equal. divide.
  - rewrite decode_lead by divide. decide_tests.
    all: trail; trail; f_equal; divide.
  - rewrite decode_lead by divide. decide_tests.
    all: trail; trail; trail; f_equal; divide.
Qed.

Lemma utf8_decode_encoding (cps : list N) :
  forallb is_scalar cps = true -> utf8_decode (flat_map utf8 cps) = cps.
Proof.
  induction cps as [|cp cps IH]; [reflexivity|].
  cbn [forallb flat_map]. intros H. apply andb_prop in H as [Hc Hs].
  now rewrite (utf8_decode_encoded _ _ Hc), IH.
Qed.

(** Percent-encoding and percent-decoding. *)

Lemma hex_value_digit (n : N) : n < 16 -> hex_value (hex_digit n) = Some n.
Proof.
  intros H. unfold hex_value, hex_digit.
  destruct (N.ltb_spec n 10).
  - destruct (N.leb_spec 48 (48 + n)); [|lia].
    destruct (N.leb_spec (48 + n) 57); [|lia]. cbn [andb]. f_equal. lia.
  - destruct (N.leb_spec 48 (55 + n)); [|lia].
    destruct (N.leb_spec (55 + n) 57); [lia|]. cbn [andb].
    destruct (N.leb_spec 65 (55 + n)); [|lia].
    destruct (N.leb_spec (55 + n) 70); [|lia]. cbn [andb]. f_equal. lia.
Qed.

Lemma percent_decode_percent (b : N) (rest : list N) :
  b < 256 -> percent_decode (percent b ++ rest) = b :: percent_decode rest.
Proof.
  intros H. unfold percent. cbn [app percent_decode].
  rewrite N.eqb_refl, !hex_value_digit by divide. f_equal. divide.
Qed.

Lemma percent_decode_bytes (bytes rest : list N) :
  forallb (fun b => b <? 256) bytes = true ->
  percent_decode (flat_map percent bytes ++ rest)
  = bytes ++ percent_decode rest.
Proof.
  induction bytes as [|b bytes IH]; [reflexivity|].
  cbn [forallb flat_map]. intros H. apply andb_prop in H as [Hb Hs].
  apply N.ltb_lt in Hb.
  rewrite <- app_assoc, (percent_decode_percent _ _ Hb), IH by exact Hs.
  reflexivity.
Qed.

Lemma percent_decode_plain (c : N) (rest : list N) :
  c <> 37 -> percent_decode (c :: rest) = c :: percent_decode rest.
Proof.
  intros H. apply N.eqb_neq in H. cbn [percent_decode]. rewrite H.
  destruct rest as [|h [|l rest]]; reflexivity.
Qed.

Lemma utf8_bytes (cp : N) :
  cp < 1114112 -> forallb (fun b => b <? 256) (utf8 cp) = true.
Proof.
  intros H. unfold utf8.
  destruct (N.ltb_spec cp 128); [|destruct (N.ltb_spec cp 2048);
    [|destruct (N.ltb_spec cp 65536)]]; cbn [forallb];
    rewrite ?andb_true_iff, ?N.ltb_lt; repeat split; divide.
Qed.

(** The unreserved characters are ASCII characters other than those that
    structure a query string. *)
Lemma unreserved_ascii (c : code_unit) :
  unreserved c = true ->
  c < 128 /\ c <> 37 /\ c <> 38 /\ c <> 43 /\ c <> 61.
Proof.
  unfold unreserved. cbn [existsb].
  rewrite !orb_true_iff, !andb_true_iff, !N.leb_le, !N.eqb_eq. lia.
Qed.

Lemma unreserved_hex_digit (n : N) : n < 16 -> unreserved (hex_digit n) = true.
Proof.
  intros H. unfold unreserved, hex_digit.
  destruct (N.ltb_spec n 10).
  - destruct (N.leb_spec 48 (48 + n)); [|lia].
    destruct (N.leb_spec (48 + n) 57); [|lia]. reflexivity.
  - destruct (N.leb_spec 65 (55 + n)); [|lia].
    destruct (N.leb_spec (55 + n) 90); [|lia]. cbn [andb].
    now rewrite orb_true_r.
Qed.

Lemma url_safe_percent (bytes : list N) :
  forallb (fun b => b <? 256) bytes = true ->
  forallb url_safe (flat_map percent bytes) = true.
Proof.
  induction bytes as [|b bytes IH]; [reflexivity|].
  cbn [forallb flat_map]. intros H. apply andb_prop in H as [Hb Hs].
  apply N.ltb_lt in Hb. rewrite forallb_app, (IH Hs), andb_true_r.
  unfold percent, url_safe. cbn [forallb].
  rewrite !unreserved_hex_digit by divide. reflexivity.
Qed.

(** What [encode] returns, read back. *)
Lemma encode_read_back (n : nat) : forall (s u : jsstring),
  (List.length s <= n)%nat ->
  is_utf16 s = true -> encode s = Ok u ->
  percent_decode u = flat_map utf8 (scalar_values s) /\
  forallb is_scalar (scalar_values s) = true /\
  flat_map code_units (scalar_values s) = s /\
  forallb url_safe u = true.
Proof.
  induction n as [|n IH]; intros s u Hlen Hs He.
  { destruct s; [|cbn in Hlen; lia]. injection He as <-. repeat split. }
  destruct s as [|c s]; [injection He as <-; repeat split|].
  cbn [List.length] in Hlen. unfold is_utf16 in Hs. cbn [forallb] in Hs.
  apply andb_prop in Hs as [Hc Hs]. apply N.ltb_lt in Hc.
  fold (is_utf16 s) in Hs.
  revert He. cbn [encode].
  destruct (unreserved c) eqn:Eu.
  { destruct (encode s) as [r|] eqn:Er; cbn [rbind]; [|discriminate].
    intros [= <-].
    destruct (IH s r ltac:(lia) Hs Er) as (H1 & H2 & H3 & H4).
    destruct (unreserved_ascii _ Eu) as (Ha & H37 & _).
    cbn [scalar_values]. unfold is_high_surrogate, is_low_surrogate.
    destruct (N.leb_spec 55296 c); [lia|]. cbn [andb].
    destruct (N.leb_spec 56320 c); [lia|]. cbn [andb].
    cbn [flat_map forallb]. rewrite (percent_decode_plain _ _ H37), H1, H2, H3, H4.
    unfold utf8, code_units, is_scalar, url_safe. rewrite Eu.
    destruct (N.ltb_spec c 128); [|lia].
    destruct (N.ltb_spec c 65536); [|lia].
    destruct (N.ltb_spec c 55296); [|lia].
    repeat split. }
  destruct (is_low_surrogate c) eqn:El; [discriminate|].
  destruct (is_high_surrogate c) eqn:Eh.
  - destruct s as [|d s]; [discriminate|].
    destruct (is_low_surrogate d) eqn:Ed; [|discriminate].
    destruct (encode s) as [r|] eqn:Er; cbn [rbind]; [|discriminate].
    intros [= <-].
    unfold is_utf16 in Hs. cbn [forallb] in Hs.
    apply andb_prop in Hs as [Hd Hs]. fold (is_utf16 s) in Hs.
    cbn [List.length] in Hlen.
    destruct (IH s r ltac:(lia) Hs Er) as (H1 & H2 & H3 & H4).
    cbn [scalar_values]. rewrite Eh, Ed. cbn [flat_map forallb].
    unfold is_high_surrogate in Eh. unfold is_low_surrogate in Ed.
    apply andb_prop in Eh as [Eh1 Eh2]. apply andb_prop in Ed as [Ed1 Ed2].
    apply N.leb_le in Eh1, Eh2, Ed1, Ed2.
    set (cp := (c - 55296) * 1024 + (d - 56320) + 65536) in *.
    assert (Hcp : 65536 <= cp < 1114112) by (unfold cp; lia).
    rewrite (percent_decode_bytes _ _ (utf8_bytes cp (proj2 Hcp))), H1, H2, H3.
    rewrite forallb_app, H4, (url_safe_percent _ (utf8_bytes cp (proj2 Hcp))).
    unfold is_scalar, code_units.
    destruct (N.ltb_spec cp 55296); [lia|].
    destruct (N.leb_spec 57344 cp); [|lia].
    destruct (N.ltb_spec cp 1114112); [|lia].
    destruct (N.ltb_spec cp 65536); [lia|].
    repeat split. cbn [app]. f_equal; [|f_equal]; unfold cp; divide.
  - destruct (encode s) as [r|] eqn:Er; cbn [rbind]; [|discriminate].
    intros [= <-].
    destruct (IH s r ltac:(lia) Hs Er) as (H1 & H2 & H3 & H4).
    cbn [scalar_values]. rewrite Eh, El. cbn [flat_map forallb].
    assert (Hcp : c < 1114112) by lia.
    rewrite (percent_decode_bytes _ _ (utf8_bytes c Hcp)), H1, H2, H3.
    rewrite forallb_app, H4, (url_safe_percent _ (utf8_bytes c Hcp)).
    unfold is_high_surrogate in Eh. unfold is_low_surrogate in El.
    unfold is_scalar, code_units.
    destruct (N.ltb_spec c 65536); [|lia].
    destruct (N.ltb_spec c 55296); [repeat split|].
    destruct (N.leb_spec 55296 c); [|lia]. cbn [andb] in Eh.
    apply N.leb_gt in Eh.
    destruct (N.leb_spec 56320 c); [|lia]. cbn [andb] in El.
    apply N.leb_gt in El.
    destruct (N.leb_spec 57344 c); [|lia].
    destruct (N.ltb_spec c 1114112); [|lia]. repeat split.
Qed.

Lemma url_safe_ascii (c : code_unit) :
  url_safe c = true -> c < 128 /\ c <> 38 /\ c <> 43 /\ c <> 61.
Proof.
  unfold url_safe. intros H. apply orb_prop in H as [H|H].
  - destruct (unreserved_ascii _ H) as (? & ? & ? & ? & ?).
    repeat split; assumption.
  - apply N.eqb_eq in H. subst c. repeat split; lia.
Qed.

Lemma url_safe_string (u : jsstring) :
  forallb url_safe u = true ->
  forallb (fun c : N => c <? 128) u = true /\
  forallb (fun b : N => negb (b =? 38)) u = true /\
  map (fun b : N => if b =? 43 then 32 else b) u = u.
Proof.
  induction u as [|c u IH]; [repeat split|].
  cbn [forallb map]. intros H. apply andb_prop in H as [Hc Hs].
  destruct (IH Hs) as (H1 & H2 & H3).
  destruct (url_safe_ascii _ Hc) as (Ha & H38 & H43 & _).
  apply N.ltb_lt in Ha. apply N.eqb_neq in H38, H43.
  rewrite Ha, H38, H43, H1, H2, H3. repeat split.
Qed.

Lemma ascii_scalar_values (s : jsstring) :
  forallb (fun c : N => c <? 128) s = true ->
  scalar_values s = s /\ flat_map utf8 s = s.
Proof.
  induction s as [|c s IH]; [split; reflexivity|].
  cbn [forallb]. intros H. apply andb_prop in H as [Hc Hs].
  destruct (IH Hs) as [H1 H2]. apply N.ltb_lt in Hc.
  cbn [scalar_values flat_map]. rewrite H2.
  unfold is_high_surrogate, is_low_surrogate, utf8.
  destruct (N.leb_spec 55296 c); [lia|]. cbn [andb].
  destruct (N.leb_spec 56320 c); [lia|]. cbn [andb].
  destruct (N.ltb_spec c 128); [|lia].
  rewrite H1. split; reflexivity.
Qed.

Lemma split_on_absent (sep : N) (bytes : list N) :
  forallb (fun b : N => negb (b =? sep)) bytes = true ->
  split_on sep bytes = [bytes].
Proof.
  induction bytes as [|b bytes IH]; [reflexivity|].
  cbn [forallb split_on]. intros H. apply andb_prop in H as [Hb Hs].
  apply negb_true_iff in Hb. now rewrite Hb, (IH Hs).
Qed.

Lemma break_at_first (sep : N) (name value : list N) :
  forallb (fun b : N => negb (b =? sep)) name = true ->
  break_at sep (name ++ sep :: value) = (name, value).
Proof.
  induction name as [|b name IH]; cbn [forallb app break_at].
  - now rewrite N.eqb_refl.
  - intros H. apply andb_prop in H as [Hb Hs].
    apply negb_true_iff in Hb. now rewrite Hb, (IH Hs).
Qed.

Lemma parse_sequence_pair (c : N) (name value : list N) :
  forallb (fun b : N => negb (b =? 61)) (c :: name) = true ->
  parse_sequence ((c :: name) ++ 61 :: value)
  = [(decode_component (c :: name), decode_component value)].
Proof.
  intros H. unfold parse_sequence.
  rewrite (break_at_first _ _ _ H). reflexivity.
Qed.

Lemma URLSearchParams_ascii (q : jsstring) :
  forallb (fun c : N => c <? 128) q = true ->
  URLSearchParams (63 :: q) = urlencoded_parse q.
Proof.
  intros H.
  destruct (ascii_scalar_values q H) as [H1 H2].
  unfold URLSearchParams. cbn [scalar_values].
  change (is_high_surrogate 63) with false.
  change (is_low_surrogate 63) with false. cbv beta iota zeta.
  change (63 =? 63) with true. cbv beta iota.
  rewrite H1. f_equal. exact H2.
Qed.

(** The query string that the link of a row writes holds the name. *)
Lemma query_of_link (s u : jsstring) :
  is_utf16 s = true -> encode s = Ok u ->
  URLSearchParams (lit "?model=" ++ u) = [(lit "model", s)].
Proof.
  intros Hs He.
  destruct (encode_read_back _ s u (Nat.le_refl _) Hs He)
    as (Hp & Hsc & Hcu & Hsafe).
  destruct (url_safe_string _ Hsafe) as (Hascii & Hamp & Hplus).
  change (lit "?model=" ++ u) with (63 :: (lit "model=" ++ u)).
  rewrite URLSearchParams_ascii
    by (rewrite forallb_app; apply andb_true_intro;
        split; [reflexivity|exact Hascii]).
  unfold urlencoded_parse.
  rewrite split_on_absent
    by (rewrite forallb_app; apply andb_true_intro;
        split; [reflexivity|exact Hamp]).
  cbn [flat_map]. rewrite app_nil_r.
  change (lit "model=" ++ u) with ((109 :: lit "odel") ++ 61 :: u).
  rewrite (parse_sequence_pair 109 (lit "odel") u eq_refl).
  unfold decode_component at 2.
  replace (map (fun b : N => if b =? 43 then 32 else b) u) with u
    by (symmetry; exact Hplus).
  rewrite Hp, (utf8_decode_encoding _ Hsc), Hcu.
  reflexivity.
Qed.

(** X19.  What [encodeURIComponent] returns for a string holds only
    unreserved characters and [%]; a name made of unreserved characters
    only is returned as it is. *)
Theorem encoded_name_is_url_safe (s u : jsstring) :
  is_utf16 s = true -> encodeURIComponent (VStr s) = Ok u ->
  forallb url_safe u = true /\
  (forallb unreserved s = true -> u = s).
Proof.
  unfold encodeURIComponent. cbn [to_string]. intros Hs He.
  split.
  - exact (proj2 (proj2 (proj2 (encode_read_back _ s u (Nat.le_refl _) Hs He)))).
  - clear Hs. revert u He. induction s as [|c s IH]; intros u He Hu.
    + now injection He as <-.
    + cbn [forallb] in Hu. apply andb_prop in Hu as [Hc Hu].
      cbn [encode] in He. rewrite Hc in He.
      destruct (encode s) as [r|]; cbn [rbind] in He; [|discriminate].
      injection He as <-. f_equal. now apply IH.
Qed.

(** X20.  Reading the parameter [model] from the query string made of
    [?model=] and the encoded name gives the name back: [URLSearchParams]
    undoes [encodeURIComponent]. *)
Theorem query_of_an_encoded_name (s u : jsstring) :
  is_utf16 s = true -> encodeURIComponent (VStr s) = Ok u ->
  params_get (URLSearchParams (lit "?model=" ++ u)) (lit "model") = Some s.
Proof.
  unfold encodeURIComponent. cbn [to_string]. intros Hs He.
  rewrite (query_of_link _ _ Hs He). reflexivity.
Qed.

(** ** From a row of the leaderboard to the detail page *)

Lemma detail_page_shows_the_name (c : code_unit) (name : jsstring)
  (data : value) (models : list value) (p : page) :
  get data (lit "models") = Ok (VArr models) ->
  In (VStr (c :: name)) models ->
  let q := after (SiteDetail.onDOMContentLoaded (Some (c :: name))
                    (Loaded data)) p in
  location_href q = location_href p /\
  title q = SiteDetail.title_text (c :: name) /\
  content q model_name_id = [Text (c :: name)].
Proof.
  intros Hm Hin. pose proof (get_ok_not_nullish _ _ _ Hm) as Hd.
  pose proof (renderExams_keeps (c :: name) data) as [Ke Kt].
  assert (Hrun :
    SiteDetail.onDOMContentLoaded (Some (c :: name)) (Loaded data) p
    = try_catch
        (bind (SiteDetail.renderHeader (c :: name) data)
           (fun _ => SiteDetail.renderExams (c :: name) data))
        (set_innerHTML exams_container_id SiteDetail.failed_to_load) p).
  { unfold SiteDetail.onDOMContentLoaded. cbn [truthy negb].
    unfold try_catch, bind at 1, await, ret.
    rewrite bind_lift, Hm. cbv beta iota.
    rewrite bind_lift. cbn [includes_opt].
    rewrite (existsb_same_string_in _ _ Hin). reflexivity. }
  cbv zeta. unfold after. rewrite Hrun. unfold try_catch, bind.
  rewrite (renderHeader_page _ _ _ Hd). cbv zeta.
  destruct (is_nullish (lookup data (lit "model_stats")));
    [repeat split|].
  destruct (truthy (stats_of data (VStr (c :: name))));
    match goal with
    | |- context [SiteDetail.renderExams ?n ?d ?q] =>
        rewrite (run_pair (SiteDetail.renderExams n d) q);
          pose proof (proj1 (Ke q)) as Hl;
          pose proof (Kt q) as Ht;
          pose proof (keeps_content _ _ q model_name_id Ke eq_refl) as Hc;
          unfold same_title in Ht;
          destruct (outcome (SiteDetail.renderExams n d) q)
    end;
    cbn [snd set_innerHTML put_content location_href title content
         element_id_eqb];
    rewrite Hl, Ht, Hc; repeat split.
Qed.

Lemma hex_digit_no_apostrophe (n : N) : negb (hex_digit n =? 39) = true.
Proof.
  apply negb_true_iff, N.eqb_neq. unfold hex_digit.
  destruct (N.ltb_spec n 10); lia.
Qed.

Lemma percent_no_apostrophe (bytes : list N) :
  no_apostrophe (flat_map percent bytes) = true.
Proof.
  unfold no_apostrophe.
  induction bytes as [|b bytes IH]; [reflexivity|].
  cbn [flat_map percent app forallb].
  now rewrite !hex_digit_no_apostrophe, IH.
Qed.

Lemma no_apostrophe_app (a b : jsstring) :
  no_apostrophe a = true -> no_apostrophe b = true ->
  no_apostrophe (a ++ b) = true.
Proof.
  unfold no_apostrophe. intros Ha Hb. rewrite forallb_app.
  apply andb_true_intro. now split.
Qed.

(** [encodeURIComponent] brings in no apostrophe of its own. *)
Lemma encode_no_apostrophe (n : nat) : forall (s u : jsstring),
  (List.length s <= n)%nat ->
  encode s = Ok u -> no_apostrophe s = true -> no_apostrophe u = true.
Proof.
  induction n as [|n IH]; intros s u Hlen He Hs.
  { destruct s; [|cbn in Hlen; lia]. now injection He as <-. }
  destruct s as [|c s]; [now injection He as <-|].
  cbn [List.length] in Hlen. unfold no_apostrophe in Hs. cbn [forallb] in Hs.
  apply andb_prop in Hs as [Hc Hs]. fold (no_apostrophe s) in Hs.
  revert He. cbn [encode].
  destruct (unreserved c).
  { destruct (encode s) as [r|] eqn:Er; cbn [rbind]; [|discriminate].
    intros [= <-]. unfold no_apostrophe. cbn [forallb]. rewrite Hc.
    exact (IH s r ltac:(lia) Er Hs). }
  destruct (is_low_surrogate c); [discriminate|].
  destruct (is_high_surrogate c).
  - destruct s as [|d s]; [discriminate|].
    destruct (is_low_surrogate d); [|discriminate].
    destruct (encode s) as [r|] eqn:Er; cbn [rbind]; [|discriminate].
    intros [= <-].
    unfold no_apostrophe in Hs. cbn [forallb] in Hs.
    apply andb_prop in Hs as [_ Hs]. cbn [List.length] in Hlen.
    apply no_apostrophe_app; [apply percent_no_apostrophe|].
    exact (IH s r ltac:(lia) Er Hs).
  - destruct (encode s) as [r|] eqn:Er; cbn [rbind]; [|discriminate].
    intros [= <-].
    apply no_apostrophe_app; [apply percent_no_apostrophe|].
    exact (IH s r ltac:(lia) Er Hs).
Qed.

(** X21.  From a row of the leaderboard of [site/app.js] to the detail
    page, for a listed model whose name is well-formed UTF-16 and holds no
    apostrophe.  Whenever the callback returns, the row holds the start
    tag whose [onclick] assigns [detail.html?model=], followed by the
    encoded name, to [window.location.href]; the encoded name is made of
    unreserved characters and [%] and holds no apostrophe, so it ends
    neither the single-quoted string of the script nor the attribute
    around it; and the detail page requested with that query string does
    not navigate away and shows the name in its title and in its heading.
    ([encodeURIComponent] returns an apostrophe as it is: in the row of a
    name that holds one, the string of the script ends at it.) *)
Theorem row_link_opens_the_detail_page (c : code_unit)
  (name u row : jsstring) (data : value) (models : list value) (i : nat)
  (p : page) :
  is_utf16 (c :: name) = true ->
  no_apostrophe (c :: name) = true ->
  get data (lit "models") = Ok (VArr models) ->
  In (VStr (c :: name)) models ->
  encodeURIComponent (VStr (c :: name)) = Ok u ->
  SiteIndex.leaderboard_row data (VStr (c :: name)) i = Ok row ->
  encodeURIComponent (VStr [39]) = Ok [39] /\
  occurs_in
    (lit "<tr onclick=`window.location.href='detail.html?model=" ++ u
     ++ lit "'` class=`clickable`>") row /\
  forallb url_safe u = true /\
  no_apostrophe u = true /\
  (let q := after (detail_page (lit "?model=" ++ u) (Loaded data)) p in
   location_href q = location_href p /\
   title q = (c :: name) ++ lit " - calcolatori-bench" /\
   content q model_name_id = [Text (c :: name)]).
Proof.
  intros Hs Hq Hm Hin He Hrow. split; [reflexivity|]. revert Hrow.
  unfold SiteIndex.leaderboard_row.
  destruct (get data (lit "model_stats")) as [ms|]; cbn [rbind];
    [|discriminate].
  destruct (get_at ms (VStr (c :: name))) as [st|]; cbn [rbind];
    [|discriminate].
  rewrite He. cbn [rbind].
  destruct (get st (lit "passed")) as [a|]; cbn [rbind]; [|discriminate].
  destruct (get st (lit "total")) as [b|]; cbn [rbind]; [|discriminate].
  destruct (get st (lit "percentage")) as [d|]; cbn [rbind];
    [|discriminate].
  intros [= <-].
  unfold encodeURIComponent in He. cbn [to_string] in He.
  split; [|split; [|split]].
  - unfold SiteIndex.row_markup.
    find_hole (lit "<tr onclick=`window.location.href='detail.html?model=")
      (lit "'` class=`clickable`>") 21%nat.
  - exact (proj2 (proj2 (proj2 (encode_read_back _ _ u (Nat.le_refl _) Hs
                                  He)))).
  - exact (encode_no_apostrophe _ _ u (Nat.le_refl _) He Hq).
  - unfold detail_page. cbv zeta.
    rewrite (query_of_link _ _ Hs He). cbn [params_get].
    change (str_eqb (lit "model") (lit "model")) with true. cbv iota.
    exact (detail_page_shows_the_name c name data models p Hm Hin).
Qed.

Lemma row_link_opens_the_detail_page_witness :
  is_utf16 (lit "gpt 4") = true /\
  no_apostrophe (lit "gpt 4") = true /\
  get spaced_name (lit "models") = Ok (VArr [str "gpt 4"]) /\
  In (str "gpt 4") [str "gpt 4"] /\
  encodeURIComponent (str "gpt 4") = Ok (lit "gpt%204") /\
  SiteIndex.leaderboard_row spaced_name (str "gpt 4") 0
  = Ok (site_index_row spaced_name 0 (str "gpt 4")) /\
  occurs_in
    (lit "<tr onclick=`window.location.href='detail.html?model=gpt%204'` class=`clickable`>")
    (site_index_row spaced_name 0 (str "gpt 4")) /\
  title (after (detail_page (lit "?model=gpt%204") (Loaded spaced_name))
           blank_page)
  = lit "gpt 4 - calcolatori-bench".
Proof.
  assert (H : In (str "gpt 4") [str "gpt 4"]) by (now left).
  split; [reflexivity|]. split; [reflexivity|]. split; [reflexivity|].
  split; [exact H|]. split; [reflexivity|]. split; [reflexivity|].
  destruct (proj2 (row_link_opens_the_detail_page 103 (lit "pt 4")
                     (lit "gpt%204")
                     (site_index_row spaced_name 0 (str "gpt 4"))
                     spaced_name [str "gpt 4"] 0 blank_page
                     eq_refl eq_refl eq_refl H eq_refl eq_refl))
    as (Hrow & _ & _ & Hpage).
  split; [exact Hrow|]. exact (proj1 (proj2 Hpage)).
Defined.

Lemma encoded_name_is_url_safe_witness :
  is_utf16 (lit "gpt 4") = true /\
  encodeURIComponent (str "gpt 4") = Ok (lit "gpt%204") /\
  forallb url_safe (lit "gpt%204") = true.
Proof.
  split; [reflexivity|]. split; [reflexivity|].
  exact (proj1 (encoded_name_is_url_safe (lit "gpt 4") (lit "gpt%204")
                  eq_refl eq_refl)).
Defined.

Lemma query_of_an_encoded_name_witness :
  is_utf16 [233; 55357; 56832] = true /\
  encodeURIComponent (VStr [233; 55357; 56832])
  = Ok (lit "%C3%A9%F0%9F%98%80") /\
  params_get (URLSearchParams (lit "?model=%C3%A9%F0%9F%98%80")) (lit "model")
  = Some [233; 55357; 56832].
Proof.
  split; [reflexivity|]. split; [reflexivity|].
  exact (query_of_an_encoded_name [233; 55357; 56832]
           (lit "%C3%A9%F0%9F%98%80") eq_refl eq_refl).
Defined.

(** ** Numbers in the markup *)

Lemma forallb_firstn {A} (f : A -> bool) (n : nat) (l : list A) :
  forallb f l = true -> forallb f (firstn n l) = true.
Proof.
  revert n. induction l as [|x l IH]; intros [|n] H; try reflexivity.
  cbn [forallb firstn] in *. apply andb_prop in H as [Hx Hl].
  now rewrite Hx, IH.
Qed.

Lemma forallb_skipn {A} (f : A -> bool) (n : nat) (l : list A) :
  forallb f l = true -> forallb f (skipn n l) = true.
Proof.
  revert n. induction l as [|x l IH]; intros [|n] H; try reflexivity;
    [exact H|].
  cbn [forallb skipn] in *. apply andb_prop in H as [Hx Hl]. now apply IH.
Qed.

Lemma uint_units_numeral (d : Decimal.uint) :
  forallb numeral_unit (uint_units d) = true.
Proof. induction d; cbn [uint_units forallb]; try rewrite IHd; reflexivity. Qed.

Lemma decimal_numeral (n : N) : forallb numeral_unit (decimal n) = true.
Proof. apply uint_units_numeral. Qed.

Lemma repeat_zero_numeral (n : nat) :
  forallb numeral_unit (repeat_unit 48 n) = true.
Proof. induction n; cbn [repeat_unit forallb]; [|rewrite IHn]; reflexivity. Qed.

Lemma exponent_units_numeral (n : Z) :
  forallb numeral_unit (Num.exponent_units n) = true.
Proof.
  unfold Num.exponent_units. rewrite !forallb_app, decimal_numeral.
  destruct (0 <=? n - 1)%Z; reflexivity.
Qed.

Lemma to_string_numeral (x : number) :
  forallb numeral_unit (Num.to_string x) = true.
Proof.
  destruct x as [s|s| |s m e]; try reflexivity; [destruct s; reflexivity|].
  cbn [Num.to_string]. rewrite forallb_app.
  replace (forallb numeral_unit (if s then lit "-" else [])) with true
    by (destruct s; reflexivity).
  cbn [andb]. unfold Num.to_string_pos.
  destruct (Num.shortest 17 (S754_finite false m e) m e
              (Num.decimal_exponent m e) 1) as [d n].
  pose proof (decimal_numeral (Z.to_N d)) as Hd.
  repeat match goal with
         | |- context [if ?b then _ else _] => destruct b
         end;
    rewrite ?forallb_app, ?repeat_zero_numeral, ?exponent_units_numeral,
      ?forallb_firstn, ?forallb_skipn, ?Hd by exact Hd; reflexivity.
Qed.

Lemma count_unit_app (c : code_unit) (s t : jsstring) :
  count_unit c (s ++ t) = (count_unit c s + count_unit c t)%nat.
Proof. unfold count_unit. now rewrite filter_app, length_app. Qed.

Lemma count_unit_absent (c : code_unit) (s : jsstring) :
  ~ In c s -> count_unit c s = 0%nat.
Proof.
  unfold count_unit. induction s as [|x s IH]; [reflexivity|].
  intros H. cbn [filter].
  destruct (N.eqb_spec c x) as [->|_]; [exfalso; apply H; now left|].
  apply IH. intros Hin. apply H. now right.
Qed.

Lemma count_unit_numeral (c : code_unit) (s : jsstring) :
  numeral_unit c = false -> forallb numeral_unit s = true ->
  count_unit c s = 0%nat.
Proof.
  intros Hc Hs. apply count_unit_absent. intros Hin.
  rewrite forallb_forall in Hs. specialize (Hs c Hin). congruence.
Qed.

Lemma count_angle_esc (c : code_unit) (v : value) :
  c = 60 \/ c = 62 -> count_unit c (esc v) = 0%nat.
Proof. intros Hc. apply count_unit_absent. now apply serialize_no_angle. Qed.

Lemma count_angle_number (c : code_unit) (x : number) :
  c = 60 \/ c = 62 -> count_unit c (Num.to_string x) = 0%nat.
Proof.
  intros [-> | ->]; (apply count_unit_numeral; [reflexivity|]);
    apply to_string_numeral.
Qed.

Lemma count_angle_count (c : code_unit) (n : nat) :
  c = 60 \/ c = 62 -> count_unit c (show_count n) = 0%nat.
Proof.
  intros [-> | ->]; (apply count_unit_numeral; [reflexivity|]);
    apply decimal_numeral.
Qed.

Lemma count_angle_uri (c : code_unit) (model : value) :
  is_utf16 (to_string model) = true -> c = 60 \/ c = 62 ->
  count_unit c (uri_of model) = 0%nat.
Proof.
  intros Hs Hc. unfold uri_of, encodeURIComponent.
  destruct (encode (to_string model)) as [u|] eqn:E; [|reflexivity].
  apply count_unit_absent. intros Hin.
  pose proof (proj2 (proj2 (proj2 (encode_read_back _ _ u (Nat.le_refl _)
                                     Hs E)))) as Hu.
  rewrite forallb_forall in Hu. specialize (Hu c Hin).
  destruct Hc as [-> | ->]; discriminate Hu.
Qed.

(** X22.  When the statistics of a model are numbers, the row of each
    leaderboard has exactly the angle brackets of its template: the rank,
    the escaped name, the numbers and the encoded name add none. *)
Theorem numeric_statistics_add_no_markup (data model : value) (i : nat)
  (c : code_unit) :
  numeric_stats data model -> c = 60 \/ c = 62 ->
  count_unit c (matrix_a_row data i model)
  = count_unit c (MatrixA.row_markup [] [] [] [] []) /\
  (exists html, matrix_b_row data i model = Element (lit "tr") html /\
     count_unit c html = count_unit c (MatrixB.row_markup [] [] [] [] [])) /\
  (is_utf16 (to_string model) = true ->
   count_unit c (site_index_row data i model)
   = count_unit c (SiteIndex.row_markup [] [] [] [] [] [])).
Proof.
  intros (a & b & p & Ha & Hb & Hp) Hc.
  pose proof (count_angle_esc c model Hc) as He.
  pose proof (count_angle_count c (i + 1) Hc) as Hi.
  pose proof (count_angle_number c a Hc) as Hna.
  pose proof (count_angle_number c b Hc) as Hnb.
  pose proof (count_angle_number c p Hc) as Hnp.
  split; [|split; [eexists; split; [reflexivity|]|]].
  - unfold matrix_a_row, field, MatrixA.row_markup. rewrite Ha, Hb, Hp.
    cbn [to_string]. rewrite !count_unit_app, He, Hi, Hna, Hnb, Hnp.
    reflexivity.
  - unfold field, MatrixB.row_markup, MatrixB.escapeHtml.
    fold (esc model). rewrite Ha, Hb, Hp.
    cbn [to_string]. rewrite !count_unit_app, He, Hi, Hna, Hnb, Hnp.
    reflexivity.
  - intros Hs. pose proof (count_angle_uri c model Hs Hc) as Hu.
    unfold site_index_row, field, SiteIndex.row_markup. rewrite Ha, Hb, Hp.
    cbn [to_string]. rewrite !count_unit_app, He, Hi, Hna, Hnb, Hnp, Hu.
    reflexivity.
Qed.

Lemma numeric_statistics_add_no_markup_witness :
  numeric_stats sample (str "A") /\
  (60 = 60 \/ 60 = 62) /\
  count_unit 60 (matrix_a_row sample 0 (str "A")) = 14%nat.
Proof.
  assert (H : numeric_stats sample (str "A")).
  { exists (Num.of_Z 1), (Num.of_Z 1), (Num.of_Z 100). repeat split. }
  split; [exact H|]. split; [now left|].
  rewrite (proj1 (numeric_statistics_add_no_markup sample (str "A") 0 60 H
                    (or_introl eq_refl))).
  reflexivity.
Defined.
